(** * ticket_backend: the routes of backend/server.js

    A shallow embedding of the webhook route and of the payment route of
    [backend/server.js], of the Purchase schema of
    [backend/models/Purchase.js], and of the earlier version of the webhook
    (src/unnamed/part_000).

    JavaScript values are what [JSON.parse] returns plus [undefined]; the
    handler is a function in a state-and-exception monad over a [world] made
    of the Purchase collection, a logical clock and the chronological trace
    of effects (console lines, the ledger save, the calls to qrcode, sharp
    and SendGrid).  Libraries outside the repository (crypto, JSON,
    mongoose's casting, MongoDB's availability, qrcode, sharp, SendGrid) are
    fields of one record of externals over which every theorem is
    quantified.

    Modelling conventions:
    - a number is an exact rational ([Q]) or one of the two infinities, which
      [JSON.parse] returns for a literal beyond the range of the doubles
      (1e999); the rounding of doubles is not represented;
    - strings are byte strings; [toUpperCase] maps the letters a to z of a
      string made of ASCII characters, and is left to the externals on
      every other string, where the mapping is Unicode's;
    - a template literal and the comparison [<] convert their operands: the
      conversion of an object with an own property [toString] throws, and
      the handler's steps throw where the source converts;
    - the deliveries are handled one after the other: a delivery is one call
      of the handler on the world left by the previous one. *)

From Stdlib Require Import List String Ascii Bool Arith ZArith QArith Qround Lia.
From Stdlib Require Import Strings.Byte.
Import ListNotations.

Local Open Scope string_scope.
Local Open Scope list_scope.

(** ** JavaScript values *)

Set Warnings "-register-all".

Inductive value : Type :=
| VUndefined
| VNull
| VBool (b : bool)
| VNum (q : Q)
| VInfinity (negative : bool)
| VStr (s : string)
| VArr (items : list value)
| VObj (fields : list (string * value)).

(** Errors a promise can reject with or a statement can throw.  Only the
    server errors of MongoDB carry a numeric [code].

    [NeverSettles] is no error of JavaScript: it is the outcome of a
    computation that does not return, a loop whose test never fails.  It
    comes from the counted loop of line 74 only, which no [try] of the
    handler encloses. *)
Inductive js_error : Type :=
| TypeError (what : string)
| SyntaxError
| ValidationError
| MongoServerError (code : Z)
| MongoNetworkError
| LibraryError (what : string)
| NeverSettles.

(** [dbError.code] *)
Definition error_code (e : js_error) : option Z :=
  match e with
  | MongoServerError c => Some c
  | _ => None
  end.

(** [e.code === c] *)
Definition code_is (e : js_error) (c : Z) : bool :=
  match error_code e with
  | Some c' => Z.eqb c' c
  | None => false
  end.

Inductive completion (A : Type) : Type :=
| Normal (a : A)
| Throw (e : js_error).
Arguments Normal {A} a.
Arguments Throw {A} e.

Fixpoint lookup (k : string) (fields : list (string * value)) : value :=
  match fields with
  | [] => VUndefined
  | (k', v) :: rest => if String.eqb k k' then v else lookup k rest
  end.

(** [v.k] for the property names the handlers read (event, data, customer,
    metadata, reference, amount, cart, full_name, email, type, quantity,
    name, status, message): none of them is defined on the prototypes of
    strings, numbers, booleans or arrays, so only objects answer with
    something else than [undefined], and [null] and [undefined] throw. *)
Definition get (v : value) (k : string) : completion value :=
  match v with
  | VUndefined => Throw (TypeError "Cannot read properties of undefined")
  | VNull => Throw (TypeError "Cannot read properties of null")
  | VObj fields => Normal (lookup k fields)
  | _ => Normal VUndefined
  end.

(** [v.k] where it cannot throw. *)
Definition prop (v : value) (k : string) : value :=
  match get v k with
  | Normal x => x
  | Throw _ => VUndefined
  end.

Definition Qeqb0 (q : Q) : bool := Qeq_bool q 0.

(** ToBoolean *)
Definition truthy (v : value) : bool :=
  match v with
  | VUndefined | VNull => false
  | VBool b => b
  | VNum q => negb (Qeqb0 q)
  | VInfinity _ => true
  | VStr s => negb (String.eqb s "")
  | VArr _ | VObj _ => true
  end.

(** [v === 'lit'] *)
Definition strict_eq_string (v : value) (lit : string) : bool :=
  match v with
  | VStr s => String.eqb s lit
  | _ => false
  end.

(** ** Implicit conversions *)

(** Has the object an own property of this name? *)
Definition has_own (k : string) (fields : list (string * value)) : bool :=
  existsb (fun kv => String.eqb k (fst kv)) fields.

(** Does ToPrimitive, and so ToString and ToNumber, return for this value?
    An object parsed from JSON is converted by the methods it inherits,
    [Object.prototype.toString] for an object and [Array.prototype.join]
    for an array.  An own property [toString], which JSON cannot make
    callable, hides the inherited method, and [valueOf] answers the object
    itself: the conversion throws a TypeError.  An array converts each of
    its elements but [null]. *)
Fixpoint convertible (v : value) : bool :=
  match v with
  | VArr items =>
      (fix all (l : list value) : bool :=
         match l with
         | [] => true
         | x :: rest => convertible x && all rest
         end) items
  | VObj fields => negb (has_own "toString" fields)
  | _ => true
  end.

Definition unconvertible : js_error :=
  TypeError "Cannot convert object to primitive value".

(** The conversion of [v] where it stands in a template literal or under
    [<].  The text or number it gives is not computed here: the trace keeps
    the value. *)
Definition ToPrimitive (v : value) : completion value :=
  if convertible v then Normal v else Throw unconvertible.

(** A JavaScript number as [<] sees it. *)
Inductive number : Type :=
| Finite (q : Q)
| NaN
| Infinite (negative : bool).

(** ** Strings and buffers *)

Definition ascii_upper (c : ascii) : ascii :=
  let n := nat_of_ascii c in
  if (97 <=? n)%nat && (n <=? 122)%nat then ascii_of_nat (n - 32) else c.

(** [s.toUpperCase()] for a string of ASCII characters. *)
Fixpoint ascii_toUpperCase (s : string) : string :=
  match s with
  | EmptyString => EmptyString
  | String c r => String (ascii_upper c) (ascii_toUpperCase r)
  end.

(** Is every character of the string an ASCII character? *)
Definition is_ascii (s : string) : bool :=
  forallb (fun c => (nat_of_ascii c <? 128)%nat) (list_ascii_of_string s).

Definition hex_digit (n : nat) : ascii :=
  match String.get n "0123456789abcdef" with
  | Some c => c
  | None => "0"%char
  end.

Definition hex_of_byte (b : byte) : string :=
  let n := Byte.to_nat b in
  String (hex_digit (n / 16)) (String (hex_digit (n mod 16)) EmptyString).

(** [buf.toString('hex')] *)
Fixpoint Buffer_toString_hex (buf : list byte) : string :=
  match buf with
  | [] => EmptyString
  | b :: rest => hex_of_byte b ++ Buffer_toString_hex rest
  end.

(** [s.split(",")] *)
Fixpoint split_comma (s : string) : list string :=
  match s with
  | EmptyString => [EmptyString]
  | String c r =>
      if Ascii.eqb c ","%char then EmptyString :: split_comma r
      else match split_comma r with
           | h :: t => String c h :: t
           | [] => [String c EmptyString]
           end
  end.

(** ** The Purchase model (backend/models/Purchase.js) *)

(** The object literal handed to [new Purchase(...)]. *)
Record PurchaseInput : Type := {
  in_buyerName : value;
  in_buyerEmail : value;
  in_inventory : list (value * value * value);
  in_totalAmount : value;
  in_paystackReference : value
}.

Record InventoryLine : Type := {
  ticketType : option string;
  quantity : option Q;
  name : option string
}.

(** A stored document. *)
Record Purchase : Type := {
  buyerName : string;
  buyerEmail : string;
  inventory : list InventoryLine;
  totalAmount : Q;
  paystackReference : string;
  purchaseDate : nat
}.

(** What mongoose makes of a value put at a path of some schema type. *)
Inductive cast_result (A : Type) : Type :=
| CastError
| Absent
| Cast (a : A).
Arguments CastError {A}.
Arguments Absent {A}.
Arguments Cast {A} a.

(** ** Messages and effects *)

(** A template literal: its literal chunks and the interpolated values. *)
Inductive piece : Type :=
| Lit (s : string)
| Interp (v : value).

Record attachment : Type := {
  att_content : string;
  att_filename : string;
  att_type : string;
  att_disposition : string
}.

Record message : Type := {
  msg_to : value;
  msg_from : string;
  msg_subject : list piece;
  msg_html : list piece;
  msg_attachments : list attachment
}.

Inductive log_line : Type :=
| LogInvalidSignature
| LogPurchaseSaved (reference : value)
| LogAlreadyProcessed (reference : value)
| LogDatabaseSaveError (e : js_error)
| LogPaymentSuccessful (email : value)
| LogTicketSent (item_name : value) (number : nat) (email : value)
| LogTicketError (item_name : value) (number : nat) (e : js_error).

(** What the handler does to the outside, in the order it does it; the calls
    to the ledger, qrcode, sharp and SendGrid carry their outcome. *)
Inductive effect : Type :=
| Console (l : log_line)
| DbSave (doc : PurchaseInput) (r : completion unit)
| QrCode (text : string) (r : completion string)
| Composite (path : list string) (r : completion (list byte))
| SendMail (m : message) (r : completion unit).

Record world : Type := {
  ledger : list Purchase;
  tick : nat;
  trace : list effect
}.

(** ** What lies outside the repository *)

Record externals : Type := {
  (** [crypto.createHmac('sha512', key).update(data).digest('hex')] *)
  hmac_sha512_hex : string -> string -> string;
  (** [JSON.parse]; [None] is its SyntaxError *)
  JSON_parse : string -> option value;
  (** ToNumber of a string, or of an array or object that converts *)
  ToNumber_other : value -> number;
  (** [s.toUpperCase()] for a string with a character outside ASCII *)
  toUpperCase_other : string -> string;
  (** the turns a loop without end gets before the process is stopped *)
  uptime : nat;
  (** mongoose's casts of a value that is neither absent nor of the type *)
  cast_String : value -> cast_result string;
  cast_Number : value -> cast_result Q;
  (** a failure of the store (connection, server) at a given time *)
  store_fault : nat -> option js_error;
  (** the bytes of [crypto.randomBytes] at a given time *)
  entropy : nat -> nat -> byte;
  (** [qrcode.toDataURL(text, { width, margin })] *)
  qrcode_toDataURL : nat -> string -> Z -> Z -> completion string;
  (** [Buffer.from(s, 'base64')] and [buf.toString('base64')] *)
  Buffer_from_base64 : string -> list byte;
  Buffer_toString_base64 : list byte -> string;
  (** [sharp(path).composite([{ input, top, left }]).png().toBuffer()] *)
  sharp_composite : nat -> list string -> list byte -> Z -> Z -> completion (list byte);
  (** [sgMail.send(msg)] *)
  sgMail_send : nat -> message -> completion unit
}.

(** [process.env] and [__dirname] *)
Record config : Type := {
  PAYSTACK_SECRET_KEY : option string;
  dirname : string
}.

(** A request as [express.raw({ type: 'application/json' })] leaves it: the
    body is a Buffer only when the content type matched. *)
Record request : Type := {
  body : option string;
  x_paystack_signature : option string
}.

(** ** The monad of the handler *)

Definition M (A : Type) : Type := world -> completion A * world.

Definition ret {A : Type} (a : A) : M A := fun w => (Normal a, w).

Definition bind {A B : Type} (m : M A) (k : A -> M B) : M B :=
  fun w =>
    match m w with
    | (Normal a, w') => k a w'
    | (Throw e, w') => (Throw e, w')
    end.

Definition lift {A : Type} (c : completion A) : M A := fun w => (c, w).

Definition try_catch {A : Type} (block : M A) (handler : js_error -> M A) : M A :=
  fun w =>
    match block w with
    | (Normal a, w') => (Normal a, w')
    | (Throw e, w') => handler e w'
    end.

Definition emit (e : effect) : M unit :=
  fun w => (Normal tt, {| ledger := ledger w; tick := tick w; trace := trace w ++ [e] |}).

Definition now : M nat := fun w => (Normal (tick w), w).

Definition advance : M unit :=
  fun w => (Normal tt, {| ledger := ledger w; tick := S (tick w); trace := trace w |}).

(** An awaited call to a library: the call is recorded with its outcome. *)
Definition call {A : Type} (record : completion A -> effect) (r : completion A) : M A :=
  bind (emit (record r)) (fun _ => lift r).

Declare Scope js_scope.
Delimit Scope js_scope with js.
Notation "x <- c ;; k" := (bind c (fun x => k))
  (at level 100, c at next level, right associativity) : js_scope.
Notation "c ;;; k" := (bind c (fun _ => k))
  (at level 100, right associativity) : js_scope.
Local Open Scope js_scope.

(** ** The ledger: [newPurchase.save()] *)

Section Handler.

Variable ext : externals.
Variable cfg : config.

(** A path of type String. *)
Definition castString (v : value) : cast_result string :=
  match v with
  | VUndefined | VNull => Absent
  | VStr s => Cast s
  | _ => cast_String ext v
  end.

(** A path of type Number.  An infinity, which [Q] does not hold, is left
    to the externals with the values that are not numbers. *)
Definition castNumber (v : value) : cast_result Q :=
  match v with
  | VUndefined | VNull => Absent
  | VNum q => Cast q
  | _ => cast_Number ext v
  end.

(** [required: true] on a String path: present and not empty. *)
Definition required_String (c : cast_result string) : option string :=
  match c with
  | Cast s => if String.eqb s "" then None else Some s
  | _ => None
  end.

(** [required: true] on a Number path. *)
Definition required_Number (c : cast_result Q) : option Q :=
  match c with
  | Cast q => Some q
  | _ => None
  end.

(** A path that is not required: only a failed cast is an error. *)
Definition optional {A : Type} (c : cast_result A) : option (option A) :=
  match c with
  | CastError => None
  | Absent => Some None
  | Cast a => Some (Some a)
  end.

Definition validate_line (l : value * value * value) : option InventoryLine :=
  let '(ty, qty, nm) := l in
  match optional (castString ty), optional (castNumber qty), optional (castString nm) with
  | Some t, Some q, Some n => Some {| ticketType := t; quantity := q; name := n |}
  | _, _, _ => None
  end.

Fixpoint validate_inventory (ls : list (value * value * value)) : option (list InventoryLine) :=
  match ls with
  | [] => Some []
  | l :: rest =>
      match validate_line l, validate_inventory rest with
      | Some l', Some rest' => Some (l' :: rest')
      | _, _ => None
      end
  end.

(** The schema of Purchase.js applied to the constructor's argument; [None]
    is mongoose's ValidationError. *)
Definition validate (doc : PurchaseInput) (date : nat) : option Purchase :=
  match required_String (castString (in_buyerName doc)),
        required_String (castString (in_buyerEmail doc)),
        validate_inventory (in_inventory doc),
        required_Number (castNumber (in_totalAmount doc)),
        required_String (castString (in_paystackReference doc)) with
  | Some bn, Some be, Some inv, Some amt, Some ref =>
      Some {| buyerName := bn; buyerEmail := be; inventory := inv;
              totalAmount := amt; paystackReference := ref; purchaseDate := date |}
  | _, _, _, _, _ => None
  end.

(** Is there a document with this [paystackReference] (the unique index)? *)
Definition has_reference (ref : string) (l : list Purchase) : bool :=
  existsb (fun p => String.eqb (paystackReference p) ref) l.

(** The outcome of an insert at time [t]: validation by mongoose, then the
    store, whose unique index on [paystackReference] answers E11000. *)
Definition insert (t : nat) (l : list Purchase) (doc : PurchaseInput) : completion Purchase :=
  match validate doc t with
  | None => Throw ValidationError
  | Some p =>
      match store_fault ext t with
      | Some e => Throw e
      | None =>
          if has_reference (paystackReference p) l
          then Throw (MongoServerError 11000)
          else Normal p
      end
  end.

Definition settled {A : Type} (c : completion A) : completion unit :=
  match c with
  | Normal _ => Normal tt
  | Throw e => Throw e
  end.

(** [await newPurchase.save()] *)
Definition Purchase_save (doc : PurchaseInput) : M unit :=
  fun w =>
    let r := insert (tick w) (ledger w) doc in
    (settled r,
     {| ledger := match r with
                  | Normal p => ledger w ++ [p]
                  | Throw _ => ledger w
                  end;
        tick := S (tick w);
        trace := trace w ++ [DbSave doc (settled r)] |}).

(** ** The steps of one ticket *)

(** [crypto.randomBytes(n)] at time [t] *)
Definition randomBytes (t n : nat) : list byte := map (entropy ext t) (seq 0 n).

(** The receiver of [.toUpperCase()]: the method exists on strings only. *)
Definition toUpperCase_receiver (v : value) : completion string :=
  match v with
  | VStr s => Normal s
  | VUndefined | VNull => Throw (TypeError "Cannot read properties of undefined")
  | _ => Throw (TypeError "item.type.toUpperCase is not a function")
  end.

(** [s.toUpperCase()] *)
Definition toUpperCase (s : string) : string :=
  if is_ascii s then ascii_toUpperCase s else toUpperCase_other ext s.

(** [`ULES-${type.toUpperCase()}-${bytes.toString('hex').toUpperCase()}`] *)
Definition ticketId (type : string) (bytes : list byte) : string :=
  "ULES-" ++ toUpperCase type ++ "-" ++ toUpperCase (Buffer_toString_hex bytes).

(** [Buffer.from(parts[1], 'base64')]: an undefined first argument throws. *)
Definition Buffer_from (part : option string) : completion (list byte) :=
  match part with
  | Some s => Normal (Buffer_from_base64 ext s)
  | None => Throw (TypeError "The first argument must be of type string")
  end.

Definition ticket_message (email item_name full_name : value) (id : string)
    (png : list byte) : message :=
  {| msg_to := email;
     msg_from := "sadiqadetola08@gmail.com";
     msg_subject := [Lit "Your ULES Dinner Ticket: "; Interp item_name];
     msg_html := [Lit "<h1>Thank You, "; Interp full_name;
                  Lit "!</h1><p>Please find your attached ticket. ID: "; Lit id; Lit "</p>"];
     msg_attachments :=
       [{| att_content := Buffer_toString_base64 ext png;
           att_filename := "ules-ticket-" ++ id ++ ".png";
           att_type := "image/png";
           att_disposition := "attachment" |}] |}.

(** The body of the inner [try] (server.js, lines 76 to 100).  The
    template literals of the subject (line 90), of the body (line 91) and
    of the console line (line 100) convert the values they hold. *)
Definition issue_ticket (customer metadata item : value) (i : nat) : M unit :=
  ty <- lift (get item "type") ;;
  type <- lift (toUpperCase_receiver ty) ;;
  t <- now ;;
  let id := ticketId type (randomBytes t 4) in
  qrCodeDataUrl <- call (QrCode id) (qrcode_toDataURL ext t id 250 1) ;;
  qrCodeBuffer <- lift (Buffer_from (nth_error (split_comma qrCodeDataUrl) 1)) ;;
  let baseTicketPath := [dirname cfg; "assets"; (type ++ "-ticket.png")%string] in
  finalTicketBuffer <-
    call (Composite baseTicketPath)
         (sharp_composite ext t baseTicketPath qrCodeBuffer 100 650) ;;
  email <- lift (get customer "email") ;;
  item_name <- lift (get item "name") ;;
  lift (ToPrimitive item_name) ;;;
  full_name <- lift (get metadata "full_name") ;;
  lift (ToPrimitive full_name) ;;;
  let msg := ticket_message email item_name full_name id finalTicketBuffer in
  call (SendMail msg) (sgMail_send ext t msg) ;;;
  lift (ToPrimitive item_name) ;;;
  lift (ToPrimitive email) ;;;
  emit (Console (LogTicketSent item_name (i + 1) email)).

(** One turn of the inner loop: the [try], its [catch], and the time it
    takes.  The console line of the [catch] (line 103) converts
    [item.name], and what it throws leaves the turn and the loops. *)
Definition fulfil_unit (customer metadata item : value) (i : nat) : M unit :=
  try_catch (issue_ticket customer metadata item i)
    (fun ticketError =>
       item_name <- lift (get item "name") ;;
       lift (ToPrimitive item_name) ;;;
       emit (Console (LogTicketError item_name (i + 1) ticketError))) ;;;
  advance.

(** ** The loops *)

(** ToNumber of a value that converts. *)
Definition ToNumber (v : value) : number :=
  match v with
  | VUndefined => NaN
  | VNull => Finite 0
  | VBool b => Finite (if b then 1 else 0)
  | VNum q => Finite q
  | VInfinity negative => Infinite negative
  | _ => ToNumber_other ext v
  end.

Definition Qltb (x y : Q) : bool := negb (Qle_bool y x).

(** [i < bound] for a counter [i] *)
Definition js_lt (i : nat) (bound : number) : bool :=
  match bound with
  | Finite q => Qltb (inject_Z (Z.of_nat i)) q
  | NaN => false
  | Infinite negative => negb negative
  end.

(** [i < bound] holds for every counter. *)
Definition unbounded (bound : number) : bool :=
  match bound with
  | Infinite false => true
  | _ => false
  end.

(** The number of turns of [for (let i = 0; i < bound; i++)]: up to the
    first counter that is not below the bound, and for as long as the
    process lives when there is none. *)
Definition trip_count (bound : number) : nat :=
  match bound with
  | Finite q => Z.to_nat (Qceiling q)
  | NaN => 0
  | Infinite negative => if negative then 0 else uptime ext
  end.

(** [for (; i < bound; i++) body(i)], with the turns left as fuel. *)
Fixpoint for_lt (fuel i : nat) (bound : number) (body : nat -> M unit) : M unit :=
  match fuel with
  | O => ret tt
  | S fuel' =>
      if js_lt i bound
      then body i ;;; for_lt fuel' (S i) bound body
      else ret tt
  end.

(** The inner loop for one cart line (line 74); [body item i] is what the
    loop does at turn [i].  The test converts [item.quantity].  Under a
    bound that no counter reaches (the quantity 1e999) the loop is left by
    a throw of its body only: it runs for the turns the process lives
    ([uptime]), and the handler never answers. *)
Definition for_quantity (body : value -> nat -> M unit) (item : value) : M unit :=
  qty <- lift (get item "quantity") ;;
  lift (ToPrimitive qty) ;;;
  let bound := ToNumber qty in
  for_lt (trip_count bound) 0 bound (body item) ;;;
  if unbounded bound then lift (Throw NeverSettles) else ret tt.

(** The values [for (const item of v)] goes through. *)
Definition iterate (v : value) : completion (list value) :=
  match v with
  | VArr items => Normal items
  | VStr s => Normal (map (fun c => VStr (String c EmptyString)) (list_ascii_of_string s))
  | _ => Throw (TypeError "cart is not iterable")
  end.

Fixpoint for_of (items : list value) (body : value -> M unit) : M unit :=
  match items with
  | [] => ret tt
  | item :: rest => body item ;;; for_of rest body
  end.

(** ** The webhook route *)

(** [arr.map(f)] for a callback that can throw. *)
Fixpoint map_items {A : Type} (f : value -> completion A) (items : list value)
  : completion (list A) :=
  match items with
  | [] => Normal []
  | item :: rest =>
      match f item with
      | Throw e => Throw e
      | Normal a =>
          match map_items f rest with
          | Throw e => Throw e
          | Normal rest' => Normal (a :: rest')
          end
      end
  end.

(** [cart.map(f)]: only an array has the method. *)
Definition Array_map {A : Type} (cart : value) (f : value -> completion A)
  : completion (list A) :=
  match cart with
  | VArr items => map_items f items
  | _ => Throw (TypeError "cart.map is not a function")
  end.

(** [item => ({ ticketType: item.type, quantity: item.quantity, name: item.name })] *)
Definition inventory_line (item : value) : completion (value * value * value) :=
  match get item "type", get item "quantity", get item "name" with
  | Normal ty, Normal qty, Normal nm => Normal (ty, qty, nm)
  | Throw e, _, _ => Throw e
  | _, Throw e, _ => Throw e
  | _, _, Throw e => Throw e
  end.

(** The argument of [new Purchase(...)] (lines 51 to 57); reading a property
    of [null] or [undefined], or mapping what is not an array, throws. *)
Definition purchase_input (customer metadata reference amount cart : value)
  : completion PurchaseInput :=
  match get metadata "full_name" with
  | Throw e => Throw e
  | Normal full_name =>
      match get customer "email" with
      | Throw e => Throw e
      | Normal email =>
          match Array_map cart inventory_line with
          | Throw e => Throw e
          | Normal inv =>
              Normal {| in_buyerName := full_name;
                        in_buyerEmail := email;
                        in_inventory := inv;
                        in_totalAmount := amount;
                        in_paystackReference := reference |}
          end
      end
  end.

(** The body of the outer [try] (lines 50 to 59); the console line of
    line 59 converts [reference]. *)
Definition save_purchase (customer metadata reference amount cart : value) : M unit :=
  doc <- lift (purchase_input customer metadata reference amount cart) ;;
  Purchase_save doc ;;;
  lift (ToPrimitive reference) ;;;
  emit (Console (LogPurchaseSaved reference)).

(** The outer [try] with its [catch] (lines 49 to 68): [Some status] when the
    handler returns from inside the [catch].  The console line of line 64
    converts [reference] inside the [catch]: what it throws leaves the
    handler. *)
Definition record_purchase (customer metadata reference amount cart : value)
  : M (option Z) :=
  try_catch (save_purchase customer metadata reference amount cart ;;; ret None)
    (fun dbError =>
       if code_is dbError 11000
       then lift (ToPrimitive reference) ;;;
            emit (Console (LogAlreadyProcessed reference)) ;;;
            ret (Some 200%Z)
       else emit (Console (LogDatabaseSaveError dbError)) ;;; ret None).

(** [v || []] *)
Definition or_empty (v : value) : value := if truthy v then v else VArr [].

(** The log line, which converts [customer.email], and the two loops
    (lines 70 to 106). *)
Definition fulfil_cart (customer metadata cart : value) : M unit :=
  email <- lift (get customer "email") ;;
  lift (ToPrimitive email) ;;;
  emit (Console (LogPaymentSuccessful email)) ;;;
  items <- lift (iterate cart) ;;
  for_of items (for_quantity (fulfil_unit customer metadata)).

(** The branch [event.event === 'charge.success'] (lines 46 to 106) and the
    acknowledgement of line 109. *)
Definition charge_success (event : value) : M Z :=
  data <- lift (get event "data") ;;
  customer <- lift (get data "customer") ;;
  metadata <- lift (get data "metadata") ;;
  reference <- lift (get data "reference") ;;
  amount <- lift (get data "amount") ;;
  cart_field <- lift (get metadata "cart") ;;
  let cart := or_empty cart_field in
  returned <- record_purchase customer metadata reference amount cart ;;
  match returned with
  | Some status => ret status
  | None => fulfil_cart customer metadata cart ;;; ret 200%Z
  end.

Definition of_option {A : Type} (o : option A) (e : js_error) : completion A :=
  match o with
  | Some a => Normal a
  | None => Throw e
  end.

(** [hash !== req.headers['x-paystack-signature']] *)
Definition signature_differs (hash : string) (header : option string) : bool :=
  match header with
  | Some s => negb (String.eqb hash s)
  | None => true
  end.

(** [app.post('/api/paystack-webhook', ...)]: the status sent, or the error
    the handler's promise rejects with (no response is sent then). *)
Definition paystack_webhook (req : request) : M Z :=
  secret <- lift (of_option (PAYSTACK_SECRET_KEY cfg)
                    (TypeError "The key argument must be of type string")) ;;
  raw <- lift (of_option (body req)
                 (TypeError "The data argument must be of type string or Buffer")) ;;
  let hash := hmac_sha512_hex ext secret raw in
  if signature_differs hash (x_paystack_signature req)
  then emit (Console LogInvalidSignature) ;;; ret 401%Z
  else
    event <- lift (of_option (JSON_parse ext raw) SyntaxError) ;;
    type <- lift (get event "event") ;;
    if strict_eq_string type "charge.success"
    then charge_success event
    else ret 200%Z.

End Handler.

(** ** Notions the statements use *)

(** A world with nothing in it but the time. *)
Definition blank (t : nat) : world := {| ledger := []; tick := t; trace := [] |}.

(** A computation that does not look at the ledger or at the past: from any
    world it does what it does from the blank world of the same time, after
    what was already there. *)
Definition framed {A : Type} (m : M A) : Prop :=
  forall w,
    m w = (fst (m (blank (tick w))),
           {| ledger := ledger w;
              tick := tick (snd (m (blank (tick w))));
              trace := trace w ++ trace (snd (m (blank (tick w)))) |}).

(** The messages SendGrid accepted. *)
Fixpoint sent_mails (l : list effect) : list message :=
  match l with
  | [] => []
  | SendMail m (Normal _) :: rest => m :: sent_mails rest
  | _ :: rest => sent_mails rest
  end.

(** The artifacts sharp produced. *)
Fixpoint artifacts (l : list effect) : list (list byte) :=
  match l with
  | [] => []
  | Composite _ (Normal png) :: rest => png :: artifacts rest
  | _ :: rest => artifacts rest
  end.

Definition is_save (e : effect) : bool :=
  match e with
  | DbSave _ _ => true
  | _ => false
  end.

(** The effects of the per-unit loop: the calls to qrcode, sharp and SendGrid
    and the two console lines of a unit. *)
Definition is_fulfilment (e : effect) : bool :=
  match e with
  | QrCode _ _ | Composite _ _ | SendMail _ _ => true
  | Console (LogTicketSent _ _ _) | Console (LogTicketError _ _ _) => true
  | _ => false
  end.

(** Does a ledger write come, with its outcome, before the first effect of
    fulfilment? *)
Fixpoint write_precedes_fulfilment (l : list effect) : bool :=
  match l with
  | [] => false
  | e :: rest =>
      if is_save e then true
      else if is_fulfilment e then false
      else write_precedes_fulfilment rest
  end.

(** What a run of the handler added to the trace. *)
Definition new_effects (w w' : world) : list effect :=
  skipn (List.length (trace w)) (trace w').

Definition non_nullish (v : value) : bool :=
  match v with
  | VUndefined | VNull => false
  | _ => true
  end.

(** A cart line the loop of line 74 serves to its end: the line is there,
    its quantity converts to a number other than the positive infinity,
    and its name converts. *)
Definition servable (ext : externals) (item : value) : bool :=
  non_nullish item
  && convertible (prop item "quantity")
  && negb (unbounded (ToNumber ext (prop item "quantity")))
  && convertible (prop item "name").

(** A cart the loops of lines 73 and 74 go through without throwing. *)
Definition iterable_lines (ext : externals) (cart : value) : bool :=
  match cart with
  | VArr items => forallb (servable ext) items
  | VStr _ => true
  | _ => false
  end.

(** The data of a charge.success the handler reads and converts without
    throwing: data, customer and metadata are there, the reference and the
    customer's email convert, and the cart is absent or falsy, a string,
    or an array of lines the loop serves. *)
Definition charge_shaped (ext : externals) (event : value) : bool :=
  match get event "data" with
  | Throw _ => false
  | Normal data =>
      match get data "customer", get data "metadata" with
      | Normal customer, Normal metadata =>
          match get metadata "cart" with
          | Normal cart_field =>
              non_nullish customer
              && convertible (prop data "reference")
              && convertible (prop customer "email")
              && iterable_lines ext (or_empty cart_field)
          | Throw _ => false
          end
      | _, _ => false
      end
  end.

(** The events the handler reads and converts without throwing. *)
Definition well_shaped (ext : externals) (event : value) : bool :=
  match get event "event" with
  | Throw _ => false
  | Normal type =>
      if strict_eq_string type "charge.success" then charge_shaped ext event else true
  end.

Definition built (customer metadata reference amount : value) (items : list value)
  : PurchaseInput :=
  {| in_buyerName := prop metadata "full_name";
     in_buyerEmail := prop customer "email";
     in_inventory :=
       map (fun it => (prop it "type", prop it "quantity", prop it "name")) items;
     in_totalAmount := amount;
     in_paystackReference := reference |}.

(** The console line that ends the ledger step when the handler goes on:
    after a save, the line of line 59, or the line of the [catch] for what
    the conversion of the reference threw. *)
Definition ledger_line (reference : value) (r : completion Purchase) : log_line :=
  match r with
  | Normal _ =>
      if convertible reference then LogPurchaseSaved reference
      else LogDatabaseSaveError unconvertible
  | Throw e => LogDatabaseSaveError e
  end.

(** What follows the ledger step (lines 65 and 70 to 109): the status
    returned from inside the [catch], or the loops and the acknowledgement. *)
Definition after_ledger (ext : externals) (cfg : config) (customer metadata cart : value)
    (returned : option Z) : M Z :=
  match returned with
  | Some status => ret status
  | None => fulfil_cart ext cfg customer metadata cart ;;; ret 200%Z
  end.

(** The request is signed with the secret and its body is JSON for [event]. *)
Definition delivers (ext : externals) (cfg : config) (req : request) (event : value) : Prop :=
  exists secret raw,
    PAYSTACK_SECRET_KEY cfg = Some secret /\
    body req = Some raw /\
    x_paystack_signature req = Some (hmac_sha512_hex ext secret raw) /\
    JSON_parse ext raw = Some event.

(** [event] is a charge.success whose data destructure to these values. *)
Definition is_charge (event customer metadata reference amount cart_field : value) : Prop :=
  get event "event" = Normal (VStr "charge.success") /\
  exists data,
    get event "data" = Normal data /\
    get data "customer" = Normal customer /\
    get data "metadata" = Normal metadata /\
    get data "reference" = Normal reference /\
    get data "amount" = Normal amount /\
    get metadata "cart" = Normal cart_field.

Section Units.

Variable ext : externals.
Variable cfg : config.

(** The turns of the inner loop for one line, as the pairs (line, index). *)
Definition line_units (item : value) : list (value * nat) :=
  match get item "quantity" with
  | Normal qty => map (pair item) (seq 0 (trip_count ext (ToNumber ext qty)))
  | Throw _ => []
  end.

(** The turns of the two loops over the lines of a cart, in order. *)
Definition units (items : list value) : list (value * nat) :=
  flat_map line_units items.

(** Running a body over units one after the other. *)
Fixpoint run_units (us : list (value * nat)) (body : value -> nat -> M unit) : M unit :=
  match us with
  | [] => ret tt
  | (item, i) :: rest => body item i ;;; run_units rest body
  end.

(** What one unit does when it is run on its own at time [t]. *)
Definition unit_effects (customer metadata item : value) (i t : nat) : list effect :=
  trace (snd (fulfil_unit ext cfg customer metadata item i (blank t))).

(** The effects of units run one per tick from time [t]. *)
Fixpoint fulfilment_effects (customer metadata : value) (us : list (value * nat)) (t : nat)
  : list effect :=
  match us with
  | [] => []
  | (item, i) :: rest =>
      unit_effects customer metadata item i t
      ++ fulfilment_effects customer metadata rest (S t)
  end.

End Units.

(** ** Failure isolation, stated *)

(** Every step of the unit of [item] at time [t] succeeds: the type is the
    string [type], qrcode answers the data URL [url] whose part after the
    comma is [payload], sharp makes the artifact [png] from the base image
    of the type, the buyer's name converts, and SendGrid accepts the mail. *)
Definition unit_succeeds (ext : externals) (cfg : config) (customer metadata item : value)
    (t : nat) (type url payload : string) (png : list byte) : Prop :=
  let id := ticketId ext type (randomBytes ext t 4) in
  let path := [dirname cfg; "assets"; (type ++ "-ticket.png")%string] in
  let msg := ticket_message ext (prop customer "email") (prop item "name")
               (prop metadata "full_name") id png in
  get item "type" = Normal (VStr type) /\
  qrcode_toDataURL ext t id 250 1 = Normal url /\
  nth_error (split_comma url) 1 = Some payload /\
  sharp_composite ext t path (Buffer_from_base64 ext payload) 100 650 = Normal png /\
  convertible (prop metadata "full_name") = true /\
  sgMail_send ext t msg = Normal tt.

(** The unit of [item] at index [i], run at time [t], is isolated in the
    effects [fresh] of a run: it left there, in one piece, exactly what it
    does when it is run on its own at that time, and that is
    - when every step of it succeeds, the call to qrcode, the artifact
      sharp made, the mail SendGrid accepted, and the line for the ticket;
    - when some step of it fails, the calls it came to make, none of them
      an accepted mail, and one error line for that unit. *)
Definition unit_isolated (ext : externals) (cfg : config) (customer metadata : value)
    (fresh : list effect) (item : value) (i t : nat) : Prop :=
  exists before own after,
    fresh = before ++ own ++ after /\
    own = unit_effects ext cfg customer metadata item i t /\
    (forall type url payload png,
       unit_succeeds ext cfg customer metadata item t type url payload png ->
       let id := ticketId ext type (randomBytes ext t 4) in
       let path := [dirname cfg; "assets"; (type ++ "-ticket.png")%string] in
       let msg := ticket_message ext (prop customer "email") (prop item "name")
                    (prop metadata "full_name") id png in
       own = [QrCode id (Normal url);
              Composite path (Normal png);
              SendMail msg (Normal tt);
              Console (LogTicketSent (prop item "name") (i + 1) (prop customer "email"))]) /\
    ((forall type url payload png,
        ~ unit_succeeds ext cfg customer metadata item t type url payload png) ->
     exists calls e,
       own = calls ++ [Console (LogTicketError (prop item "name") (i + 1) e)] /\
       sent_mails calls = [] /\
       (forall line, ~ In (Console line) calls)).

(** The units [us], the [k]-th being run at time [t0 + k], are each
    isolated in [fresh]. *)
Definition units_isolated (ext : externals) (cfg : config) (customer metadata : value)
    (us : list (value * nat)) (t0 : nat) (fresh : list effect) : Prop :=
  forall k item i,
    nth_error us k = Some (item, i) ->
    unit_isolated ext cfg customer metadata fresh item i (t0 + k).

(** ** The Unit Expander in the words of the specification *)

Record Unit : Type := {
  unit_ticketType : value;
  unit_displayName : value;
  sequenceIndexWithinLine : nat
}.

(** A cart line of the data model: ticket type, quantity, display name. *)
Record CartLine : Type := {
  line_ticketType : value;
  line_quantity : nat;
  line_displayName : value
}.

(** The specification's [expand]: for each line exactly [quantity] units
    with the line's type and name, in line order then index order. *)
Definition expand (cart : list CartLine) : list Unit :=
  flat_map
    (fun l =>
       map (fun i => {| unit_ticketType := line_ticketType l;
                        unit_displayName := line_displayName l;
                        sequenceIndexWithinLine := i |})
           (seq 0 (line_quantity l)))
    cart.

(** The unit the loop body is given at a turn. *)
Definition unit_of (u : value * nat) : Unit :=
  {| unit_ticketType := prop (fst u) "type";
     unit_displayName := prop (fst u) "name";
     sequenceIndexWithinLine := snd u |}.

(** The JSON value [item] is the cart line [l]. *)
Definition represents (item : value) (l : CartLine) : Prop :=
  get item "type" = Normal (line_ticketType l) /\
  get item "quantity" = Normal (VNum (inject_Z (Z.of_nat (line_quantity l)))) /\
  get item "name" = Normal (line_displayName l).

(** The units of the typed cart [cart], whose lines are the JSON values
    [items]: for each line in order, the indexes below its quantity. *)
Definition cart_units (items : list value) (cart : list CartLine) : list (value * nat) :=
  flat_map (fun p => map (pair (fst p)) (seq 0 (line_quantity (snd p))))
           (combine items cart).

(** The console lines of the units in a trace, success or error: the name
    and the number each shows. *)
Fixpoint ticket_lines (l : list effect) : list (value * nat) :=
  match l with
  | [] => []
  | Console (LogTicketSent item_name number _) :: rest =>
      (item_name, number) :: ticket_lines rest
  | Console (LogTicketError item_name number _) :: rest =>
      (item_name, number) :: ticket_lines rest
  | _ :: rest => ticket_lines rest
  end.

(** One of 0-9, A-F. *)
Definition is_upper_hex (c : ascii) : bool :=
  existsb (Ascii.eqb c) (list_ascii_of_string "0123456789ABCDEF").

(** The capital of a letter a to z; any other character is left as it is. *)
Definition upper_letter (c : ascii) : ascii :=
  match c with
  | "a"%char => "A"%char | "b"%char => "B"%char | "c"%char => "C"%char
  | "d"%char => "D"%char | "e"%char => "E"%char | "f"%char => "F"%char
  | "g"%char => "G"%char | "h"%char => "H"%char | "i"%char => "I"%char
  | "j"%char => "J"%char | "k"%char => "K"%char | "l"%char => "L"%char
  | "m"%char => "M"%char | "n"%char => "N"%char | "o"%char => "O"%char
  | "p"%char => "P"%char | "q"%char => "Q"%char | "r"%char => "R"%char
  | "s"%char => "S"%char | "t"%char => "T"%char | "u"%char => "U"%char
  | "v"%char => "V"%char | "w"%char => "W"%char | "x"%char => "X"%char
  | "y"%char => "Y"%char | "z"%char => "Z"%char
  | _ => c
  end.

(** The value of a hexadecimal digit, of either case. *)
Definition hex_value (c : ascii) : option nat :=
  match c with
  | "0"%char => Some 0%nat | "1"%char => Some 1%nat | "2"%char => Some 2%nat | "3"%char => Some 3%nat
  | "4"%char => Some 4%nat | "5"%char => Some 5%nat | "6"%char => Some 6%nat | "7"%char => Some 7%nat
  | "8"%char => Some 8%nat | "9"%char => Some 9%nat
  | "A"%char | "a"%char => Some 10%nat
  | "B"%char | "b"%char => Some 11%nat
  | "C"%char | "c"%char => Some 12%nat
  | "D"%char | "d"%char => Some 13%nat
  | "E"%char | "e"%char => Some 14%nat
  | "F"%char | "f"%char => Some 15%nat
  | _ => None
  end.

(** Reading a string of hexadecimal digits two by two as bytes, high digit
    first (what [Buffer.from(s, 'hex')] does on such a string). *)
Fixpoint bytes_of_hex (s : string) : option (list byte) :=
  match s with
  | EmptyString => Some []
  | String hi (String lo rest) =>
      match hex_value hi, hex_value lo, bytes_of_hex rest with
      | Some h, Some l, Some bs =>
          match Byte.of_nat (16 * h + l)%nat with
          | Some b => Some (b :: bs)
          | None => None
          end
      | _, _, _ => None
      end
  | String _ EmptyString => None
  end.

(** ** A concrete deployment, for running the handler *)

Module Demo.

Definition secret : string := "sk_test_secret".

Definition demo_cfg : config :=
  {| PAYSTACK_SECRET_KEY := Some secret; dirname := "/app/backend" |}.

Definition byte_of (n : nat) : byte :=
  match Byte.of_nat (n mod 256) with
  | Some b => b
  | None => x00
  end.

Definition obj_event (type : string) (data : list (string * value)) : value :=
  VObj [("event", VStr type); ("data", VObj data)].

Definition line (type : string) (qty : Z) (nm : string) : value :=
  VObj [("type", VStr type); ("quantity", VNum (inject_Z qty)); ("name", VStr nm)].

Definition customer : value := VObj [("email", VStr "a@x.com")].

Definition amount : value := VNum (inject_Z 1000000).

Definition purchase_event (reference : string) (metadata : value) : value :=
  obj_event "charge.success"
    [("customer", customer);
     ("metadata", metadata);
     ("reference", VStr reference);
     ("amount", amount)].

Definition with_cart (cart : list value) : value :=
  VObj [("full_name", VStr "Jane Doe"); ("cart", VArr cart)].

(** The end-to-end scenario of the specification: two regular tickets. *)
Definition jane_cart : list value := [line "regular" 2 "Regular Ticket"].
Definition jane_event : value := purchase_event "abc123" (with_cart jane_cart).

(** One regular ticket. *)
Definition single_cart : list value := [line "regular" 1 "Regular Ticket"].
Definition single_event : value := purchase_event "one001" (with_cart single_cart).

(** A cart with a ticket type that has no base image between two that have. *)
Definition mixed_cart : list value :=
  [line "regular" 1 "Regular Ticket"; line "gold" 1 "Gold Ticket"; line "vip" 1 "VIP Ticket"].
Definition mixed_event : value := purchase_event "mix777" (with_cart mixed_cart).

(** A cart whose second line is [null]. *)
Definition null_line_cart : list value := [line "regular" 1 "Regular Ticket"; VNull].
Definition null_line_event : value := purchase_event "nul404" (with_cart null_line_cart).

(** No cart, the rest as the payment page sends it. *)
Definition cartless_metadata : value := VObj [("full_name", VStr "Jane Doe")].
Definition cartless_event : value := purchase_event "noc001" cartless_metadata.

(** No cart and no buyer name: a charge that did not start on the payment page. *)
Definition foreign_event : value := purchase_event "for001" (VObj []).

(** A charge.success without data. *)
Definition bare_event : value := VObj [("event", VStr "charge.success")].

(** A value whose conversion to a string throws: the JSON {"toString":1}. *)
Definition stubborn : value := VObj [("toString", VNum (inject_Z 1))].

Definition line_named (type : string) (qty : Z) (nm : value) : value :=
  VObj [("type", VStr type); ("quantity", VNum (inject_Z qty)); ("name", nm)].

(** A ticket type without base image whose name does not convert, before
    a regular ticket. *)
Definition stubborn_cart : list value :=
  [line_named "gold" 1 stubborn; line "regular" 1 "Regular Ticket"].
Definition stubborn_event : value := purchase_event "stb001" (with_cart stubborn_cart).

(** Two regular tickets under a name that does not convert. *)
Definition unnamed_cart : list value := [line_named "regular" 2 stubborn].
Definition unnamed_event : value := purchase_event "unn002" (with_cart unnamed_cart).

(** The two-ticket purchase of a customer whose email does not convert. *)
Definition unreachable_event : value :=
  obj_event "charge.success"
    [("customer", VObj [("email", stubborn)]);
     ("metadata", with_cart jane_cart);
     ("reference", VStr "unr003");
     ("amount", amount)].

(** One regular ticket in a quantity beyond the doubles: 1e999. *)
Definition endless_cart : list value :=
  [VObj [("type", VStr "regular"); ("quantity", VInfinity false);
         ("name", VStr "Regular Ticket")]].
Definition endless_event : value := purchase_event "inf004" (with_cart endless_cart).

Definition failed_event : value :=
  obj_event "charge.failed" [("reference", VStr "abc123")].

(** The bodies the demonstration parser knows, with the value each stands for. *)
Definition bodies : list (string * value) :=
  [("jane", jane_event); ("single", single_event); ("mixed", mixed_event);
   ("null-line", null_line_event); ("cartless", cartless_event);
   ("foreign", foreign_event); ("bare", bare_event); ("failed", failed_event);
   ("null", VNull); ("stubborn", stubborn_event); ("unnamed", unnamed_event);
   ("unreachable", unreachable_event); ("endless", endless_event);
   ("jane, sent again", jane_event)].

Fixpoint parse (l : list (string * value)) (raw : string) : option value :=
  match l with
  | [] => None
  | (k, v) :: rest => if String.eqb raw k then Some v else parse rest raw
  end.

Definition hmac (key data : string) : string := "hmac:" ++ key ++ ":" ++ data.

(** The base images under assets/. *)
Definition asset_exists (path : list string) : bool :=
  match path with
  | [_; "assets"; file] =>
      String.eqb file "regular-ticket.png" || String.eqb file "vip-ticket.png"
  | _ => false
  end.

Definition demo_ext : externals :=
  {| hmac_sha512_hex := hmac;
     JSON_parse := parse bodies;
     ToNumber_other := fun _ => NaN;
     toUpperCase_other := fun s => s;
     uptime := 3;
     cast_String := fun _ => CastError;
     cast_Number := fun _ => CastError;
     store_fault := fun _ => None;
     entropy := fun t i => byte_of (t * 67 + i * 29 + 171);
     qrcode_toDataURL := fun _ text _ _ => Normal ("data:image/png;base64," ++ text)%string;
     Buffer_from_base64 := list_byte_of_string;
     Buffer_toString_base64 := string_of_list_byte;
     sharp_composite := fun _ path overlay _ _ =>
       if asset_exists path then Normal overlay
       else Throw (LibraryError "Input file is missing");
     sgMail_send := fun _ _ => Normal tt |}.

(** The same deployment with the store out of reach at time 0 only. *)
Definition outage_ext : externals :=
  {| hmac_sha512_hex := hmac;
     JSON_parse := parse bodies;
     ToNumber_other := fun _ => NaN;
     toUpperCase_other := fun s => s;
     uptime := 3;
     cast_String := fun _ => CastError;
     cast_Number := fun _ => CastError;
     store_fault := fun t => if Nat.eqb t 0 then Some MongoNetworkError else None;
     entropy := entropy demo_ext;
     qrcode_toDataURL := qrcode_toDataURL demo_ext;
     Buffer_from_base64 := list_byte_of_string;
     Buffer_toString_base64 := string_of_list_byte;
     sharp_composite := sharp_composite demo_ext;
     sgMail_send := fun _ _ => Normal tt |}.

(** A signed request with the given body. *)
Definition signed (raw : string) : request :=
  {| body := Some raw; x_paystack_signature := Some (hmac secret raw) |}.

(** The same body with a signature made with another key. *)
Definition forged (raw : string) : request :=
  {| body := Some raw; x_paystack_signature := Some (hmac "guess" raw) |}.

Definition start : world := blank 0.

End Demo.

(** ** Notions for the further properties *)

(** The world after the deliveries of [reqs], one after the other. *)
Fixpoint deliver_all (ext : externals) (cfg : config) (reqs : list request) (w : world)
  : world :=
  match reqs with
  | [] => w
  | req :: rest => deliver_all ext cfg rest (snd (paystack_webhook ext cfg req w))
  end.

(** A stored document with the paths the schema requires. *)
Definition has_required (p : Purchase) : Prop :=
  buyerName p <> "" /\ buyerEmail p <> "" /\ paystackReference p <> "".

(** The JSON cart line [item] has a string type, a numeric quantity and a
    string name, and [l] is the inventory line with these values. *)
Definition stores (item : value) (l : InventoryLine) : Prop :=
  exists ty q nm,
    get item "type" = Normal (VStr ty) /\
    get item "quantity" = Normal (VNum q) /\
    get item "name" = Normal (VStr nm) /\
    l = {| ticketType := Some ty; quantity := Some q; name := Some nm |}.

(** A second deployment for the further properties: the same services, and
    one more body, a charge with the reference of the two-ticket purchase
    but another buyer and another cart. *)
Module Demo2.

Definition other_customer : value := VObj [("email", VStr "b@y.org")].

Definition other_metadata : value :=
  VObj [("full_name", VStr "John Roe"); ("cart", VArr [Demo.line "vip" 3 "VIP Ticket"])].

Definition clash_event : value :=
  Demo.obj_event "charge.success"
    [("customer", other_customer);
     ("metadata", other_metadata);
     ("reference", VStr "abc123");
     ("amount", VNum (inject_Z 4500000))].

(** A charge with a cart and no buyer name. *)
Definition nameless_metadata : value := VObj [("cart", VArr Demo.single_cart)].

Definition nameless_event : value := Demo.purchase_event "anon01" nameless_metadata.

Definition bodies : list (string * value) :=
  ("clash", clash_event) :: ("nameless", nameless_event) :: Demo.bodies.

Definition ext : externals :=
  {| hmac_sha512_hex := Demo.hmac;
     JSON_parse := Demo.parse bodies;
     ToNumber_other := fun _ => NaN;
     toUpperCase_other := fun s => s;
     uptime := 3;
     cast_String := fun _ => CastError;
     cast_Number := fun _ => CastError;
     store_fault := fun _ => None;
     entropy := entropy Demo.demo_ext;
     qrcode_toDataURL := qrcode_toDataURL Demo.demo_ext;
     Buffer_from_base64 := list_byte_of_string;
     Buffer_toString_base64 := string_of_list_byte;
     sharp_composite := sharp_composite Demo.demo_ext;
     sgMail_send := fun _ _ => Normal tt |}.

(** The same with a qrcode that answers the bare text, without the header
    of a data URL. *)
Definition plain_ext : externals :=
  {| hmac_sha512_hex := Demo.hmac;
     JSON_parse := Demo.parse bodies;
     ToNumber_other := fun _ => NaN;
     toUpperCase_other := fun s => s;
     uptime := 3;
     cast_String := fun _ => CastError;
     cast_Number := fun _ => CastError;
     store_fault := fun _ => None;
     entropy := entropy Demo.demo_ext;
     qrcode_toDataURL := fun _ text _ _ => Normal text;
     Buffer_from_base64 := list_byte_of_string;
     Buffer_toString_base64 := string_of_list_byte;
     sharp_composite := sharp_composite Demo.demo_ext;
     sgMail_send := fun _ _ => Normal tt |}.

(** A deployment started without PAYSTACK_SECRET_KEY. *)
Definition keyless_cfg : config :=
  {| PAYSTACK_SECRET_KEY := None; dirname := "/app/backend" |}.

(** The ledger after the two-ticket purchase was recorded. *)
Definition after_jane : world :=
  snd (paystack_webhook ext Demo.demo_cfg (Demo.signed "jane") Demo.start).

End Demo2.

(** No comma in the string. *)
Definition no_comma (s : string) : bool :=
  forallb (fun c => negb (Ascii.eqb c ","%char)) (list_ascii_of_string s).

(** Every effect a computation adds to the trace, from any world and however
    it ends, satisfies [P]. *)
Definition emits {A : Type} (P : effect -> Prop) (m : M A) : Prop :=
  forall w, exists fresh, trace (snd (m w)) = trace w ++ fresh /\ Forall P fresh.

(** From any world and however it ends, a computation adds to the trace no
    more accepted mails than artifacts, and no more than [n] artifacts. *)
Definition within {A : Type} (n : nat) (m : M A) : Prop :=
  forall w, exists fresh,
    trace (snd (m w)) = trace w ++ fresh /\
    (List.length (sent_mails fresh) <= List.length (artifacts fresh))%nat /\
    (List.length (artifacts fresh) <= n)%nat.

(** A mail is the ticket mail of lines 87 to 98 for this recipient and this
    buyer name: some item's name in the subject, and one identifier, made
    by [ticketId] from a string type and 4 random bytes, in the body and in
    the name of the one attachment; other effects are not constrained. *)
Definition ticket_mail (ext : externals) (email full_name : value) (e : effect) : Prop :=
  match e with
  | SendMail m _ =>
      exists item_name type t png,
        m = ticket_message ext email item_name full_name
              (ticketId ext type (randomBytes ext t 4)) png
  | _ => True
  end.

(** ** The payment route: [app.post('/api/pay', ...)] (server.js, lines 120 to 145) *)

(** A call of [fetch(url, { method, headers, body })]. *)
Record fetch_request : Type := {
  fetch_url : string;
  fetch_method : string;
  fetch_headers : list (string * string);
  fetch_body : string
}.

Record pay_externals : Type := {
  (** [JSON.stringify] *)
  JSON_stringify : value -> string;
  (** [await fetch(url, init)] then [await response.json()] at a given time:
      the JSON value of the answer, or what either promise rejects with *)
  fetch_json : nat -> fetch_request -> completion value
}.

(** [res.status(s).json(v)] *)
Record reply : Type := {
  reply_status : Z;
  reply_json : value
}.

(** [v.length === 0] for a truthy [v]: arrays and strings have a length,
    an object has the one it may hold as a property, numbers and booleans
    have none. *)
Definition length_is_zero (v : value) : bool :=
  match v with
  | VArr items =>
      match items with
      | [] => true
      | _ :: _ => false
      end
  | VStr s => String.eqb s ""
  | VObj fields =>
      match lookup "length" fields with
      | VNum q => Qeqb0 q
      | _ => false
      end
  | _ => false
  end.

(** [`${v}`] for a variable of the environment *)
Definition env_text (o : option string) : string :=
  match o with
  | Some s => s
  | None => "undefined"
  end.

(** The object of lines 126 to 129, before [JSON.stringify]. *)
Definition pay_params (email full_name amount cart : value) : value :=
  VObj [("email", email);
        ("amount", amount);
        ("metadata", VObj [("full_name", full_name); ("cart", cart)]);
        ("callback_url", VStr "https://ticketgenerator-rho.vercel.app/pages/success.html")].

Definition bad_request : reply :=
  {| reply_status := 400;
     reply_json := VObj [("message", VStr "Email, name, amount, and cart are required.")] |}.

Definition internal_error : reply :=
  {| reply_status := 500;
     reply_json := VObj [("message", VStr "An internal server error occurred.")] |}.

(** [!email || !name || !amount || !cart || cart.length === 0] *)
Definition incomplete (email full_name amount cart : value) : bool :=
  negb (truthy email) || negb (truthy full_name) || negb (truthy amount)
  || negb (truthy cart) || length_is_zero cart.

Section Pay.

Variable pext : pay_externals.
Variable cfg : config.

(** The call of lines 132 to 136. *)
Definition initialize_request (params : value) : fetch_request :=
  {| fetch_url := "https://api.paystack.co/transaction/initialize";
     fetch_method := "POST";
     fetch_headers :=
       [("Authorization", ("Bearer " ++ env_text (PAYSTACK_SECRET_KEY cfg))%string);
        ("Content-Type", "application/json")];
     fetch_body := JSON_stringify pext params |}.

(** The body of the [try] (lines 132 to 141): the reply it sends, or what it
    throws. *)
Definition initialize (t : nat) (params : value) : completion reply :=
  match fetch_json pext t (initialize_request params) with
  | Throw e => Throw e
  | Normal data =>
      match get data "status" with
      | Throw e => Throw e
      | Normal status =>
          if negb (truthy status)
          then match get data "message" with
               | Throw e => Throw e
               | Normal message =>
                   Normal {| reply_status := 500;
                             reply_json := VObj [("message", message)] |}
               end
          else Normal {| reply_status := 200; reply_json := data |}
      end
  end.

(** The route on the parsed body [req.body] at time [t]: the reply sent (or
    the error the handler's promise rejects with) and the calls of [fetch]. *)
Definition api_pay (t : nat) (req_body : value) : completion reply * list fetch_request :=
  match get req_body "email", get req_body "name", get req_body "amount",
        get req_body "cart" with
  | Normal email, Normal full_name, Normal amount, Normal cart =>
      if incomplete email full_name amount cart
      then (Normal bad_request, [])
      else
        let params := pay_params email full_name amount cart in
        (match initialize t params with
         | Normal r => Normal r
         | Throw _ => Normal internal_error
         end,
         [initialize_request params])
  | Throw e, _, _, _ => (Throw e, [])
  | _, Throw e, _, _ => (Throw e, [])
  | _, _, Throw e, _ => (Throw e, [])
  | _, _, _, Throw e => (Throw e, [])
  end.

End Pay.

(** A payment service for the demonstrations: it accepts everything. *)
Module DemoPay.

Definition accepted : value :=
  VObj [("status", VBool true);
        ("message", VStr "Authorization URL created");
        ("data", VObj [("authorization_url", VStr "https://checkout.paystack.com/abc");
                       ("reference", VStr "abc123")])].

Definition refused : value :=
  VObj [("status", VBool false); ("message", VStr "Invalid key")].

Definition pext : pay_externals :=
  {| JSON_stringify := fun _ => "{...}";
     fetch_json := fun t _ => if Nat.eqb t 0 then Normal accepted
                              else if Nat.eqb t 1 then Normal refused
                              else Throw (LibraryError "ECONNREFUSED") |}.

Definition order : value :=
  VObj [("email", VStr "a@x.com"); ("name", VStr "Jane Doe");
        ("amount", VNum (inject_Z 1000000)); ("cart", VArr Demo.jane_cart)].


End DemoPay.

(** ** The earlier version of the webhook (src/unnamed/part_000, lines 19 to 104)

    The route before the Purchase model was added: the same signature
    check, no ledger step, and a ticket mail with another sender, body,
    attachment name and position of the code on the base image.  The
    console lines are the constructors of the present version: each stands
    for the line of the same place, whose wording (and, for the error line,
    the part of the error that is printed) is not modelled; the template
    literals convert the same values at the same places. *)

Definition legacy_html_head : string := "
                            <h1>Thank You, ".

Definition legacy_html_middle : string := "!</h1>
                            <p>We are thrilled to have you at the ULES Annual Dinner & Awards Night.</p>
                            <p>Please find your attached ticket. This ticket is unique and can only be used once.</p>
                            <p><strong>Ticket ID:</strong> ".

Definition legacy_html_tail : string := "</p>
                            <hr>
                            <h3>Event Details:</h3>
                            <ul>
                                <li><strong>Date:</strong> Monday, September 3, 2025</li>
                                <li><strong>Time:</strong> 7:00 PM Prompt</li>
                                <li><strong>Venue:</strong> Eko Hotel Grand Ballroom</li>
                            </ul>
                            <p>We look forward to celebrating with you!</p>
                        ".

Section Legacy.

Variable ext : externals.
Variable cfg : config.

(** The message of lines 66 to 90. *)
Definition legacy_ticket_message (email item_name full_name : value) (type id : string)
    (png : list byte) : message :=
  {| msg_to := email;
     msg_from := "your-verified-email@example.com";
     msg_subject := [Lit "Your ULES Dinner Ticket: "; Interp item_name];
     msg_html := [Lit legacy_html_head; Interp full_name; Lit legacy_html_middle;
                  Lit id; Lit legacy_html_tail];
     msg_attachments :=
       [{| att_content := Buffer_toString_base64 ext png;
           att_filename := "ules-ticket-" ++ type ++ "-" ++ id ++ ".png";
           att_type := "image/png";
           att_disposition := "attachment" |}] |}.

(** The body of the inner [try] (lines 43 to 93). *)
Definition legacy_issue_ticket (customer metadata item : value) (i : nat) : M unit :=
  ty <- lift (get item "type") ;;
  type <- lift (toUpperCase_receiver ty) ;;
  t <- now ;;
  let id := ticketId ext type (randomBytes ext t 4) in
  qrCodeDataUrl <- call (QrCode id) (qrcode_toDataURL ext t id 250 1) ;;
  qrCodeBuffer <- lift (Buffer_from ext (nth_error (split_comma qrCodeDataUrl) 1)) ;;
  let baseTicketPath := [dirname cfg; "assets"; (type ++ "-ticket.png")%string] in
  finalTicketBuffer <-
    call (Composite baseTicketPath)
         (sharp_composite ext t baseTicketPath qrCodeBuffer 450 150) ;;
  email <- lift (get customer "email") ;;
  item_name <- lift (get item "name") ;;
  lift (ToPrimitive item_name) ;;;
  full_name <- lift (get metadata "full_name") ;;
  lift (ToPrimitive full_name) ;;;
  let msg := legacy_ticket_message email item_name full_name type id finalTicketBuffer in
  call (SendMail msg) (sgMail_send ext t msg) ;;;
  lift (ToPrimitive item_name) ;;;
  lift (ToPrimitive email) ;;;
  emit (Console (LogTicketSent item_name (i + 1) email)).

(** One turn of the inner loop (lines 42 to 97). *)
Definition legacy_fulfil_unit (customer metadata item : value) (i : nat) : M unit :=
  try_catch (legacy_issue_ticket customer metadata item i)
    (fun error =>
       item_name <- lift (get item "name") ;;
       lift (ToPrimitive item_name) ;;;
       emit (Console (LogTicketError item_name (i + 1) error))) ;;;
  advance.

(** The branch of a charge.success (lines 32 to 99). *)
Definition legacy_charge_success (event : value) : M Z :=
  data <- lift (get event "data") ;;
  customer <- lift (get data "customer") ;;
  metadata <- lift (get data "metadata") ;;
  cart_field <- lift (get metadata "cart") ;;
  let cart := or_empty cart_field in
  email <- lift (get customer "email") ;;
  lift (ToPrimitive email) ;;;
  emit (Console (LogPaymentSuccessful email)) ;;;
  items <- lift (iterate cart) ;;
  for_of items (for_quantity ext (legacy_fulfil_unit customer metadata)) ;;;
  ret 200%Z.

(** [app.post('/api/paystack-webhook', ...)] of the earlier version. *)
Definition legacy_webhook (req : request) : M Z :=
  secret <- lift (of_option (PAYSTACK_SECRET_KEY cfg)
                    (TypeError "The key argument must be of type string")) ;;
  raw <- lift (of_option (body req)
                 (TypeError "The data argument must be of type string or Buffer")) ;;
  let hash := hmac_sha512_hex ext secret raw in
  if signature_differs hash (x_paystack_signature req)
  then emit (Console LogInvalidSignature) ;;; ret 401%Z
  else
    event <- lift (of_option (JSON_parse ext raw) SyntaxError) ;;
    type <- lift (get event "event") ;;
    if strict_eq_string type "charge.success"
    then legacy_charge_success event
    else ret 200%Z.

End Legacy.

(** * Properties *)

Local Open Scope nat_scope.

(** ** Computations that leave the ledger alone *)

Lemma world_eta (w : world) :
  {| ledger := ledger w; tick := tick w; trace := trace w |} = w.
Proof. destruct w; reflexivity. Qed.

Lemma framed_ret {A : Type} (a : A) : framed (ret a).
Proof. intro w. unfold ret. simpl. rewrite app_nil_r, world_eta. reflexivity. Qed.

Lemma framed_lift {A : Type} (c : completion A) : framed (lift c).
Proof. intro w. unfold lift. simpl. rewrite app_nil_r, world_eta. reflexivity. Qed.

Lemma framed_emit (e : effect) : framed (emit e).
Proof. intro w. reflexivity. Qed.

Lemma framed_now : framed now.
Proof. intro w. unfold now. simpl. rewrite app_nil_r, world_eta. reflexivity. Qed.

Lemma framed_advance : framed advance.
Proof. intro w. unfold advance. simpl. rewrite app_nil_r. reflexivity. Qed.

Lemma framed_bind {A B : Type} (m : M A) (k : A -> M B) :
  framed m -> (forall a, framed (k a)) -> framed (bind m k).
Proof.
  intros Hm Hk w. unfold bind.
  rewrite (Hm w).
  destruct (m (blank (tick w))) as [[a | e] w1] eqn:E; simpl.
  - rewrite (Hk a {| ledger := ledger w; tick := tick w1; trace := trace w ++ trace w1 |}).
    simpl.
    rewrite (Hk a w1). simpl.
    rewrite app_assoc. reflexivity.
  - reflexivity.
Qed.

Lemma framed_try_catch {A : Type} (m : M A) (h : js_error -> M A) :
  framed m -> (forall e, framed (h e)) -> framed (try_catch m h).
Proof.
  intros Hm Hh w. unfold try_catch.
  rewrite (Hm w).
  destruct (m (blank (tick w))) as [[a | e] w1] eqn:E; simpl.
  - reflexivity.
  - rewrite (Hh e {| ledger := ledger w; tick := tick w1; trace := trace w ++ trace w1 |}).
    simpl.
    rewrite (Hh e w1). simpl.
    rewrite app_assoc. reflexivity.
Qed.

Lemma framed_call {A : Type} (record : completion A -> effect) (r : completion A) :
  framed (call record r).
Proof.
  unfold call. apply framed_bind; [apply framed_emit | intro; apply framed_lift].
Qed.

Create HintDb framed.
#[local] Hint Resolve framed_ret framed_lift framed_emit framed_now framed_advance
  framed_call : framed.

Ltac framed_tac :=
  repeat first
    [ apply framed_bind; [ | intro ]
    | apply framed_try_catch; [ | intro ]
    | progress cbv zeta
    | solve [ auto with framed ] ].

Section Frames.

Variable ext : externals.
Variable cfg : config.

Lemma framed_issue_ticket customer metadata item i :
  framed (issue_ticket ext cfg customer metadata item i).
Proof. unfold issue_ticket. framed_tac. Qed.

Lemma framed_fulfil_unit customer metadata item i :
  framed (fulfil_unit ext cfg customer metadata item i).
Proof.
  unfold fulfil_unit. framed_tac.
Qed.

Lemma framed_for_lt body bound :
  (forall i, framed (body i)) ->
  forall fuel i, framed (for_lt fuel i bound body).
Proof.
  intros Hb fuel. induction fuel as [| fuel IH]; intro i; simpl.
  - apply framed_ret.
  - destruct (js_lt i bound); [ | apply framed_ret ].
    apply framed_bind; [ apply Hb | intro; apply IH ].
Qed.

Lemma framed_for_quantity body item :
  (forall it i, framed (body it i)) -> framed (for_quantity ext body item).
Proof.
  intro Hb. unfold for_quantity.
  apply framed_bind; [ apply framed_lift | intro qty ].
  apply framed_bind; [ apply framed_lift | intros _ ].
  apply framed_bind; [ apply framed_for_lt; apply Hb | intros _ ].
  destruct (unbounded (ToNumber ext qty)); [ apply framed_lift | apply framed_ret ].
Qed.

Lemma framed_for_of body items :
  (forall it, framed (body it)) -> framed (for_of items body).
Proof.
  intro Hb. induction items as [| item rest IH]; simpl.
  - apply framed_ret.
  - apply framed_bind; [ apply Hb | intro; apply IH ].
Qed.

Lemma framed_run_units body us :
  (forall it i, framed (body it i)) -> framed (run_units us body).
Proof.
  intro Hb. induction us as [| [item i] rest IH]; simpl.
  - apply framed_ret.
  - apply framed_bind; [ apply Hb | intro; apply IH ].
Qed.

End Frames.

(** ** The loops *)

Lemma bind_ext {A B : Type} (m m' : M A) (k k' : A -> M B) (w : world) :
  m w = m' w -> (forall a w1, k a w1 = k' a w1) -> bind m k w = bind m' k' w.
Proof.
  intros Hm Hk. unfold bind. rewrite Hm.
  destruct (m' w) as [[a | e] w1]; [ apply Hk | reflexivity ].
Qed.

Lemma Qltb_lt (x y : Q) : Qltb x y = true <-> (x < y)%Q.
Proof.
  unfold Qltb. rewrite negb_true_iff. split.
  - intro H. apply Qnot_le_lt. intro Hle.
    apply Qle_bool_iff in Hle. congruence.
  - intro H. destruct (Qle_bool y x) eqn:E; [ | reflexivity ].
    apply Qle_bool_iff in E. exfalso. exact (Qlt_not_le _ _ H E).
Qed.

Section Loops.

Variable ext : externals.

(** The loop condition holds at every index below the trip count... *)
Lemma js_lt_below (bound : number) (i : nat) :
  (i < trip_count ext bound)%nat -> js_lt i bound = true.
Proof.
  destruct bound as [q | | [|]]; simpl; intro H; try lia; try reflexivity.
  apply Qltb_lt.
  apply Qle_lt_trans with (y := inject_Z (Qceiling q - 1)).
  - rewrite <- Zle_Qle. lia.
  - apply Qceiling_lt.
Qed.

(** ... and, unless no counter reaches the bound, fails from the trip count
    on: the loop ends by its own test. *)
Lemma js_lt_from (bound : number) (i : nat) :
  unbounded bound = false ->
  (trip_count ext bound <= i)%nat -> js_lt i bound = false.
Proof.
  destruct bound as [q | | [|]]; simpl; intros Hu H; try reflexivity; try discriminate.
  destruct (Qltb (inject_Z (Z.of_nat i)) q) eqn:E; [ | reflexivity ].
  apply Qltb_lt in E. exfalso.
  apply (Qlt_not_le _ _ E).
  apply Qle_trans with (y := inject_Z (Qceiling q)).
  - apply Qle_ceiling.
  - rewrite <- Zle_Qle. lia.
Qed.

Lemma trip_count_nat (n : nat) :
  trip_count ext (Finite (inject_Z (Z.of_nat n))) = n.
Proof. simpl. rewrite Qceiling_Z. apply Nat2Z.id. Qed.

(** While the test holds, the counted loop runs its body at the indexes
    that follow [i], in order, one per unit of fuel. *)
Lemma for_lt_run body item bound :
  forall fuel i w,
    (forall j, (i <= j < i + fuel)%nat -> js_lt j bound = true) ->
    for_lt fuel i bound (body item) w
    = run_units (map (pair item) (seq i fuel)) body w.
Proof.
  induction fuel as [| fuel IH]; intros i w H; simpl.
  - reflexivity.
  - rewrite (H i) by lia.
    apply bind_ext; [ reflexivity | ].
    intros _ w1. apply IH. intros j Hj. apply H. lia.
Qed.

(** With fuel enough to reach the trip count, the counted loop under a
    bound that some counter reaches runs its body at the indexes from [i]
    up to the trip count, in order. *)
Lemma for_lt_units body item bound :
  unbounded bound = false ->
  forall fuel i w,
    (trip_count ext bound <= i + fuel)%nat ->
    for_lt fuel i bound (body item) w
    = run_units (map (pair item) (seq i (trip_count ext bound - i))) body w.
Proof.
  intro Hb.
  induction fuel as [| fuel IH]; intros i w H; simpl.
  - replace (trip_count ext bound - i)%nat with 0%nat by lia. reflexivity.
  - destruct (Nat.lt_ge_cases i (trip_count ext bound)) as [Hlt | Hge].
    + rewrite (js_lt_below _ _ Hlt).
      replace (trip_count ext bound - i)%nat with (S (trip_count ext bound - S i)) by lia.
      simpl. apply bind_ext; [ reflexivity | ].
      intros _ w1. apply IH. lia.
    + rewrite (js_lt_from _ _ Hb Hge).
      replace (trip_count ext bound - i)%nat with 0%nat by lia. reflexivity.
Qed.

(** More fuel than the trip count changes nothing. *)
Lemma for_lt_fuel body bound extra w :
  unbounded bound = false ->
  for_lt (trip_count ext bound + extra) 0 bound body w
  = for_lt (trip_count ext bound) 0 bound body w.
Proof.
  intro Hb.
  rewrite (for_lt_units (fun _ => body) VNull bound Hb (trip_count ext bound + extra) 0 w) by lia.
  rewrite (for_lt_units (fun _ => body) VNull bound Hb (trip_count ext bound) 0 w) by lia.
  reflexivity.
Qed.

(** The loop of one line whose quantity converts: the units of the line,
    and then, under a bound that no counter reaches, no return. *)
Lemma for_quantity_run body item qty w :
  get item "quantity" = Normal qty ->
  convertible qty = true ->
  for_quantity ext body item w
  = bind (run_units (line_units ext item) body)
         (fun _ => if unbounded (ToNumber ext qty)
                   then lift (Throw NeverSettles) else ret tt) w.
Proof.
  intros Hq Hc. unfold for_quantity, line_units.
  unfold bind at 1. unfold lift at 1. rewrite Hq.
  unfold bind at 1. unfold lift at 1. unfold ToPrimitive. rewrite Hc.
  apply bind_ext; [ | reflexivity ].
  apply for_lt_run. intros j Hj. apply js_lt_below. lia.
Qed.

Lemma bind_ret_tt (m : M unit) (w : world) : bind m (fun _ => ret tt) w = m w.
Proof. unfold bind, ret. destruct (m w) as [[[] | e] w1]; reflexivity. Qed.

Lemma for_quantity_units body item qty w :
  get item "quantity" = Normal qty ->
  convertible qty = true ->
  unbounded (ToNumber ext qty) = false ->
  for_quantity ext body item w = run_units (line_units ext item) body w.
Proof.
  intros Hq Hc Hb. rewrite (for_quantity_run body item qty w Hq Hc).
  rewrite Hb. apply bind_ret_tt.
Qed.

(** The loop of a line whose quantity does not convert throws at its
    first test. *)
Lemma for_quantity_unconvertible body item qty w :
  get item "quantity" = Normal qty ->
  convertible qty = false ->
  for_quantity ext body item w = (Throw unconvertible, w).
Proof.
  intros Hq Hc. unfold for_quantity, bind, lift, ToPrimitive. rewrite Hq, Hc. reflexivity.
Qed.

Lemma run_units_app body us vs w :
  run_units (us ++ vs) body w
  = bind (run_units us body) (fun _ => run_units vs body) w.
Proof.
  revert w. induction us as [| [item i] rest IH]; intro w; simpl.
  - reflexivity.
  - unfold bind at 1 2 3.
    destruct (body item i w) as [[[] | e] w1]; [ apply IH | reflexivity ].
Qed.

Lemma get_non_nullish (v : value) (k : string) :
  non_nullish v = true -> get v k = Normal (prop v k).
Proof. unfold prop. destruct v; simpl; intro H; try discriminate; reflexivity. Qed.

Lemma get_nullish (v : value) (k : string) :
  non_nullish v = false -> exists what, get v k = Throw (TypeError what).
Proof. destruct v; simpl; intro H; try discriminate; eauto. Qed.

Lemma servable_inv item :
  servable ext item = true ->
  non_nullish item = true /\
  convertible (prop item "quantity") = true /\
  unbounded (ToNumber ext (prop item "quantity")) = false /\
  convertible (prop item "name") = true.
Proof.
  unfold servable. rewrite !andb_true_iff, negb_true_iff. tauto.
Qed.

(** The two loops over lines the inner loop serves are the run of the
    units of the cart. *)
Lemma for_of_units body items :
  forallb (servable ext) items = true ->
  forall w, for_of items (for_quantity ext body) w = run_units (units ext items) body w.
Proof.
  induction items as [| item rest IH]; intros H w; simpl.
  - reflexivity.
  - simpl in H. apply andb_true_iff in H. destruct H as [Hi Hr].
    apply servable_inv in Hi. destruct Hi as (Hn & Hc & Hb & _).
    rewrite run_units_app.
    apply bind_ext.
    + apply (for_quantity_units body item (prop item "quantity")); try assumption.
      apply get_non_nullish. exact Hn.
    + intros _ w1. apply IH. exact Hr.
Qed.

End Loops.

(** ** One unit *)

Arguments ticketId : simpl never.
Arguments randomBytes : simpl never.
Arguments ticket_message : simpl never.
Arguments legacy_ticket_message : simpl never.
Arguments convertible : simpl never.

Ltac destruct_inner :=
  match goal with
  | |- context [match ?x with _ => _ end] =>
      lazymatch x with
      | context [match _ with _ => _ end] => fail
      | _ => destruct x eqn:?; simpl
      end
  end.

Section OneUnit.

Variable ext : externals.
Variable cfg : config.

Lemma issue_ticket_tick customer metadata item i w :
  tick (snd (issue_ticket ext cfg customer metadata item i w)) = tick w.
Proof.
  unfold issue_ticket, call, bind, lift, emit, now, ToPrimitive. simpl.
  repeat destruct_inner; reflexivity.
Qed.

(** A unit whose line is there and whose name converts takes its tick and
    goes on, whatever its steps did. *)
Lemma fulfil_unit_run customer metadata item i w :
  non_nullish item = true ->
  convertible (prop item "name") = true ->
  fulfil_unit ext cfg customer metadata item i w
  = (Normal tt,
     {| ledger := ledger w; tick := S (tick w);
        trace := trace w ++ unit_effects ext cfg customer metadata item i (tick w) |}).
Proof.
  intros Hi Hn.
  rewrite (framed_fulfil_unit ext cfg customer metadata item i w).
  unfold unit_effects.
  assert (H : forall t, fst (fulfil_unit ext cfg customer metadata item i (blank t)) = Normal tt
            /\ tick (snd (fulfil_unit ext cfg customer metadata item i (blank t))) = S t).
  { intro t.
    pose proof (issue_ticket_tick customer metadata item i (blank t)) as Ht.
    unfold fulfil_unit, try_catch, bind.
    destruct (issue_ticket ext cfg customer metadata item i (blank t)) as [[[] | e] w1];
      simpl in Ht; simpl.
    - split; [ reflexivity | congruence ].
    - unfold lift, emit, advance, ToPrimitive.
      rewrite (get_non_nullish item "name" Hi). simpl. rewrite Hn. simpl.
      split; [ reflexivity | congruence ]. }
  destruct (H (tick w)) as [H1 H2]. rewrite H1, H2. reflexivity.
Qed.

(** A unit whose line is there and whose name does not convert throws:
    its [try] throws at the subject of the mail at the latest, and its
    [catch] at its console line. *)
Lemma fulfil_unit_throws customer metadata item i w :
  non_nullish item = true ->
  convertible (prop item "name") = false ->
  fst (fulfil_unit ext cfg customer metadata item i w) = Throw unconvertible.
Proof.
  intros Hi Hn.
  unfold fulfil_unit, try_catch, issue_ticket, call, bind, lift, emit, now, advance, ToPrimitive.
  rewrite (get_non_nullish item "name" Hi), (get_non_nullish item "type" Hi), Hn.
  simpl.
  repeat destruct_inner; reflexivity.
Qed.

End OneUnit.

Section UnitOutcome.

Variable ext : externals.
Variable cfg : config.

Lemma unit_effects_succeeds customer metadata item i t type url payload png :
  non_nullish customer = true ->
  non_nullish metadata = true ->
  convertible (prop customer "email") = true ->
  convertible (prop item "name") = true ->
  unit_succeeds ext cfg customer metadata item t type url payload png ->
  let id := ticketId ext type (randomBytes ext t 4) in
  let path := [dirname cfg; "assets"; (type ++ "-ticket.png")%string] in
  let msg := ticket_message ext (prop customer "email") (prop item "name")
               (prop metadata "full_name") id png in
  unit_effects ext cfg customer metadata item i t
  = [QrCode id (Normal url);
     Composite path (Normal png);
     SendMail msg (Normal tt);
     Console (LogTicketSent (prop item "name") (i + 1) (prop customer "email"))].
Proof.
  intros Hc Hm He Hn (Hty & Hqr & Hsp & Hsh & Hf & Hs). cbv zeta.
  assert (Hi : non_nullish item = true).
  { destruct item; simpl in Hty; try discriminate; reflexivity. }
  unfold unit_effects, fulfil_unit, try_catch, issue_ticket, call, bind, lift, emit, now,
    advance, ToPrimitive.
  rewrite Hty. cbn [toUpperCase_receiver blank tick fst snd trace ledger app].
  rewrite Hqr. cbn [fst snd]. rewrite Hsp. cbn [Buffer_from].
  rewrite Hsh. cbn [fst snd].
  rewrite (get_non_nullish customer "email" Hc), (get_non_nullish item "name" Hi),
    (get_non_nullish metadata "full_name" Hm).
  rewrite He, Hn, Hf. cbn [fst snd tick trace ledger app].
  rewrite Hs. reflexivity.
Qed.

Lemma unit_effects_fails customer metadata item i t :
  non_nullish item = true ->
  non_nullish customer = true ->
  non_nullish metadata = true ->
  convertible (prop customer "email") = true ->
  convertible (prop item "name") = true ->
  (forall type url payload png,
     ~ unit_succeeds ext cfg customer metadata item t type url payload png) ->
  exists calls e,
    unit_effects ext cfg customer metadata item i t
    = calls ++ [Console (LogTicketError (prop item "name") (i + 1) e)] /\
    sent_mails calls = [] /\
    (forall line, ~ In (Console line) calls).
Proof.
  intros Hi Hc Hm He Hn Hfail.
  unfold unit_succeeds in Hfail.
  unfold unit_effects, fulfil_unit, try_catch, issue_ticket, call, bind, lift, emit, now,
    advance, toUpperCase_receiver, Buffer_from, ToPrimitive.
  rewrite (get_non_nullish item "name" Hi), (get_non_nullish item "type" Hi),
    (get_non_nullish customer "email" Hc), (get_non_nullish metadata "full_name" Hm).
  rewrite (get_non_nullish item "type" Hi) in Hfail.
  rewrite He, Hn.
  simpl.
  repeat destruct_inner.
  all: try (exfalso;
            match goal with
            | H0 : prop _ "type" = VStr ?ty,
              H1 : qrcode_toDataURL _ _ _ _ _ = Normal ?url,
              H2 : split_comma ?url = _ :: ?payload :: _,
              H3 : sharp_composite _ _ _ _ _ _ = Normal ?png,
              H4 : sgMail_send _ _ _ = Normal ?u |- _ =>
                destruct u; apply (Hfail ty url payload png); rewrite H2;
                repeat split; first [ assumption | reflexivity ]
            end).
  all: match goal with
       | |- exists calls e, ?pre ++ [Console (LogTicketError _ _ ?err)] = _ /\ _ =>
           exists pre, err
       | |- exists calls e, [Console (LogTicketError _ _ ?err)] = _ /\ _ =>
           exists [], err
       | |- exists calls e, (?a :: [Console (LogTicketError _ _ ?err)]) = _ /\ _ =>
           exists [a], err
       | |- exists calls e, (?a :: ?b :: [Console (LogTicketError _ _ ?err)]) = _ /\ _ =>
           exists [a; b], err
       | |- exists calls e, (?a :: ?b :: ?c :: [Console (LogTicketError _ _ ?err)]) = _ /\ _ =>
           exists [a; b; c], err
       end.
  all: repeat split; try reflexivity.
  all: intros line Hin; simpl in Hin; intuition discriminate.
Qed.

End UnitOutcome.

(** ** The cart *)

Section Cart.

Variable ext : externals.
Variable cfg : config.

Lemma line_units_non_nullish item u :
  In u (line_units ext item) -> fst u = item /\ non_nullish item = true.
Proof.
  unfold line_units. destruct (get item "quantity") as [qty | e] eqn:E; [ | intros [] ].
  intro H. apply in_map_iff in H. destruct H as [i [<- _]]. split; [ reflexivity | ].
  destruct item; simpl in E; try discriminate; reflexivity.
Qed.

Lemma units_non_nullish items u :
  In u (units ext items) -> In (fst u) items /\ non_nullish (fst u) = true.
Proof.
  unfold units. intro H. apply in_flat_map in H. destruct H as [item [Hin Hu]].
  apply line_units_non_nullish in Hu. destruct Hu as [-> Hn]. split; assumption.
Qed.

(** Units whose lines are there and whose names convert are run one per
    tick and each does what it does on its own. *)
Lemma run_units_fulfil customer metadata us :
  Forall (fun u => non_nullish (fst u) = true /\ convertible (prop (fst u) "name") = true) us ->
  forall w,
    run_units us (fulfil_unit ext cfg customer metadata) w
    = (Normal tt,
       {| ledger := ledger w;
          tick := tick w + List.length us;
          trace := trace w ++ fulfilment_effects ext cfg customer metadata us (tick w) |}).
Proof.
  induction 1 as [| [item i] rest [Hi Hn] Hrest IH]; intro w; simpl.
  - unfold ret. rewrite Nat.add_0_r, app_nil_r, world_eta. reflexivity.
  - unfold bind. rewrite (fulfil_unit_run ext cfg customer metadata item i w Hi Hn).
    rewrite IH. simpl. rewrite <- app_assoc.
    replace (S (tick w + List.length rest)) with (tick w + S (List.length rest)) by lia.
    reflexivity.
Qed.

Lemma units_Forall items :
  forallb (servable ext) items = true ->
  Forall (fun u => non_nullish (fst u) = true /\ convertible (prop (fst u) "name") = true)
         (units ext items).
Proof.
  intro H. apply Forall_forall. intros u Hu.
  destruct (units_non_nullish items u Hu) as [Hin Hn]. split; [ exact Hn | ].
  rewrite forallb_forall in H. apply H in Hin. apply servable_inv in Hin. tauto.
Qed.

(** Lines 70 to 106 on a cart that is an array of lines the loop serves,
    for a customer whose email converts. *)
Lemma fulfil_cart_array customer metadata items w :
  non_nullish customer = true ->
  convertible (prop customer "email") = true ->
  forallb (servable ext) items = true ->
  fulfil_cart ext cfg customer metadata (VArr items) w
  = (Normal tt,
     {| ledger := ledger w;
        tick := tick w + List.length (units ext items);
        trace := trace w
                 ++ Console (LogPaymentSuccessful (prop customer "email"))
                 :: fulfilment_effects ext cfg customer metadata (units ext items) (tick w) |}).
Proof.
  intros Hc He Hl. unfold fulfil_cart, bind, lift, emit, ToPrimitive.
  rewrite (get_non_nullish customer "email" Hc). rewrite He. simpl.
  rewrite for_of_units by exact Hl.
  rewrite run_units_fulfil by (apply units_Forall; exact Hl).
  simpl. rewrite <- app_assoc. reflexivity.
Qed.

(** A typed cart: its lines are served, and its units are those of the
    quantities of its lines. *)
Lemma represents_non_nullish item l : represents item l -> non_nullish item = true.
Proof.
  intros (Hty & _). destruct item; simpl in Hty; try discriminate; reflexivity.
Qed.

Lemma represents_prop item l :
  represents item l ->
  prop item "type" = line_ticketType l /\
  prop item "quantity" = VNum (inject_Z (Z.of_nat (line_quantity l))) /\
  prop item "name" = line_displayName l.
Proof.
  intros (Hty & Hq & Hn). unfold prop. rewrite Hty, Hq, Hn. repeat split.
Qed.

Lemma represents_servable items cart :
  Forall2 represents items cart ->
  Forall (fun l => convertible (line_displayName l) = true) cart ->
  forallb (servable ext) items = true.
Proof.
  induction 1 as [| item l items cart Hr Hrest IH]; intro Hn; [ reflexivity | ].
  inversion Hn as [| l' cart' Hl Hcart]; subst.
  simpl. rewrite (IH Hcart), andb_true_r.
  destruct (represents_prop item l Hr) as (_ & Hq & Hnm).
  unfold servable. rewrite (represents_non_nullish item l Hr), Hq, Hnm, Hl.
  reflexivity.
Qed.

Lemma represents_units items cart :
  Forall2 represents items cart -> units ext items = cart_units items cart.
Proof.
  unfold units, cart_units.
  induction 1 as [| item l items cart Hr Hrest IH]; [ reflexivity | ].
  simpl. rewrite IH. f_equal.
  destruct Hr as (_ & Hq & _). unfold line_units. rewrite Hq.
  cbn [ToNumber]. rewrite trip_count_nat. reflexivity.
Qed.

End Cart.

(** ** The ledger step *)

Section LedgerStep.

Variable ext : externals.
Variable cfg : config.

Lemma inventory_line_non_nullish item :
  non_nullish item = true ->
  inventory_line item = Normal (prop item "type", prop item "quantity", prop item "name").
Proof.
  intro H. unfold inventory_line. rewrite !(get_non_nullish item _ H). reflexivity.
Qed.

Lemma inventory_line_nullish item :
  non_nullish item = false -> exists what, inventory_line item = Throw (TypeError what).
Proof. destruct item; unfold inventory_line; simpl; intro H; try discriminate; eauto. Qed.

Lemma map_items_lines items :
  forallb non_nullish items = true ->
  map_items inventory_line items
  = Normal (map (fun it => (prop it "type", prop it "quantity", prop it "name")) items).
Proof.
  induction items as [| item rest IH]; simpl; intro H; [ reflexivity | ].
  apply andb_true_iff in H. destruct H as [Hi Hr].
  rewrite (inventory_line_non_nullish item Hi), (IH Hr). reflexivity.
Qed.

Lemma map_items_null items :
  forallb non_nullish items = false ->
  exists what, map_items inventory_line items = Throw (TypeError what).
Proof.
  induction items as [| item rest IH]; simpl; intro H; [ discriminate | ].
  destruct (non_nullish item) eqn:Hi; simpl in H.
  - rewrite (inventory_line_non_nullish item Hi).
    destruct (IH H) as [what ->]. eauto.
  - destruct (inventory_line_nullish item Hi) as [what ->]. eauto.
Qed.

Lemma purchase_input_array customer metadata reference amount items :
  non_nullish customer = true ->
  non_nullish metadata = true ->
  forallb non_nullish items = true ->
  purchase_input customer metadata reference amount (VArr items)
  = Normal (built customer metadata reference amount items).
Proof.
  intros Hc Hm Hl. unfold purchase_input.
  rewrite (get_non_nullish metadata _ Hm), (get_non_nullish customer _ Hc).
  simpl. rewrite (map_items_lines items Hl). reflexivity.
Qed.

Lemma purchase_input_built customer metadata reference amount cart doc :
  purchase_input customer metadata reference amount cart = Normal doc ->
  non_nullish customer = true /\ non_nullish metadata = true /\
  exists items,
    cart = VArr items /\ forallb non_nullish items = true /\
    doc = built customer metadata reference amount items.
Proof.
  intro H.
  destruct (non_nullish metadata) eqn:Hm.
  2:{ unfold purchase_input in H.
      destruct (get_nullish metadata "full_name" Hm) as [what E]. rewrite E in H.
      discriminate. }
  destruct (non_nullish customer) eqn:Hc.
  2:{ unfold purchase_input in H. rewrite (get_non_nullish metadata _ Hm) in H.
      destruct (get_nullish customer "email" Hc) as [what E]. rewrite E in H.
      discriminate. }
  repeat split.
  destruct cart as [ | | b | q | n | s | items | fields ];
    try (unfold purchase_input in H;
         rewrite (get_non_nullish metadata _ Hm), (get_non_nullish customer _ Hc) in H;
         simpl in H; discriminate).
  exists items. split; [ reflexivity | ].
  destruct (forallb non_nullish items) eqn:Hl.
  - rewrite (purchase_input_array _ _ _ _ _ Hc Hm Hl) in H.
    split; [ reflexivity | congruence ].
  - unfold purchase_input in H.
    rewrite (get_non_nullish metadata _ Hm), (get_non_nullish customer _ Hc) in H.
    simpl in H. destruct (map_items_null items Hl) as [what E]. rewrite E in H.
    discriminate.
Qed.

(** What building the document throws has no [code]. *)
Lemma purchase_input_throws customer metadata reference amount cart e :
  purchase_input customer metadata reference amount cart = Throw e ->
  error_code e = None.
Proof.
  unfold purchase_input. intro H.
  destruct (non_nullish metadata) eqn:Hm.
  2:{ destruct (get_nullish metadata "full_name" Hm) as [what E]. rewrite E in H.
      inversion H. reflexivity. }
  rewrite (get_non_nullish metadata _ Hm) in H.
  destruct (non_nullish customer) eqn:Hc.
  2:{ destruct (get_nullish customer "email" Hc) as [what E]. rewrite E in H.
      inversion H. reflexivity. }
  rewrite (get_non_nullish customer _ Hc) in H.
  destruct cart as [ | | b | q | n | s | items | fields ]; simpl in H;
    try (inversion H; reflexivity).
  destruct (forallb non_nullish items) eqn:Hl.
  - rewrite (map_items_lines items Hl) in H. discriminate.
  - destruct (map_items_null items Hl) as [what E]. rewrite E in H.
    inversion H. reflexivity.
Qed.

Lemma code_is_iff e c : code_is e c = true <-> error_code e = Some c.
Proof.
  unfold code_is. destruct (error_code e) as [c' |]; [ | split; discriminate ].
  rewrite Z.eqb_eq. split; congruence.
Qed.

Lemma code_is_not e c : error_code e <> Some c -> code_is e c = false.
Proof.
  intro H. destruct (code_is e c) eqn:E; [ | reflexivity ].
  apply code_is_iff in E. contradiction.
Qed.

Lemma record_purchase_unbuilt customer metadata reference amount cart e w :
  purchase_input customer metadata reference amount cart = Throw e ->
  record_purchase ext customer metadata reference amount cart w
  = (Normal None,
     {| ledger := ledger w; tick := tick w;
        trace := trace w ++ [Console (LogDatabaseSaveError e)] |}).
Proof.
  intro H. pose proof (purchase_input_throws _ _ _ _ _ _ H) as Hcode.
  unfold record_purchase, try_catch, save_purchase, bind, lift. rewrite H.
  rewrite code_is_not by congruence. reflexivity.
Qed.

(** After a save the handler goes on, under the line of line 59 or, when
    the reference does not convert, under the line of the [catch]. *)
Lemma record_purchase_saved customer metadata reference amount cart doc p w :
  purchase_input customer metadata reference amount cart = Normal doc ->
  insert ext (tick w) (ledger w) doc = Normal p ->
  record_purchase ext customer metadata reference amount cart w
  = (Normal None,
     {| ledger := ledger w ++ [p]; tick := S (tick w);
        trace := trace w ++ [DbSave doc (Normal tt);
                             Console (ledger_line reference (Normal p))] |}).
Proof.
  intros H Hi.
  unfold record_purchase, try_catch, save_purchase, bind, lift, Purchase_save, emit, ret,
    ToPrimitive, ledger_line.
  rewrite H, Hi. simpl.
  destruct (convertible reference); simpl; rewrite <- app_assoc; reflexivity.
Qed.

Lemma record_purchase_duplicate customer metadata reference amount cart doc e w :
  purchase_input customer metadata reference amount cart = Normal doc ->
  insert ext (tick w) (ledger w) doc = Throw e ->
  error_code e = Some 11000%Z ->
  convertible reference = true ->
  record_purchase ext customer metadata reference amount cart w
  = (Normal (Some 200%Z),
     {| ledger := ledger w; tick := S (tick w);
        trace := trace w ++ [DbSave doc (Throw e); Console (LogAlreadyProcessed reference)] |}).
Proof.
  intros H Hi Hcode Hr. apply code_is_iff in Hcode.
  unfold record_purchase, try_catch, save_purchase, bind, lift, Purchase_save, emit, ret,
    ToPrimitive.
  rewrite H, Hi. simpl. rewrite Hcode, Hr. simpl. rewrite <- app_assoc. reflexivity.
Qed.

(** A duplicate whose reference does not convert: the console line of the
    [catch] throws, and the handler with it. *)
Lemma record_purchase_duplicate_throws customer metadata reference amount cart doc e w :
  purchase_input customer metadata reference amount cart = Normal doc ->
  insert ext (tick w) (ledger w) doc = Throw e ->
  error_code e = Some 11000%Z ->
  convertible reference = false ->
  record_purchase ext customer metadata reference amount cart w
  = (Throw unconvertible,
     {| ledger := ledger w; tick := S (tick w);
        trace := trace w ++ [DbSave doc (Throw e)] |}).
Proof.
  intros H Hi Hcode Hr. apply code_is_iff in Hcode.
  unfold record_purchase, try_catch, save_purchase, bind, lift, Purchase_save, emit, ret,
    ToPrimitive.
  rewrite H, Hi. simpl. rewrite Hcode, Hr. reflexivity.
Qed.

Lemma record_purchase_failed customer metadata reference amount cart doc e w :
  purchase_input customer metadata reference amount cart = Normal doc ->
  insert ext (tick w) (ledger w) doc = Throw e ->
  error_code e <> Some 11000%Z ->
  record_purchase ext customer metadata reference amount cart w
  = (Normal None,
     {| ledger := ledger w; tick := S (tick w);
        trace := trace w ++ [DbSave doc (Throw e); Console (LogDatabaseSaveError e)] |}).
Proof.
  intros H Hi Hcode. apply code_is_not in Hcode.
  unfold record_purchase, try_catch, save_purchase, bind, lift, Purchase_save, emit, ret.
  rewrite H, Hi. simpl. rewrite Hcode. simpl. rewrite <- app_assoc. reflexivity.
Qed.

(** ** From the route to the branch *)

Lemma webhook_delivers req event w :
  delivers ext cfg req event ->
  paystack_webhook ext cfg req w
  = bind (lift (get event "event"))
         (fun type => if strict_eq_string type "charge.success"
                      then charge_success ext cfg event
                      else ret 200%Z) w.
Proof.
  intros (secret & raw & Hs & Hb & Hsig & Hp).
  unfold paystack_webhook, bind, lift, of_option.
  rewrite Hs, Hb, Hsig. unfold signature_differs. rewrite String.eqb_refl. simpl.
  rewrite Hp. reflexivity.
Qed.

Lemma webhook_charge req event customer metadata reference amount cart_field w :
  delivers ext cfg req event ->
  is_charge event customer metadata reference amount cart_field ->
  paystack_webhook ext cfg req w
  = bind (record_purchase ext customer metadata reference amount (or_empty cart_field))
         (fun returned =>
            match returned with
            | Some status => ret status
            | None => fulfil_cart ext cfg customer metadata (or_empty cart_field) ;;; ret 200%Z
            end) w.
Proof.
  intros Hd (Hty & data & Hdata & Hc & Hm & Hr & Ha & Hcart).
  rewrite (webhook_delivers req event w Hd).
  unfold bind at 1. unfold lift at 1. rewrite Hty. simpl.
  unfold charge_success.
  unfold bind at 1. unfold lift at 1. rewrite Hdata.
  unfold bind at 1. unfold lift at 1. rewrite Hc.
  unfold bind at 1. unfold lift at 1. rewrite Hm.
  unfold bind at 1. unfold lift at 1. rewrite Hr.
  unfold bind at 1. unfold lift at 1. rewrite Ha.
  unfold bind at 1. unfold lift at 1. rewrite Hcart.
  reflexivity.
Qed.

End LedgerStep.

(** * The claims *)

Lemma new_effects_app w l t d :
  new_effects w {| ledger := l; tick := t; trace := trace w ++ d |} = d.
Proof.
  unfold new_effects. simpl. rewrite skipn_app, Nat.sub_diag, skipn_all. reflexivity.
Qed.

Lemma new_effects_same w : new_effects w w = [].
Proof. unfold new_effects. apply skipn_all. Qed.

Lemma signature_differs_iff hash header :
  signature_differs hash header = true <-> header <> Some hash.
Proof.
  destruct header as [s |]; simpl.
  - rewrite negb_true_iff. split.
    + intros H E. inversion E. subst. rewrite String.eqb_refl in H. discriminate.
    + intro H. apply String.eqb_neq. congruence.
  - split; [ discriminate | reflexivity ].
Qed.

(** C2: when the hexadecimal HMAC-SHA512 of the raw body under the secret is
    not the signature header, the handler answers 401 and does nothing
    else: the ledger is as it was, and the only effect is the console line
    (no save, no call to qrcode, sharp or SendGrid). *)
Theorem C2_invalid_signature_rejected ext cfg req secret raw w :
  PAYSTACK_SECRET_KEY cfg = Some secret ->
  body req = Some raw ->
  x_paystack_signature req <> Some (hmac_sha512_hex ext secret raw) ->
  exists w',
    paystack_webhook ext cfg req w = (Normal 401%Z, w') /\
    ledger w' = ledger w /\
    new_effects w w' = [Console LogInvalidSignature] /\
    sent_mails (new_effects w w') = [].
Proof.
  intros Hs Hb Hsig. apply signature_differs_iff in Hsig.
  unfold paystack_webhook, bind, lift, of_option. rewrite Hs, Hb, Hsig.
  eexists. split; [ reflexivity | ]. simpl.
  rewrite new_effects_app. repeat split.
Qed.

Lemma C2_invalid_signature_rejected_witness :
  exists w',
    paystack_webhook Demo.demo_ext Demo.demo_cfg (Demo.forged "jane") Demo.start
    = (Normal 401%Z, w') /\
    ledger w' = ledger Demo.start /\
    new_effects Demo.start w' = [Console LogInvalidSignature] /\
    sent_mails (new_effects Demo.start w') = [].
Proof.
  apply (C2_invalid_signature_rejected Demo.demo_ext Demo.demo_cfg (Demo.forged "jane")
           Demo.secret "jane" Demo.start).
  - reflexivity.
  - reflexivity.
  - vm_compute. discriminate.
Defined.

Lemma strict_eq_string_iff v lit : strict_eq_string v lit = true <-> v = VStr lit.
Proof.
  destruct v; simpl; try (split; discriminate).
  rewrite String.eqb_eq. split; congruence.
Qed.

(** C7: a validly signed event whose type is not charge.success is answered
    with 200 and nothing is done: the world after is the world before (no
    Purchase, no email, not even a console line). *)
Theorem C7_other_events_ignored ext cfg req event type w :
  delivers ext cfg req event ->
  get event "event" = Normal type ->
  type <> VStr "charge.success" ->
  paystack_webhook ext cfg req w = (Normal 200%Z, w).
Proof.
  intros Hd Hty Hne. rewrite (webhook_delivers ext cfg req event w Hd).
  unfold bind, lift. rewrite Hty.
  destruct (strict_eq_string type "charge.success") eqn:E.
  - apply strict_eq_string_iff in E. contradiction.
  - reflexivity.
Qed.

Lemma Demo_delivers (raw : string) (event : value) :
  Demo.parse Demo.bodies raw = Some event ->
  delivers Demo.demo_ext Demo.demo_cfg (Demo.signed raw) event.
Proof.
  intro H. exists Demo.secret, raw. repeat split; [ exact H ].
Qed.

Lemma C7_other_events_ignored_witness :
  paystack_webhook Demo.demo_ext Demo.demo_cfg (Demo.signed "failed") Demo.start
  = (Normal 200%Z, Demo.start).
Proof.
  apply (C7_other_events_ignored Demo.demo_ext Demo.demo_cfg (Demo.signed "failed")
           Demo.failed_event (VStr "charge.failed") Demo.start).
  - apply Demo_delivers. reflexivity.
  - reflexivity.
  - intro H. inversion H.
Defined.

(** ** The ticket identifier *)

Lemma upper_hex_digit (k : nat) : is_upper_hex (ascii_upper (hex_digit k)) = true.
Proof.
  do 16 (destruct k as [| k]; [ vm_compute; reflexivity | ]).
  reflexivity.
Qed.

Lemma upper_hex_of_byte (b : byte) :
  exists c d,
    ascii_toUpperCase (hex_of_byte b) = String c (String d EmptyString) /\
    is_upper_hex c = true /\ is_upper_hex d = true.
Proof.
  unfold hex_of_byte. simpl. do 2 eexists. split; [ reflexivity | ].
  split; apply upper_hex_digit.
Qed.

Lemma ascii_toUpperCase_app (s u : string) :
  ascii_toUpperCase (s ++ u) = (ascii_toUpperCase s ++ ascii_toUpperCase u)%string.
Proof. induction s as [| c s IH]; simpl; [ reflexivity | rewrite IH; reflexivity ]. Qed.

Lemma upper_hex_buffer (buf : list byte) :
  String.length (ascii_toUpperCase (Buffer_toString_hex buf)) = 2 * List.length buf /\
  forallb is_upper_hex (list_ascii_of_string (ascii_toUpperCase (Buffer_toString_hex buf)))
  = true.
Proof.
  induction buf as [| b rest [IHl IHf]]; [ split; reflexivity | ].
  change (Buffer_toString_hex (b :: rest))
    with (hex_of_byte b ++ Buffer_toString_hex rest)%string.
  rewrite ascii_toUpperCase_app.
  destruct (upper_hex_of_byte b) as (c & d & -> & Hc & Hd).
  simpl. rewrite IHl, Hc, Hd, IHf. split; [ lia | reflexivity ].
Qed.

Lemma randomBytes_length ext t n : List.length (randomBytes ext t n) = n.
Proof. unfold randomBytes. rewrite length_map, length_seq. reflexivity. Qed.

(** The two digits of a byte, in upper case, read back as the byte. *)
Lemma hex_of_byte_read (b : byte) (rest : string) :
  bytes_of_hex (ascii_toUpperCase (hex_of_byte b) ++ rest)
  = match bytes_of_hex rest with
    | Some bs => Some (b :: bs)
    | None => None
    end.
Proof. destruct b; reflexivity. Qed.

Lemma hex_of_byte_ascii (b : byte) (rest : string) :
  is_ascii (hex_of_byte b ++ rest) = is_ascii rest.
Proof. destruct b; reflexivity. Qed.

Lemma hex_buffer_ascii (buf : list byte) : is_ascii (Buffer_toString_hex buf) = true.
Proof.
  induction buf as [| b rest IH]; [ reflexivity | ].
  change (Buffer_toString_hex (b :: rest))
    with (hex_of_byte b ++ Buffer_toString_hex rest)%string.
  rewrite hex_of_byte_ascii. exact IH.
Qed.

(** The hexadecimal text of a buffer is upper-cased letter by letter. *)
Lemma toUpperCase_hex ext (buf : list byte) :
  toUpperCase ext (Buffer_toString_hex buf) = ascii_toUpperCase (Buffer_toString_hex buf).
Proof. unfold toUpperCase. rewrite hex_buffer_ascii. reflexivity. Qed.

(** The upper-cased hexadecimal text of a buffer reads back as the buffer. *)
Lemma hex_buffer_read (buf : list byte) :
  bytes_of_hex (ascii_toUpperCase (Buffer_toString_hex buf)) = Some buf.
Proof.
  induction buf as [| b rest IH]; [ reflexivity | ].
  change (Buffer_toString_hex (b :: rest))
    with (hex_of_byte b ++ Buffer_toString_hex rest)%string.
  rewrite ascii_toUpperCase_app, hex_of_byte_read, IH. reflexivity.
Qed.

Lemma ascii_upper_letter (c : ascii) : ascii_upper c = upper_letter c.
Proof. destruct c as [[|] [|] [|] [|] [|] [|] [|] [|]]; reflexivity. Qed.

Lemma ascii_toUpperCase_letters (s : string) :
  list_ascii_of_string (ascii_toUpperCase s) = map upper_letter (list_ascii_of_string s).
Proof.
  induction s as [| c s IH]; simpl; [ reflexivity | ].
  rewrite IH. f_equal. apply ascii_upper_letter.
Qed.

(** C8: a unit whose ticket type is the string [type] starts by asking
    qrcode for the code of its identifier, and that identifier is the tag
    ULES, the type in upper case, and a suffix, joined by hyphens; the
    suffix is made of 8 characters among 0-9 and A-F, and read as
    hexadecimal digits it is the 4 random bytes the unit drew.  The upper
    case of a type made of ASCII characters is the type with each of its
    letters a to z replaced by its capital. *)
Theorem C8_ticket_identifier ext cfg customer metadata item i t type :
  get item "type" = Normal (VStr type) ->
  exists suffix rest,
    unit_effects ext cfg customer metadata item i t
    = QrCode ("ULES-" ++ toUpperCase ext type ++ "-" ++ suffix)
        (qrcode_toDataURL ext t ("ULES-" ++ toUpperCase ext type ++ "-" ++ suffix) 250 1)
      :: rest /\
    bytes_of_hex suffix = Some (randomBytes ext t 4) /\
    String.length suffix = 8 /\
    forallb is_upper_hex (list_ascii_of_string suffix) = true /\
    (is_ascii type = true ->
     list_ascii_of_string (toUpperCase ext type)
     = map upper_letter (list_ascii_of_string type)).
Proof.
  intro Hty.
  destruct (upper_hex_buffer (randomBytes ext t 4)) as [Hl Hf].
  rewrite randomBytes_length in Hl.
  exists (ascii_toUpperCase (Buffer_toString_hex (randomBytes ext t 4))).
  assert (Hn : non_nullish item = true)
    by (destruct item; simpl in Hty; try discriminate; reflexivity).
  assert (Hid : ticketId ext type (randomBytes ext t 4)
                = ("ULES-" ++ toUpperCase ext type ++ "-"
                   ++ ascii_toUpperCase (Buffer_toString_hex (randomBytes ext t 4)))%string).
  { unfold ticketId. rewrite toUpperCase_hex. reflexivity. }
  rewrite <- Hid.
  unfold unit_effects, fulfil_unit, try_catch, issue_ticket, call, bind, lift, emit, now,
    advance, Buffer_from, ToPrimitive.
  rewrite Hty, (get_non_nullish item "name" Hn).
  cbn [toUpperCase_receiver blank tick trace ledger app snd fst].
  remember (ticketId ext type (randomBytes ext t 4)) as id eqn:Eid.
  remember (ascii_toUpperCase (Buffer_toString_hex (randomBytes ext t 4))) as suffix eqn:Hsfx.
  assert (Hread : bytes_of_hex suffix = Some (randomBytes ext t 4))
    by (subst suffix; apply hex_buffer_read).
  assert (Hup : is_ascii type = true ->
                list_ascii_of_string (toUpperCase ext type)
                = map upper_letter (list_ascii_of_string type))
    by (intro Ha; unfold toUpperCase; rewrite Ha; apply ascii_toUpperCase_letters).
  clear Hsfx Eid Hid.
  repeat destruct_inner.
  all: eexists; split; [ reflexivity | ].
  all: split; [ exact Hread | split; [ exact Hl | split; [ exact Hf | exact Hup ] ] ].
Qed.

Example ticketId_regular ext t :
  exists suffix,
    ticketId ext "regular" (randomBytes ext t 4) = ("ULES-REGULAR-" ++ suffix)%string /\
    String.length suffix = 8.
Proof.
  exists (ascii_toUpperCase (Buffer_toString_hex (randomBytes ext t 4))).
  split.
  - unfold ticketId. rewrite toUpperCase_hex. reflexivity.
  - destruct (upper_hex_buffer (randomBytes ext t 4)) as [Hl _].
    rewrite randomBytes_length in Hl. exact Hl.
Qed.

Lemma C8_ticket_identifier_witness :
  exists suffix rest,
    unit_effects Demo.demo_ext Demo.demo_cfg Demo.customer
      Demo.cartless_metadata
      (Demo.line "regular" 2 "Regular Ticket") 0 1
    = QrCode ("ULES-" ++ toUpperCase Demo.demo_ext "regular" ++ "-" ++ suffix)
        (qrcode_toDataURL Demo.demo_ext 1
           ("ULES-" ++ toUpperCase Demo.demo_ext "regular" ++ "-" ++ suffix) 250 1)
      :: rest /\
    bytes_of_hex suffix = Some (randomBytes Demo.demo_ext 1 4) /\
    String.length suffix = 8 /\
    forallb is_upper_hex (list_ascii_of_string suffix) = true /\
    (is_ascii "regular" = true ->
     list_ascii_of_string (toUpperCase Demo.demo_ext "regular")
     = map upper_letter (list_ascii_of_string "regular")).
Proof.
  apply (C8_ticket_identifier Demo.demo_ext Demo.demo_cfg Demo.customer
           Demo.cartless_metadata
           (Demo.line "regular" 2 "Regular Ticket") 0 1 "regular").
  reflexivity.
Defined.

(** ** The units of a cart *)

Section Expansion.

Variable ext : externals.

Lemma represents_line_units item l :
  represents item l -> line_units ext item = map (pair item) (seq 0 (line_quantity l)).
Proof.
  intros (_ & Hq & _). unfold line_units. rewrite Hq.
  cbn [ToNumber]. rewrite trip_count_nat. reflexivity.
Qed.

Lemma represents_unit_of item l i :
  represents item l ->
  unit_of (item, i)
  = {| unit_ticketType := line_ticketType l;
       unit_displayName := line_displayName l;
       sequenceIndexWithinLine := i |}.
Proof.
  intros (Ht & _ & Hn). unfold unit_of, prop. simpl. rewrite Ht, Hn. reflexivity.
Qed.

Lemma represents_all items cart :
  Forall2 represents items cart -> forallb non_nullish items = true.
Proof.
  induction 1 as [| item l items cart Hr _ IH]; simpl; [ reflexivity | ].
  rewrite (represents_non_nullish item l Hr), IH. reflexivity.
Qed.

(** The units of a typed cart are those of the specification's [expand]. *)
Lemma cart_units_expand items cart :
  Forall2 represents items cart ->
  map unit_of (cart_units items cart) = expand cart /\
  List.length (cart_units items cart) = list_sum (map line_quantity cart).
Proof.
  induction 1 as [| item l items cart Hr _ [IHe IHl]]; [ split; reflexivity | ].
  unfold cart_units, expand in *. simpl.
  rewrite map_app, length_app, IHe, IHl.
  rewrite !map_map, length_map, length_seq.
  split; [ | reflexivity ].
  f_equal. apply map_ext. intro i. apply represents_unit_of. exact Hr.
Qed.

Lemma cart_units_Forall items cart :
  Forall2 represents items cart ->
  Forall (fun l => convertible (line_displayName l) = true) cart ->
  Forall (fun u => non_nullish (fst u) = true /\ convertible (prop (fst u) "name") = true)
         (cart_units items cart).
Proof.
  intros H Hn. rewrite <- (represents_units ext items cart H).
  apply units_Forall. apply (represents_servable ext items cart H Hn).
Qed.

End Expansion.

(** ** The console lines of the units *)

Section Lines.

Variable ext : externals.
Variable cfg : config.

Lemma ticket_lines_app l l' : ticket_lines (l ++ l') = ticket_lines l ++ ticket_lines l'.
Proof.
  induction l as [| e l IH]; [ reflexivity | ].
  destruct e as [[ | | | | | | ] | | | | ]; simpl; rewrite IH; reflexivity.
Qed.

(** A unit whose line is there and whose name converts leaves one console
    line, for its success or for its failure, with the name of its line
    and its index plus one. *)
Lemma unit_ticket_line customer metadata item i t :
  non_nullish item = true ->
  convertible (prop item "name") = true ->
  ticket_lines (unit_effects ext cfg customer metadata item i t) = [(prop item "name", i + 1)].
Proof.
  intros Hi Hn.
  unfold unit_effects, fulfil_unit, try_catch, issue_ticket, call, bind, lift, emit, now,
    advance, toUpperCase_receiver, Buffer_from, ToPrimitive.
  rewrite (get_non_nullish item "name" Hi), (get_non_nullish item "type" Hi), Hn.
  simpl.
  repeat destruct_inner; reflexivity.
Qed.

Lemma fulfilment_ticket_lines customer metadata us :
  Forall (fun u => non_nullish (fst u) = true /\ convertible (prop (fst u) "name") = true) us ->
  forall t,
    ticket_lines (fulfilment_effects ext cfg customer metadata us t)
    = map (fun u => (prop (fst u) "name", snd u + 1)) us.
Proof.
  induction 1 as [| [item i] rest [Hi Hn] Hrest IH]; intro t; [ reflexivity | ].
  simpl. rewrite ticket_lines_app, (unit_ticket_line customer metadata item i t Hi Hn), IH.
  reflexivity.
Qed.

End Lines.

(** ** Failure isolation *)

Section Isolation.

Variable ext : externals.
Variable cfg : config.

Lemma fulfilment_effects_nth customer metadata us :
  forall t k item i,
    nth_error us k = Some (item, i) ->
    exists before after,
      fulfilment_effects ext cfg customer metadata us t
      = before ++ unit_effects ext cfg customer metadata item i (t + k) ++ after.
Proof.
  induction us as [| [it j] rest IH]; intros t k item i H.
  - destruct k; discriminate.
  - destruct k as [| k]; simpl in H.
    + inversion H. subst. exists [], (fulfilment_effects ext cfg customer metadata rest (S t)).
      rewrite Nat.add_0_r. reflexivity.
    + destruct (IH (S t) k item i H) as (before & after & E).
      exists (unit_effects ext cfg customer metadata it j t ++ before), after.
      simpl. rewrite E. rewrite <- app_assoc.
      replace (S t + k) with (t + S k) by lia. reflexivity.
Qed.

Lemma unit_isolated_in customer metadata fresh item i t :
  non_nullish customer = true ->
  non_nullish metadata = true ->
  convertible (prop customer "email") = true ->
  non_nullish item = true ->
  convertible (prop item "name") = true ->
  (exists before after,
     fresh = before ++ unit_effects ext cfg customer metadata item i t ++ after) ->
  unit_isolated ext cfg customer metadata fresh item i t.
Proof.
  intros Hc Hm He Hi Hn (before & after & Hin).
  exists before, (unit_effects ext cfg customer metadata item i t), after.
  split; [ exact Hin | ]. split; [ reflexivity | ]. split.
  - intros type url payload png Hok.
    exact (unit_effects_succeeds ext cfg customer metadata item i t type url payload png
             Hc Hm He Hn Hok).
  - intro Hko.
    exact (unit_effects_fails ext cfg customer metadata item i t Hi Hc Hm He Hn Hko).
Qed.

Lemma units_isolated_in customer metadata us t0 before after :
  non_nullish customer = true ->
  non_nullish metadata = true ->
  convertible (prop customer "email") = true ->
  Forall (fun u => non_nullish (fst u) = true /\ convertible (prop (fst u) "name") = true) us ->
  units_isolated ext cfg customer metadata us t0
    (before ++ fulfilment_effects ext cfg customer metadata us t0 ++ after).
Proof.
  intros Hc Hm He Hus k item i Hk.
  rewrite Forall_forall in Hus.
  destruct (Hus (item, i) (nth_error_In _ _ Hk)) as [Hi Hn].
  apply unit_isolated_in; try assumption.
  destruct (fulfilment_effects_nth customer metadata us t0 k item i Hk) as (b & a & E).
  exists (before ++ b), (a ++ after). rewrite E. rewrite <- !app_assoc. reflexivity.
Qed.

End Isolation.

(** ** The whole route on a charge.success *)

Section Route.

Variable ext : externals.
Variable cfg : config.

Lemma get_normal_non_nullish v k x : get v k = Normal x -> non_nullish v = true.
Proof. destruct v; simpl; intro H; try discriminate; reflexivity. Qed.

Lemma servable_non_nullish items :
  forallb (servable ext) items = true -> forallb non_nullish items = true.
Proof.
  induction items as [| item rest IH]; simpl; [ reflexivity | ].
  intro H. apply andb_true_iff in H. destruct H as [Hi Hr].
  apply servable_inv in Hi. destruct Hi as (-> & _). simpl. apply IH. exact Hr.
Qed.

(** A charge.success whose document can be built, whose customer's email
    converts, whose lines the loop serves, and whose insert is not refused
    for a duplicate key: the save, its console line, then every unit of
    the cart, one per tick, then 200. *)
Lemma webhook_fulfils req event customer metadata reference amount cart_field items w :
  delivers ext cfg req event ->
  is_charge event customer metadata reference amount cart_field ->
  or_empty cart_field = VArr items ->
  non_nullish customer = true ->
  convertible (prop customer "email") = true ->
  forallb (servable ext) items = true ->
  let doc := built customer metadata reference amount items in
  let r := insert ext (tick w) (ledger w) doc in
  (forall e, r = Throw e -> error_code e <> Some 11000%Z) ->
  paystack_webhook ext cfg req w
  = (Normal 200%Z,
     {| ledger := match r with Normal p => ledger w ++ [p] | Throw _ => ledger w end;
        tick := S (tick w) + List.length (units ext items);
        trace := trace w
                 ++ DbSave doc (settled r)
                 :: Console (ledger_line reference r)
                 :: Console (LogPaymentSuccessful (prop customer "email"))
                 :: fulfilment_effects ext cfg customer metadata (units ext items)
                      (S (tick w)) |}).
Proof.
  intros Hd Hch Hcart Hc He Hs doc r Hnd.
  pose proof (servable_non_nullish items Hs) as Hl.
  rewrite (webhook_charge ext cfg req event _ _ _ _ _ w Hd Hch). rewrite Hcart.
  destruct Hch as (_ & data & _ & _ & _ & _ & _ & Hm).
  apply get_normal_non_nullish in Hm.
  pose proof (purchase_input_array customer metadata reference amount items Hc Hm Hl) as Hin.
  fold doc in Hin.
  unfold bind at 1.
  destruct r as [p | e] eqn:Er; subst r.
  - rewrite (record_purchase_saved ext _ _ _ _ _ doc p w Hin Er).
    unfold bind. rewrite (fulfil_cart_array ext cfg customer metadata items _ Hc He Hs).
    unfold ret. simpl. rewrite <- app_assoc. reflexivity.
  - rewrite (record_purchase_failed ext _ _ _ _ _ doc e w Hin Er (Hnd e eq_refl)).
    unfold bind. rewrite (fulfil_cart_array ext cfg customer metadata items _ Hc He Hs).
    unfold ret. simpl. rewrite <- app_assoc. reflexivity.
Qed.

(** The same when the insert is refused for a duplicate key and the
    reference converts: the save, the console line, 200, and nothing
    else. *)
Lemma webhook_duplicate req event customer metadata reference amount cart_field items e w :
  delivers ext cfg req event ->
  is_charge event customer metadata reference amount cart_field ->
  or_empty cart_field = VArr items ->
  non_nullish customer = true ->
  forallb non_nullish items = true ->
  convertible reference = true ->
  let doc := built customer metadata reference amount items in
  insert ext (tick w) (ledger w) doc = Throw e ->
  error_code e = Some 11000%Z ->
  paystack_webhook ext cfg req w
  = (Normal 200%Z,
     {| ledger := ledger w;
        tick := S (tick w);
        trace := trace w ++ [DbSave doc (Throw e); Console (LogAlreadyProcessed reference)] |}).
Proof.
  intros Hd Hch Hcart Hc Hl Hr doc Hi Hcode.
  rewrite (webhook_charge ext cfg req event _ _ _ _ _ w Hd Hch). rewrite Hcart.
  destruct Hch as (_ & data & _ & _ & _ & _ & _ & Hm).
  apply get_normal_non_nullish in Hm.
  pose proof (purchase_input_array customer metadata reference amount items Hc Hm Hl) as Hin.
  fold doc in Hin.
  unfold bind at 1.
  rewrite (record_purchase_duplicate ext _ _ _ _ _ doc e w Hin Hi Hcode Hr).
  reflexivity.
Qed.

(** A duplicate whose reference does not convert: the handler throws
    after the save, and nothing else is done. *)
Lemma webhook_duplicate_throws req event customer metadata reference amount cart_field items
    e w :
  delivers ext cfg req event ->
  is_charge event customer metadata reference amount cart_field ->
  or_empty cart_field = VArr items ->
  non_nullish customer = true ->
  forallb non_nullish items = true ->
  convertible reference = false ->
  let doc := built customer metadata reference amount items in
  insert ext (tick w) (ledger w) doc = Throw e ->
  error_code e = Some 11000%Z ->
  paystack_webhook ext cfg req w
  = (Throw unconvertible,
     {| ledger := ledger w;
        tick := S (tick w);
        trace := trace w ++ [DbSave doc (Throw e)] |}).
Proof.
  intros Hd Hch Hcart Hc Hl Hr doc Hi Hcode.
  rewrite (webhook_charge ext cfg req event _ _ _ _ _ w Hd Hch). rewrite Hcart.
  destruct Hch as (_ & data & _ & _ & _ & _ & _ & Hm).
  apply get_normal_non_nullish in Hm.
  pose proof (purchase_input_array customer metadata reference amount items Hc Hm Hl) as Hin.
  fold doc in Hin.
  unfold bind at 1.
  rewrite (record_purchase_duplicate_throws ext _ _ _ _ _ doc e w Hin Hi Hcode Hr).
  reflexivity.
Qed.

(** The route on a typed cart whose names convert, for a customer whose
    email converts, when the insert is not refused for a duplicate key. *)
Lemma webhook_fulfils_typed req event customer metadata reference amount items cart w :
  delivers ext cfg req event ->
  is_charge event customer metadata reference amount (VArr items) ->
  non_nullish customer = true ->
  convertible (prop customer "email") = true ->
  Forall2 represents items cart ->
  Forall (fun l => convertible (line_displayName l) = true) cart ->
  let doc := built customer metadata reference amount items in
  let r := insert ext (tick w) (ledger w) doc in
  r <> Throw (MongoServerError 11000) ->
  paystack_webhook ext cfg req w
  = (Normal 200%Z,
     {| ledger := match r with Normal p => ledger w ++ [p] | Throw _ => ledger w end;
        tick := S (tick w) + List.length (cart_units items cart);
        trace := trace w
                 ++ DbSave doc (settled r)
                 :: Console (ledger_line reference r)
                 :: Console (LogPaymentSuccessful (prop customer "email"))
                 :: fulfilment_effects ext cfg customer metadata (cart_units items cart)
                      (S (tick w)) |}).
Proof.
  intros Hd Hch Hc He Hr Hn doc r Hnd.
  rewrite <- (represents_units ext items cart Hr).
  apply (webhook_fulfils req event customer metadata reference amount (VArr items) items w
           Hd Hch eq_refl Hc He (represents_servable ext items cart Hr Hn)).
  intros e Ee Hcode. apply Hnd.
  destruct e; simpl in Hcode; try discriminate.
  inversion Hcode. subst. exact Ee.
Qed.

End Route.

Lemma error_code_duplicate e : error_code e = Some 11000%Z <-> e = MongoServerError 11000.
Proof.
  destruct e; simpl; split; intro H; try discriminate; congruence.
Qed.

Lemma Demo_is_charge (reference : string) (metadata : list (string * value)) :
  is_charge (Demo.purchase_event reference (VObj metadata)) Demo.customer (VObj metadata)
    (VStr reference) Demo.amount (lookup "cart" metadata).
Proof.
  split; [ reflexivity | ].
  eexists. repeat split; reflexivity.
Qed.

Lemma Demo_outage_delivers (raw : string) (event : value) :
  Demo.parse Demo.bodies raw = Some event ->
  delivers Demo.outage_ext Demo.demo_cfg (Demo.signed raw) event.
Proof.
  intro H. exists Demo.secret, raw. repeat split; [ exact H ].
Qed.

(** ** The units the handler processes *)

(** C5, as stated, fails on a cart whose one line has quantity 2 and a
    name that does not convert to a string (the JSON {"toString":1}): the
    first unit gets its code and its artifact, the subject of its mail
    throws, the console line of the [catch] throws again, and the handler
    is left before the second unit: one unit is begun, none is brought to
    its end, for a sum of quantities of 2. *)
Lemma C5_counterexample :
  let cart := [{| line_ticketType := VStr "regular"; line_quantity := 2;
                  line_displayName := Demo.stubborn |}] in
  delivers Demo.demo_ext Demo.demo_cfg (Demo.signed "unnamed") Demo.unnamed_event /\
  is_charge Demo.unnamed_event Demo.customer (Demo.with_cart Demo.unnamed_cart)
    (VStr "unn002") Demo.amount (VArr Demo.unnamed_cart) /\
  Forall2 represents Demo.unnamed_cart cart /\
  list_sum (map line_quantity cart) = 2 /\
  let run := paystack_webhook Demo.demo_ext Demo.demo_cfg (Demo.signed "unnamed") Demo.start in
  let fresh := new_effects Demo.start (snd run) in
  fst run = Throw unconvertible /\
  List.length (artifacts fresh) = 1 /\
  sent_mails fresh = [] /\
  ticket_lines fresh = [] /\
  tick (snd run) = 1.
Proof.
  cbv zeta.
  split; [ apply Demo_delivers; reflexivity | ].
  split; [ apply (Demo_is_charge "unn002") | ].
  split; [ repeat constructor | ].
  vm_compute. repeat split.
Qed.

(** C5, amended: on a charge.success that is no duplicate delivery, for a
    customer whose email converts to a string and a cart whose lines have
    the quantities q1...qn and names that convert, the handler answers
    200 and what follows the ledger step in its trace is, unit after unit
    of the specification's [expand] (line order, then index order), what
    that unit does, on its own line (hence with the line's ticket type and
    name) and at its index; each unit leaves one console line with its
    name and number, there are sum(qi) of them, and a line of quantity
    zero has no unit. *)
Theorem C5_units_in_order ext cfg req event customer metadata reference amount
    (items : list value) (cart : list CartLine) (w : world) :
  delivers ext cfg req event ->
  is_charge event customer metadata reference amount (VArr items) ->
  non_nullish customer = true ->
  convertible (prop customer "email") = true ->
  Forall2 represents items cart ->
  Forall (fun l => convertible (line_displayName l) = true) cart ->
  insert ext (tick w) (ledger w) (built customer metadata reference amount items)
  <> Throw (MongoServerError 11000) ->
  exists w' before,
    paystack_webhook ext cfg req w = (Normal 200%Z, w') /\
    new_effects w w'
    = before ++ fulfilment_effects ext cfg customer metadata (cart_units items cart)
                  (S (tick w)) /\
    existsb is_fulfilment before = false /\
    map unit_of (cart_units items cart) = expand cart /\
    ticket_lines (new_effects w w')
    = map (fun u => (unit_displayName u, sequenceIndexWithinLine u + 1)) (expand cart) /\
    List.length (expand cart) = list_sum (map line_quantity cart) /\
    (forall l, line_quantity l = 0 -> expand [l] = []).
Proof.
  intros Hd Hch Hc He Hr Hn Hnd.
  destruct (cart_units_expand items cart Hr) as [Hexp Hlen].
  eexists.
  exists [DbSave (built customer metadata reference amount items)
            (settled (insert ext (tick w) (ledger w)
                        (built customer metadata reference amount items)));
          Console (ledger_line reference
                     (insert ext (tick w) (ledger w)
                        (built customer metadata reference amount items)));
          Console (LogPaymentSuccessful (prop customer "email"))].
  split.
  - apply (webhook_fulfils_typed ext cfg req event customer metadata reference amount
             items cart w Hd Hch Hc He Hr Hn Hnd).
  - rewrite new_effects_app.
    split; [ reflexivity | ].
    split.
    { unfold ledger_line.
      destruct (insert ext (tick w) (ledger w)
                  (built customer metadata reference amount items));
        [ destruct (convertible reference) | ]; reflexivity. }
    split; [ exact Hexp | ].
    split.
    { match goal with
      | |- ticket_lines (?a :: ?b :: ?c :: ?f) = _ =>
          change (a :: b :: c :: f) with ([a; b; c] ++ f)
      end.
      rewrite ticket_lines_app.
      rewrite (fulfilment_ticket_lines ext cfg customer metadata (cart_units items cart)
                 (cart_units_Forall ext items cart Hr Hn)).
      rewrite <- Hexp, map_map.
      replace (ticket_lines _) with (@nil (value * nat)); [ reflexivity | ].
      unfold ledger_line.
      destruct (insert ext (tick w) (ledger w)
                  (built customer metadata reference amount items));
        [ destruct (convertible reference) | ]; reflexivity. }
    split.
    { rewrite <- Hexp, length_map. exact Hlen. }
    intros l Hz. unfold expand. simpl. rewrite Hz. reflexivity.
Qed.

Lemma C5_units_in_order_witness :
  let items := [Demo.line "regular" 1 "Regular Ticket"; Demo.line "gold" 1 "Gold Ticket";
                Demo.line "vip" 1 "VIP Ticket"] in
  let cart := [{| line_ticketType := VStr "regular"; line_quantity := 1;
                  line_displayName := VStr "Regular Ticket" |};
               {| line_ticketType := VStr "gold"; line_quantity := 1;
                  line_displayName := VStr "Gold Ticket" |};
               {| line_ticketType := VStr "vip"; line_quantity := 1;
                  line_displayName := VStr "VIP Ticket" |}] in
  exists w' before,
    paystack_webhook Demo.demo_ext Demo.demo_cfg (Demo.signed "mixed") Demo.start
    = (Normal 200%Z, w') /\
    new_effects Demo.start w'
    = before ++ fulfilment_effects Demo.demo_ext Demo.demo_cfg Demo.customer
                  (Demo.with_cart Demo.mixed_cart) (cart_units items cart) 1 /\
    existsb is_fulfilment before = false /\
    map unit_of (cart_units items cart) = expand cart /\
    ticket_lines (new_effects Demo.start w')
    = map (fun u => (unit_displayName u, sequenceIndexWithinLine u + 1)) (expand cart) /\
    List.length (expand cart) = list_sum (map line_quantity cart) /\
    (forall l, line_quantity l = 0 -> expand [l] = []).
Proof.
  intros items cart.
  apply (C5_units_in_order Demo.demo_ext Demo.demo_cfg (Demo.signed "mixed")
           Demo.mixed_event Demo.customer (Demo.with_cart Demo.mixed_cart)
           (VStr "mix777") Demo.amount items cart Demo.start).
  - apply Demo_delivers. reflexivity.
  - apply (Demo_is_charge "mix777").
  - reflexivity.
  - reflexivity.
  - repeat constructor.
  - repeat constructor.
  - vm_compute. discriminate.
Defined.

(** The two-ticket purchase of the specification: two console lines, for
    the tickets 1 and 2 of the one line. *)
Example jane_ticket_lines :
  ticket_lines
    (trace (snd (paystack_webhook Demo.demo_ext Demo.demo_cfg (Demo.signed "jane") Demo.start)))
  = [(VStr "Regular Ticket", 1); (VStr "Regular Ticket", 2)].
Proof. vm_compute. reflexivity. Qed.

(** ** Failure isolation *)

(** C3, as stated, fails on a cart whose first line is a ticket type
    without base image under a name that does not convert to a string
    (the JSON {"toString":1}) and whose second line is a regular ticket:
    the first unit fails at its artifact, the console line of its [catch]
    throws, and the handler is left there.  Every step of the regular unit
    would succeed at its time, and yet it gets no artifact and no mail,
    and no status is sent. *)
Lemma C3_counterexample :
  delivers Demo.demo_ext Demo.demo_cfg (Demo.signed "stubborn") Demo.stubborn_event /\
  is_charge Demo.stubborn_event Demo.customer (Demo.with_cart Demo.stubborn_cart)
    (VStr "stb001") Demo.amount (VArr Demo.stubborn_cart) /\
  let run := paystack_webhook Demo.demo_ext Demo.demo_cfg (Demo.signed "stubborn") Demo.start in
  let fresh := new_effects Demo.start (snd run) in
  fst run = Throw unconvertible /\
  skipn 3 fresh
  = [QrCode "ULES-GOLD-EE0B2845" (Normal "data:image/png;base64,ULES-GOLD-EE0B2845");
     Composite ["/app/backend"; "assets"; "gold-ticket.png"]
       (Throw (LibraryError "Input file is missing"))] /\
  artifacts fresh = [] /\
  sent_mails fresh = [] /\
  (exists url payload png,
     unit_succeeds Demo.demo_ext Demo.demo_cfg Demo.customer
       (Demo.with_cart Demo.stubborn_cart) (Demo.line "regular" 1 "Regular Ticket") 2
       "regular" url payload png).
Proof.
  split; [ apply Demo_delivers; reflexivity | ].
  split; [ apply (Demo_is_charge "stb001") | ].
  cbv zeta.
  split; [ vm_compute; reflexivity | ].
  split; [ vm_compute; reflexivity | ].
  split; [ vm_compute; reflexivity | ].
  split; [ vm_compute; reflexivity | ].
  unfold unit_succeeds. do 3 eexists.
  split; [ reflexivity | ].
  split; [ vm_compute; reflexivity | ].
  split; [ vm_compute; reflexivity | ].
  split; [ vm_compute; reflexivity | ].
  split; [ reflexivity | ].
  vm_compute; reflexivity.
Qed.

(** C3, amended: on a charge.success that is no duplicate delivery, for a
    customer whose email converts to a string and a cart whose lines have
    whole quantities and names that convert, every unit of the cart is
    processed at its own time and leaves there exactly what it does on its
    own, whatever became of the other units: a unit whose steps all
    succeed has its code, its artifact and its accepted mail in the trace,
    a unit one of whose steps fails leaves its calls and one error line
    and no mail; the answer is 200. *)
Theorem C3_failure_isolation ext cfg req event customer metadata reference amount items cart
    w :
  delivers ext cfg req event ->
  is_charge event customer metadata reference amount (VArr items) ->
  non_nullish customer = true ->
  convertible (prop customer "email") = true ->
  Forall2 represents items cart ->
  Forall (fun l => convertible (line_displayName l) = true) cart ->
  insert ext (tick w) (ledger w) (built customer metadata reference amount items)
  <> Throw (MongoServerError 11000) ->
  exists w',
    paystack_webhook ext cfg req w = (Normal 200%Z, w') /\
    units_isolated ext cfg customer metadata (cart_units items cart) (S (tick w))
      (new_effects w w').
Proof.
  intros Hd Hch Hc He Hr Hn Hnd.
  eexists. split.
  - apply (webhook_fulfils_typed ext cfg req event customer metadata reference amount
             items cart w Hd Hch Hc He Hr Hn Hnd).
  - rewrite new_effects_app.
    match goal with
    | |- units_isolated _ _ _ _ _ _ (?a :: ?b :: ?c :: ?f) =>
        change (a :: b :: c :: f) with ([a; b; c] ++ f);
        rewrite <- (app_nil_r f)
    end.
    destruct Hch as (_ & data & _ & _ & _ & _ & _ & Hm).
    apply get_normal_non_nullish in Hm.
    apply units_isolated_in; try assumption.
    apply (cart_units_Forall ext items cart Hr Hn).
Qed.

Lemma C3_failure_isolation_witness :
  let cart := [{| line_ticketType := VStr "regular"; line_quantity := 1;
                  line_displayName := VStr "Regular Ticket" |};
               {| line_ticketType := VStr "gold"; line_quantity := 1;
                  line_displayName := VStr "Gold Ticket" |};
               {| line_ticketType := VStr "vip"; line_quantity := 1;
                  line_displayName := VStr "VIP Ticket" |}] in
  exists w',
    paystack_webhook Demo.demo_ext Demo.demo_cfg (Demo.signed "mixed") Demo.start
    = (Normal 200%Z, w') /\
    units_isolated Demo.demo_ext Demo.demo_cfg Demo.customer (Demo.with_cart Demo.mixed_cart)
      (cart_units Demo.mixed_cart cart) 1 (new_effects Demo.start w').
Proof.
  intro cart.
  apply (C3_failure_isolation Demo.demo_ext Demo.demo_cfg (Demo.signed "mixed")
           Demo.mixed_event Demo.customer (Demo.with_cart Demo.mixed_cart)
           (VStr "mix777") Demo.amount Demo.mixed_cart cart Demo.start).
  - apply Demo_delivers. reflexivity.
  - apply (Demo_is_charge "mix777").
  - reflexivity.
  - reflexivity.
  - repeat constructor.
  - repeat constructor.
  - vm_compute. discriminate.
Defined.

(** The mixed cart run: the gold unit has no base image and is only logged,
    the regular and the vip units before and after it are mailed. *)
Example mixed_cart_mails :
  let w' := snd (paystack_webhook Demo.demo_ext Demo.demo_cfg (Demo.signed "mixed") Demo.start) in
  List.length (sent_mails (trace w')) = 2 /\
  List.length (artifacts (trace w')) = 2 /\
  In (Console (LogTicketError (VStr "Gold Ticket") 1 (LibraryError "Input file is missing")))
     (trace w').
Proof. vm_compute. intuition. Qed.

(** ** A failed save *)

Lemma new_effects_of w w' fresh : trace w' = trace w ++ fresh -> new_effects w w' = fresh.
Proof.
  intro H. unfold new_effects. rewrite H, skipn_app, Nat.sub_diag, skipn_all. reflexivity.
Qed.

(** C6, as stated, fails on the two-ticket purchase of a customer whose
    email does not convert to a string (the JSON {"toString":1}): the
    insert fails at validation, which is no duplicate-key error, the
    failure is logged, and the console line of line 70 throws before the
    loops: no unit is attempted and no status is sent. *)
Lemma C6_counterexample :
  let customer := VObj [("email", Demo.stubborn)] in
  let doc := built customer (Demo.with_cart Demo.jane_cart) (VStr "unr003") Demo.amount
               Demo.jane_cart in
  delivers Demo.demo_ext Demo.demo_cfg (Demo.signed "unreachable") Demo.unreachable_event /\
  is_charge Demo.unreachable_event customer (Demo.with_cart Demo.jane_cart)
    (VStr "unr003") Demo.amount (VArr Demo.jane_cart) /\
  insert Demo.demo_ext 0 [] doc = Throw ValidationError /\
  error_code ValidationError <> Some 11000%Z /\
  let run := paystack_webhook Demo.demo_ext Demo.demo_cfg (Demo.signed "unreachable")
               Demo.start in
  fst run = Throw unconvertible /\
  new_effects Demo.start (snd run)
  = [DbSave doc (Throw ValidationError); Console (LogDatabaseSaveError ValidationError)] /\
  filter is_fulfilment (new_effects Demo.start (snd run)) = [].
Proof.
  cbv zeta.
  split; [ apply Demo_delivers; reflexivity | ].
  split; [ split; [ reflexivity | eexists; repeat split; reflexivity ] | ].
  split; [ reflexivity | ].
  split; [ discriminate | ].
  vm_compute. repeat split.
Qed.

(** C6, amended: for a customer whose email converts to a string and a
    cart whose lines have whole quantities and names that convert, when
    the insert of the Purchase fails with an error whose code is not
    11000, the error is logged and the fulfilment goes on: the answer is
    200, the ledger is unchanged, and after the failed save and its error
    line come the effects of every unit of the cart, each as it does on
    its own and each with its console line.  When the code is 11000 no
    unit is processed, and the handler answers 200 after the save and the
    line for the duplicate when the reference converts. *)
Theorem C6_ledger_failure_still_fulfils ext cfg req event customer metadata reference
    amount items cart e w :
  delivers ext cfg req event ->
  is_charge event customer metadata reference amount (VArr items) ->
  non_nullish customer = true ->
  convertible (prop customer "email") = true ->
  Forall2 represents items cart ->
  Forall (fun l => convertible (line_displayName l) = true) cart ->
  let doc := built customer metadata reference amount items in
  insert ext (tick w) (ledger w) doc = Throw e ->
  (error_code e <> Some 11000%Z ->
   exists w',
     paystack_webhook ext cfg req w = (Normal 200%Z, w') /\
     ledger w' = ledger w /\
     new_effects w w'
     = DbSave doc (Throw e)
       :: Console (LogDatabaseSaveError e)
       :: Console (LogPaymentSuccessful (prop customer "email"))
       :: fulfilment_effects ext cfg customer metadata (cart_units items cart) (S (tick w)) /\
     units_isolated ext cfg customer metadata (cart_units items cart) (S (tick w))
       (new_effects w w') /\
     ticket_lines (new_effects w w')
     = map (fun u => (unit_displayName u, sequenceIndexWithinLine u + 1)) (expand cart)) /\
  (error_code e = Some 11000%Z ->
   let w' := snd (paystack_webhook ext cfg req w) in
   ledger w' = ledger w /\
   filter is_fulfilment (new_effects w w') = [] /\
   (convertible reference = true ->
    paystack_webhook ext cfg req w = (Normal 200%Z, w') /\
    new_effects w w' = [DbSave doc (Throw e); Console (LogAlreadyProcessed reference)])).
Proof.
  intros Hd Hch Hc He Hr Hn doc Hi.
  pose proof (represents_all items cart Hr) as Hl.
  split.
  - intro Hcode. eexists. split.
    + pose proof (webhook_fulfils_typed ext cfg req event customer metadata reference amount
                    items cart w Hd Hch Hc He Hr Hn) as H.
      cbv zeta in H. fold doc in H. rewrite Hi in H. apply H.
      intro E. inversion E. subst e. apply Hcode. reflexivity.
    + cbn [ledger settled ledger_line]. rewrite new_effects_app.
      split; [ reflexivity | ]. split; [ reflexivity | ]. split.
      * match goal with
        | |- units_isolated _ _ _ _ _ _ (?a :: ?b :: ?c :: ?f) =>
            change (a :: b :: c :: f) with ([a; b; c] ++ f);
            rewrite <- (app_nil_r f)
        end.
        destruct Hch as (_ & data & _ & _ & _ & _ & _ & Hm).
        apply get_normal_non_nullish in Hm.
        apply units_isolated_in; try assumption.
        apply (cart_units_Forall ext items cart Hr Hn).
      * match goal with
        | |- ticket_lines (?a :: ?b :: ?c :: ?f) = _ =>
            change (a :: b :: c :: f) with ([a; b; c] ++ f)
        end.
        rewrite ticket_lines_app.
        rewrite (fulfilment_ticket_lines ext cfg customer metadata (cart_units items cart)
                   (cart_units_Forall ext items cart Hr Hn)).
        destruct (cart_units_expand items cart Hr) as [Hexp _].
        rewrite <- Hexp, map_map. reflexivity.
  - intro Hcode. cbv zeta.
    destruct (convertible reference) eqn:Hconv.
    + rewrite (webhook_duplicate ext cfg req event customer metadata reference amount
                 (VArr items) items e w Hd Hch eq_refl Hc Hl Hconv Hi Hcode).
      cbn [snd ledger]. rewrite new_effects_app.
      split; [ reflexivity | ]. split; [ reflexivity | ].
      intros _. split; reflexivity.
    + rewrite (webhook_duplicate_throws ext cfg req event customer metadata reference amount
                 (VArr items) items e w Hd Hch eq_refl Hc Hl Hconv Hi Hcode).
      cbn [snd ledger]. rewrite new_effects_app.
      split; [ reflexivity | ]. split; [ reflexivity | ].
      discriminate.
Qed.

Lemma C6_ledger_failure_still_fulfils_witness :
  let cart := [{| line_ticketType := VStr "regular"; line_quantity := 2;
                  line_displayName := VStr "Regular Ticket" |}] in
  let doc := built Demo.customer (Demo.with_cart Demo.jane_cart) (VStr "abc123")
               Demo.amount Demo.jane_cart in
  exists w',
    paystack_webhook Demo.outage_ext Demo.demo_cfg (Demo.signed "jane") Demo.start
    = (Normal 200%Z, w') /\
    ledger w' = ledger Demo.start /\
    new_effects Demo.start w'
    = DbSave doc (Throw MongoNetworkError)
      :: Console (LogDatabaseSaveError MongoNetworkError)
      :: Console (LogPaymentSuccessful (prop Demo.customer "email"))
      :: fulfilment_effects Demo.outage_ext Demo.demo_cfg Demo.customer
           (Demo.with_cart Demo.jane_cart) (cart_units Demo.jane_cart cart) 1 /\
    units_isolated Demo.outage_ext Demo.demo_cfg Demo.customer
      (Demo.with_cart Demo.jane_cart) (cart_units Demo.jane_cart cart) 1
      (new_effects Demo.start w') /\
    ticket_lines (new_effects Demo.start w')
    = map (fun u => (unit_displayName u, sequenceIndexWithinLine u + 1)) (expand cart).
Proof.
  intros cart doc.
  refine (proj1 (C6_ledger_failure_still_fulfils Demo.outage_ext Demo.demo_cfg
                   (Demo.signed "jane") Demo.jane_event Demo.customer
                   (Demo.with_cart Demo.jane_cart) (VStr "abc123") Demo.amount
                   Demo.jane_cart cart MongoNetworkError Demo.start _ _ _ _ _ _ _) _).
  - apply Demo_outage_delivers. reflexivity.
  - apply (Demo_is_charge "abc123").
  - reflexivity.
  - reflexivity.
  - repeat constructor.
  - repeat constructor.
  - reflexivity.
  - discriminate.
Defined.

(** ** The ledger write and the fulfilment *)

Lemma framed_ledger {A : Type} (m : M A) (w : world) :
  framed m -> ledger (snd (m w)) = ledger w.
Proof. intro H. rewrite (H w). reflexivity. Qed.

Lemma framed_trace {A : Type} (m : M A) (w : world) :
  framed m -> exists fresh, trace (snd (m w)) = trace w ++ fresh.
Proof. intro H. rewrite (H w). eexists. reflexivity. Qed.

Lemma bind_lift {A B : Type} (c : completion A) (k : A -> M B) (w : world) :
  bind (lift c) k w = match c with Normal a => k a w | Throw e => (Throw e, w) end.
Proof. unfold bind, lift. destruct c; reflexivity. Qed.

Lemma bind_run {A B : Type} (m : M A) (k : A -> M B) (w : world) :
  bind m k w
  = match m w with
    | (Normal a, w') => k a w'
    | (Throw e, w') => (Throw e, w')
    end.
Proof. reflexivity. Qed.

Section AfterTheLedger.

Variable ext : externals.
Variable cfg : config.

Lemma framed_fulfil_cart customer metadata cart :
  framed (fulfil_cart ext cfg customer metadata cart).
Proof.
  unfold fulfil_cart.
  apply framed_bind; [ apply framed_lift | intro email ].
  apply framed_bind; [ apply framed_lift | intros _ ].
  apply framed_bind; [ apply framed_emit | intros _ ].
  apply framed_bind; [ apply framed_lift | intro items ].
  apply framed_for_of. intro item. apply framed_for_quantity.
  intros it i. apply framed_fulfil_unit.
Qed.

Lemma framed_after_ledger customer metadata cart returned :
  framed (after_ledger ext cfg customer metadata cart returned).
Proof.
  destruct returned as [status |]; simpl.
  - apply framed_ret.
  - apply framed_bind; [ apply framed_fulfil_cart | intros _; apply framed_ret ].
Qed.

(** When the document can be built the ledger step begins with the save,
    however it ends. *)
Lemma record_purchase_trace customer metadata reference amount cart doc w :
  purchase_input customer metadata reference amount cart = Normal doc ->
  exists tail,
    trace (snd (record_purchase ext customer metadata reference amount cart w))
    = trace w ++ DbSave doc (settled (insert ext (tick w) (ledger w) doc)) :: tail.
Proof.
  intro Hin.
  destruct (insert ext (tick w) (ledger w) doc) as [p | e] eqn:Hi.
  - rewrite (record_purchase_saved ext _ _ _ _ _ doc p w Hin Hi). eexists. reflexivity.
  - destruct (code_is e 11000) eqn:Hcode.
    + apply code_is_iff in Hcode.
      destruct (convertible reference) eqn:Hr.
      * rewrite (record_purchase_duplicate ext _ _ _ _ _ doc e w Hin Hi Hcode Hr).
        eexists. reflexivity.
      * rewrite (record_purchase_duplicate_throws ext _ _ _ _ _ doc e w Hin Hi Hcode Hr).
        eexists. reflexivity.
    + assert (Hne : error_code e <> Some 11000%Z).
      { intro Hc. apply code_is_iff in Hc. congruence. }
      rewrite (record_purchase_failed ext _ _ _ _ _ doc e w Hin Hi Hne).
      eexists. reflexivity.
Qed.

(** On a charge.success whose document can be built, the first thing the
    handler adds to the trace is the save with its outcome, however the
    handler ends. *)
Lemma webhook_begins_with_save req event customer metadata reference amount cart_field doc w :
  delivers ext cfg req event ->
  is_charge event customer metadata reference amount cart_field ->
  purchase_input customer metadata reference amount (or_empty cart_field) = Normal doc ->
  exists rest,
    trace (snd (paystack_webhook ext cfg req w))
    = trace w ++ DbSave doc (settled (insert ext (tick w) (ledger w) doc)) :: rest.
Proof.
  intros Hd Hch Hin.
  rewrite (webhook_charge ext cfg req event _ _ _ _ _ w Hd Hch).
  destruct (record_purchase_trace customer metadata reference amount (or_empty cart_field)
              doc w Hin) as [tail Ht].
  rewrite bind_run.
  destruct (record_purchase ext customer metadata reference amount (or_empty cart_field) w)
    as [[returned | e] w1]; simpl in Ht.
  - destruct (framed_trace (after_ledger ext cfg customer metadata (or_empty cart_field)
                              returned) w1
                (framed_after_ledger _ _ _ _)) as [fresh Hf].
    unfold after_ledger in Hf. rewrite Hf, Ht.
    exists (tail ++ fresh). rewrite <- app_assoc. reflexivity.
  - exists tail. exact Ht.
Qed.

(** A charge.success whose values convert and whose lines the loop serves
    is answered with 200, whatever the ledger and the units do. *)
Lemma webhook_servable req event customer metadata reference amount cart_field items w :
  delivers ext cfg req event ->
  is_charge event customer metadata reference amount cart_field ->
  or_empty cart_field = VArr items ->
  non_nullish customer = true ->
  convertible reference = true ->
  convertible (prop customer "email") = true ->
  forallb (servable ext) items = true ->
  fst (paystack_webhook ext cfg req w) = Normal 200%Z.
Proof.
  intros Hd Hch Hcart Hc Hr He Hs.
  destruct (insert ext (tick w) (ledger w) (built customer metadata reference amount items))
    as [p | e] eqn:Hi.
  - pose proof (webhook_fulfils ext cfg req event customer metadata reference amount
                  cart_field items w Hd Hch Hcart Hc He Hs) as H.
    cbv zeta in H. rewrite Hi in H. rewrite H; [ reflexivity | intros e Ee; discriminate ].
  - destruct (code_is e 11000) eqn:Hcode.
    + apply code_is_iff in Hcode.
      rewrite (webhook_duplicate ext cfg req event customer metadata reference amount
                 cart_field items e w Hd Hch Hcart Hc (servable_non_nullish ext items Hs)
                 Hr Hi Hcode).
      reflexivity.
    + pose proof (webhook_fulfils ext cfg req event customer metadata reference amount
                    cart_field items w Hd Hch Hcart Hc He Hs) as H.
      cbv zeta in H. rewrite Hi in H. rewrite H; [ reflexivity | ].
      intros e' Ee Hc'. inversion Ee. subst e'. apply code_is_iff in Hc'. congruence.
Qed.

End AfterTheLedger.

(** C9, as stated, fails on a cart with a [null] line after a line with
    units: building the document throws inside the [try], no save is
    attempted, and the loop still mails the first unit before it throws on
    the [null] line. *)
Lemma C9_counterexample :
  delivers Demo.demo_ext Demo.demo_cfg (Demo.signed "null-line") Demo.null_line_event /\
  get Demo.null_line_event "event" = Normal (VStr "charge.success") /\
  let run := paystack_webhook Demo.demo_ext Demo.demo_cfg (Demo.signed "null-line") Demo.start in
  let fresh := new_effects Demo.start (snd run) in
  existsb is_save fresh = false /\
  List.length (sent_mails fresh) = 1 /\
  write_precedes_fulfilment fresh = false /\
  fst run = Throw (TypeError "Cannot read properties of null").
Proof.
  split; [ apply Demo_delivers; reflexivity | ].
  split; [ reflexivity | ].
  vm_compute. repeat split.
Qed.

(** C9, amended: when the Purchase document can be built, the first thing
    the handler does is the save, and the save has its outcome before
    anything else happens; every effect of fulfilment comes after it,
    however the handler ends.  It ends with 200 when the reference, the
    customer's email and the lines' quantities and names convert. *)
Theorem C9_write_precedes_fulfilment ext cfg req event customer metadata reference amount
    cart_field doc w :
  delivers ext cfg req event ->
  is_charge event customer metadata reference amount cart_field ->
  purchase_input customer metadata reference amount (or_empty cart_field) = Normal doc ->
  let w' := snd (paystack_webhook ext cfg req w) in
  (exists rest,
     new_effects w w' = DbSave doc (settled (insert ext (tick w) (ledger w) doc)) :: rest) /\
  write_precedes_fulfilment (new_effects w w') = true /\
  (convertible reference = true ->
   convertible (prop customer "email") = true ->
   (forall items, or_empty cart_field = VArr items -> forallb (servable ext) items = true) ->
   fst (paystack_webhook ext cfg req w) = Normal 200%Z).
Proof.
  intros Hd Hch Hin w'.
  destruct (webhook_begins_with_save ext cfg req event customer metadata reference amount
              cart_field doc w Hd Hch Hin) as [rest Ht].
  pose proof (new_effects_of w _ _ Ht) as Hn.
  fold w' in Hn. rewrite Hn.
  split; [ exists rest; reflexivity | ].
  split; [ reflexivity | ].
  intros Hr He Hs.
  destruct (purchase_input_built _ _ _ _ _ _ Hin) as (Hc & Hm & items & Hcart & Hl & Hdoc).
  exact (webhook_servable ext cfg req event customer metadata reference amount cart_field
           items w Hd Hch Hcart Hc Hr He (Hs items Hcart)).
Qed.

Lemma C9_write_precedes_fulfilment_witness :
  let doc := built Demo.customer (Demo.with_cart Demo.jane_cart) (VStr "abc123")
               Demo.amount Demo.jane_cart in
  let w' := snd (paystack_webhook Demo.demo_ext Demo.demo_cfg (Demo.signed "jane")
                   Demo.start) in
  (exists rest,
     new_effects Demo.start w'
     = DbSave doc (settled (insert Demo.demo_ext (tick Demo.start) (ledger Demo.start) doc))
       :: rest) /\
  write_precedes_fulfilment (new_effects Demo.start w') = true /\
  (convertible (VStr "abc123") = true ->
   convertible (prop Demo.customer "email") = true ->
   (forall items, or_empty (VArr Demo.jane_cart) = VArr items ->
                  forallb (servable Demo.demo_ext) items = true) ->
   fst (paystack_webhook Demo.demo_ext Demo.demo_cfg (Demo.signed "jane") Demo.start)
   = Normal 200%Z).
Proof.
  intro doc.
  apply (C9_write_precedes_fulfilment Demo.demo_ext Demo.demo_cfg (Demo.signed "jane")
           Demo.jane_event Demo.customer (Demo.with_cart Demo.jane_cart) (VStr "abc123")
           Demo.amount (VArr Demo.jane_cart) doc Demo.start).
  - apply Demo_delivers. reflexivity.
  - apply (Demo_is_charge "abc123").
  - reflexivity.
Defined.

(** The save of the two-ticket purchase comes first, and the purchase is
    answered with 200. *)
Example jane_is_saved_first :
  let run := paystack_webhook Demo.demo_ext Demo.demo_cfg (Demo.signed "jane") Demo.start in
  fst run = Normal 200%Z /\
  map is_save (new_effects Demo.start (snd run))
  = [true; false; false; false; false; false; false; false; false; false; false].
Proof. vm_compute. split; reflexivity. Qed.

(** ** A charge without a cart *)

(** C10, as stated, fails on a charge.success whose metadata has neither a
    cart nor a buyer name: [buyerName] is required by the schema, the save
    is rejected by validation, and no Purchase is persisted (the answer is
    still 200 and no email is sent). *)
Lemma C10_counterexample :
  delivers Demo.demo_ext Demo.demo_cfg (Demo.signed "foreign") Demo.foreign_event /\
  is_charge Demo.foreign_event Demo.customer (VObj []) (VStr "for001") Demo.amount VUndefined /\
  let run := paystack_webhook Demo.demo_ext Demo.demo_cfg (Demo.signed "foreign") Demo.start in
  fst run = Normal 200%Z /\
  ledger (snd run) = [] /\
  new_effects Demo.start (snd run)
  = [DbSave (built Demo.customer (VObj []) (VStr "for001") Demo.amount []) (Throw ValidationError);
     Console (LogDatabaseSaveError ValidationError);
     Console (LogPaymentSuccessful (VStr "a@x.com"))].
Proof.
  split; [ apply Demo_delivers; reflexivity | ].
  split; [ apply (Demo_is_charge "for001" []) | ].
  vm_compute. repeat split.
Qed.

Lemma validate_inventory_nil ext doc date p :
  validate ext doc date = Some p -> in_inventory doc = [] -> inventory p = [].
Proof.
  unfold validate. intros H Hinv. rewrite Hinv in H. simpl in H.
  destruct (required_String (castString ext (in_buyerName doc))); [ | discriminate ].
  destruct (required_String (castString ext (in_buyerEmail doc))); [ | discriminate ].
  destruct (required_Number (castNumber ext (in_totalAmount doc))); [ | discriminate ].
  destruct (required_String (castString ext (in_paystackReference doc))); [ | discriminate ].
  inversion H. reflexivity.
Qed.

Lemma insert_validated ext t l doc p :
  insert ext t l doc = Normal p ->
  validate ext doc t = Some p /\ store_fault ext t = None /\
  has_reference (paystackReference p) l = false.
Proof.
  unfold insert. destruct (validate ext doc t) as [p' |]; [ | discriminate ].
  destruct (store_fault ext t); [ discriminate | ].
  destruct (has_reference (paystackReference p') l) eqn:E; [ discriminate | ].
  intro H. inversion H. subst. repeat split. exact E.
Qed.

(** C10, amended: on a charge.success whose metadata has no cart, whose
    customer is there and whose reference and customer's email convert to
    strings, the handler saves a document with an empty inventory, sends
    no email and answers 200; the document is persisted, with its empty
    inventory, when mongoose validates it and the store accepts it. *)
Theorem C10_cartless_purchase ext cfg req event customer metadata reference amount w :
  delivers ext cfg req event ->
  is_charge event customer metadata reference amount VUndefined ->
  non_nullish customer = true ->
  convertible reference = true ->
  convertible (prop customer "email") = true ->
  let doc := built customer metadata reference amount [] in
  exists w' rest,
    paystack_webhook ext cfg req w = (Normal 200%Z, w') /\
    in_inventory doc = [] /\
    new_effects w w' = DbSave doc (settled (insert ext (tick w) (ledger w) doc)) :: rest /\
    sent_mails (new_effects w w') = [] /\
    (forall p, insert ext (tick w) (ledger w) doc = Normal p ->
               ledger w' = ledger w ++ [p] /\ inventory p = []).
Proof.
  intros Hd Hch Hc Hr He doc.
  pose proof (webhook_fulfils ext cfg req event customer metadata reference amount
                VUndefined [] w Hd Hch eq_refl Hc He eq_refl) as H.
  cbv zeta in H. fold doc in H.
  destruct (insert ext (tick w) (ledger w) doc) as [p | e] eqn:Hi.
  - do 2 eexists. split; [ apply H; intros e Ee; discriminate | ].
    rewrite new_effects_app.
    split; [ reflexivity | ]. split; [ reflexivity | ]. split; [ reflexivity | ].
    intros p' Hp'. inversion Hp'. subst p'. split; [ reflexivity | ].
    destruct (insert_validated ext _ _ _ _ Hi) as (Hv & _).
    exact (validate_inventory_nil ext doc (tick w) p Hv eq_refl).
  - destruct (code_is e 11000) eqn:Hcode.
    + apply code_is_iff in Hcode.
      do 2 eexists. split.
      * apply (webhook_duplicate ext cfg req event customer metadata reference amount
                 VUndefined [] e w Hd Hch eq_refl Hc eq_refl Hr Hi Hcode).
      * rewrite new_effects_app.
        split; [ reflexivity | ]. split; [ reflexivity | ]. split; [ reflexivity | ].
        intros p Hp. discriminate.
    + do 2 eexists. split.
      * apply H. intros e' He' Hc'. inversion He'. subst e'.
        apply code_is_iff in Hc'. congruence.
      * rewrite new_effects_app.
        split; [ reflexivity | ]. split; [ reflexivity | ]. split; [ reflexivity | ].
        intros p Hp. discriminate.
Qed.

Lemma C10_cartless_purchase_witness :
  let doc := built Demo.customer Demo.cartless_metadata (VStr "noc001") Demo.amount [] in
  exists w' rest,
    paystack_webhook Demo.demo_ext Demo.demo_cfg (Demo.signed "cartless") Demo.start
    = (Normal 200%Z, w') /\
    in_inventory doc = [] /\
    new_effects Demo.start w'
    = DbSave doc (settled (insert Demo.demo_ext (tick Demo.start) (ledger Demo.start) doc))
      :: rest /\
    sent_mails (new_effects Demo.start w') = [] /\
    (forall p, insert Demo.demo_ext (tick Demo.start) (ledger Demo.start) doc = Normal p ->
               ledger w' = ledger Demo.start ++ [p] /\ inventory p = []).
Proof.
  apply (C10_cartless_purchase Demo.demo_ext Demo.demo_cfg (Demo.signed "cartless")
           Demo.cartless_event Demo.customer Demo.cartless_metadata (VStr "noc001")
           Demo.amount Demo.start).
  - apply Demo_delivers. reflexivity.
  - apply (Demo_is_charge "noc001" [("full_name", VStr "Jane Doe")]).
  - reflexivity.
  - reflexivity.
  - reflexivity.
Defined.

(** The cartless purchase of the demonstration is persisted. *)
Example cartless_persisted :
  map (fun p => (paystackReference p, inventory p))
      (ledger (snd (paystack_webhook Demo.demo_ext Demo.demo_cfg (Demo.signed "cartless")
                      Demo.start)))
  = [("noc001", [])].
Proof. reflexivity. Qed.

(** ** Redelivery *)

Section Ledger.

Variable ext : externals.
Variable cfg : config.

(** The ledger step leaves the ledger as it was or adds the one document
    the store accepted. *)
Lemma record_purchase_ledger customer metadata reference amount cart w :
  let w1 := snd (record_purchase ext customer metadata reference amount cart w) in
  ledger w1 = ledger w \/
  exists doc p, insert ext (tick w) (ledger w) doc = Normal p /\ ledger w1 = ledger w ++ [p].
Proof.
  cbv zeta.
  destruct (purchase_input customer metadata reference amount cart) as [doc | e] eqn:Hin.
  - destruct (insert ext (tick w) (ledger w) doc) as [p | e] eqn:Hi.
    + right. exists doc, p. split; [ exact Hi | ].
      rewrite (record_purchase_saved ext _ _ _ _ _ doc p w Hin Hi). reflexivity.
    + left. destruct (code_is e 11000) eqn:Hcode.
      * apply code_is_iff in Hcode.
        destruct (convertible reference) eqn:Hr.
        -- rewrite (record_purchase_duplicate ext _ _ _ _ _ doc e w Hin Hi Hcode Hr).
           reflexivity.
        -- rewrite (record_purchase_duplicate_throws ext _ _ _ _ _ doc e w Hin Hi Hcode Hr).
           reflexivity.
      * assert (Hne : error_code e <> Some 11000%Z).
        { intro Hc. apply code_is_iff in Hc. congruence. }
        rewrite (record_purchase_failed ext _ _ _ _ _ doc e w Hin Hi Hne). reflexivity.
  - left. rewrite (record_purchase_unbuilt ext _ _ _ _ _ e w Hin). reflexivity.
Qed.

Lemma charge_success_ledger event w :
  let w' := snd (charge_success ext cfg event w) in
  ledger w' = ledger w \/
  exists doc p, insert ext (tick w) (ledger w) doc = Normal p /\ ledger w' = ledger w ++ [p].
Proof.
  cbv zeta. unfold charge_success.
  repeat (rewrite bind_lift;
          match goal with
          | |- context [match ?c with Normal _ => _ | Throw _ => _ end] =>
              destruct c; [ | left; reflexivity ]
          end).
  cbv zeta. unfold bind.
  match goal with
  | |- context [record_purchase ext ?c ?m ?r ?a ?cart w] =>
      pose proof (record_purchase_ledger c m r a cart w) as H;
      cbv zeta in H;
      destruct (record_purchase ext c m r a cart w) as [[[status |] | e] w1] eqn:E;
      simpl in H
  end.
  - exact H.
  - match goal with
    | |- context [fulfil_cart ext cfg ?c ?m ?cart w1] =>
        pose proof (framed_ledger _ w1 (framed_fulfil_cart ext cfg c m cart)) as Hf;
        destruct (fulfil_cart ext cfg c m cart w1) as [[[] | e] w2]; simpl in Hf; simpl
    end; rewrite Hf; exact H.
  - exact H.
Qed.

Lemma webhook_ledger req w :
  let w' := snd (paystack_webhook ext cfg req w) in
  ledger w' = ledger w \/
  exists doc p, insert ext (tick w) (ledger w) doc = Normal p /\ ledger w' = ledger w ++ [p].
Proof.
  cbv zeta. unfold paystack_webhook.
  rewrite bind_lift. destruct (of_option (PAYSTACK_SECRET_KEY cfg) _); [ | left; reflexivity ].
  rewrite bind_lift. destruct (of_option (body req) _); [ | left; reflexivity ].
  cbv zeta. destruct (signature_differs _ _); [ left; reflexivity | ].
  rewrite bind_lift. destruct (of_option (JSON_parse ext a0) _); [ | left; reflexivity ].
  rewrite bind_lift. destruct (get a1 "event"); [ | left; reflexivity ].
  destruct (strict_eq_string a2 "charge.success"); [ | left; reflexivity ].
  apply charge_success_ledger.
Qed.

(** A delivery whose document is built and whose insert is accepted adds
    that Purchase to the ledger, however the handler ends. *)
Lemma webhook_saved_ledger req event customer metadata reference amount cart_field doc p w :
  delivers ext cfg req event ->
  is_charge event customer metadata reference amount cart_field ->
  purchase_input customer metadata reference amount (or_empty cart_field) = Normal doc ->
  insert ext (tick w) (ledger w) doc = Normal p ->
  ledger (snd (paystack_webhook ext cfg req w)) = ledger w ++ [p].
Proof.
  intros Hd Hch Hin Hi.
  rewrite (webhook_charge ext cfg req event _ _ _ _ _ w Hd Hch).
  rewrite bind_run, (record_purchase_saved ext _ _ _ _ _ doc p w Hin Hi).
  match goal with
  | |- ledger (snd (bind ?m ?k ?w1)) = _ =>
      rewrite (framed_ledger (bind m k) w1)
  end; [ reflexivity | ].
  apply framed_bind; [ apply framed_fulfil_cart | intros _; apply framed_ret ].
Qed.

Lemma has_reference_false ref l :
  has_reference ref l = false -> ~ In ref (map paystackReference l).
Proof.
  unfold has_reference. intros H Hin. apply in_map_iff in Hin.
  destruct Hin as (p & Hp & Hin).
  assert (E : existsb (fun p0 => String.eqb (paystackReference p0) ref) l = true).
  { apply existsb_exists. exists p. split; [ exact Hin | ]. apply String.eqb_eq. exact Hp. }
  congruence.
Qed.

Lemma has_reference_last ref l p :
  paystackReference p = ref -> has_reference ref (l ++ [p]) = true.
Proof.
  intro H. unfold has_reference. rewrite existsb_app. simpl.
  rewrite H, String.eqb_refl. apply orb_true_iff. right. reflexivity.
Qed.

(** However many deliveries there are, no two documents of the ledger have
    the same reference. *)
Lemma webhook_references_unique req w :
  NoDup (map paystackReference (ledger w)) ->
  NoDup (map paystackReference (ledger (snd (paystack_webhook ext cfg req w)))).
Proof.
  intro Hnd. destruct (webhook_ledger req w) as [-> | (doc & p & Hi & ->)]; [ exact Hnd | ].
  destruct (insert_validated ext _ _ _ _ Hi) as (_ & _ & Hfresh).
  rewrite map_app. simpl.
  apply NoDup_app; [ exact Hnd | repeat constructor; intros [] | ].
  intros ref Hin [<- | []]. exact (has_reference_false _ _ Hfresh Hin).
Qed.

End Ledger.

(** C1, as stated, fails when the first insert fails for another reason
    than the key.  Here the store is out of reach at the first delivery of
    the two-ticket purchase and back at the second: both deliveries are
    answered with 200, both mail the two tickets, the second delivery's
    insert succeeds instead of failing on the key, and the buyer has two
    full sets of emails for one persisted Purchase. *)
Lemma C1_counterexample :
  delivers Demo.outage_ext Demo.demo_cfg (Demo.signed "jane") Demo.jane_event /\
  let first := paystack_webhook Demo.outage_ext Demo.demo_cfg (Demo.signed "jane") Demo.start in
  let second := paystack_webhook Demo.outage_ext Demo.demo_cfg (Demo.signed "jane") (snd first) in
  fst first = Normal 200%Z /\
  fst second = Normal 200%Z /\
  List.length (units Demo.outage_ext Demo.jane_cart) = 2 /\
  List.length (sent_mails (new_effects Demo.start (snd first))) = 2 /\
  List.length (sent_mails (new_effects (snd first) (snd second))) = 2 /\
  hd_error (new_effects (snd first) (snd second))
  = Some (DbSave (built Demo.customer (Demo.with_cart Demo.jane_cart) (VStr "abc123")
                    Demo.amount Demo.jane_cart) (Normal tt)) /\
  map paystackReference (ledger (snd second)) = ["abc123"%string].
Proof.
  split; [ apply Demo_outage_delivers; reflexivity | ].
  vm_compute. repeat split.
Qed.

Section Redelivery.

Variable ext : externals.
Variable cfg : config.

(** Validation does not depend on the time but for the date it stamps. *)
Lemma validate_later doc t t' p :
  validate ext doc t = Some p ->
  exists p', validate ext doc t' = Some p' /\ paystackReference p' = paystackReference p.
Proof.
  unfold validate.
  destruct (required_String (castString ext (in_buyerName doc))); [ | discriminate ].
  destruct (required_String (castString ext (in_buyerEmail doc))); [ | discriminate ].
  destruct (validate_inventory ext (in_inventory doc)); [ | discriminate ].
  destruct (required_Number (castNumber ext (in_totalAmount doc))); [ | discriminate ].
  destruct (required_String (castString ext (in_paystackReference doc))); [ | discriminate ].
  intro H. inversion H. eexists. split; reflexivity.
Qed.

(** Once a document is in the ledger, inserting the same input again, with
    the store in reach, is refused for the key. *)
Lemma insert_again doc t t' l p :
  insert ext t l doc = Normal p ->
  store_fault ext t' = None ->
  insert ext t' (l ++ [p]) doc = Throw (MongoServerError 11000).
Proof.
  intros Hi Hs. destruct (insert_validated ext t l doc p Hi) as (Hv & _ & _).
  destruct (validate_later doc t t' p Hv) as (p' & Hv' & Hr).
  unfold insert. rewrite Hv', Hs, (has_reference_last _ l p (eq_sym Hr)). reflexivity.
Qed.

Lemma filter_reference_fresh ref l :
  has_reference ref l = false ->
  filter (fun q => String.eqb (paystackReference q) ref) l = [].
Proof.
  unfold has_reference. induction l as [| q l IH]; simpl; [ reflexivity | ].
  intro H. apply orb_false_iff in H. destruct H as [Hq Hl].
  rewrite Hq. apply IH. exact Hl.
Qed.

End Redelivery.

(** C1, amended: however many times and with whatever outcome events are
    delivered, no two Purchases of the ledger have the same reference; and
    when the insert of a delivery of an event is accepted, the store is in
    reach at a second delivery of the same event (in the same request or
    in another one) and the reference converts to a string, the second
    insert is refused on the unique key, the answer is 200, no unit is
    processed (no email), and the ledger holds exactly the one Purchase
    for that reference. *)
Theorem C1_redelivery_short_circuits ext cfg :
  (forall req w,
     NoDup (map paystackReference (ledger w)) ->
     NoDup (map paystackReference (ledger (snd (paystack_webhook ext cfg req w))))) /\
  (forall req req' event customer metadata reference amount cart_field doc p w,
     delivers ext cfg req event ->
     delivers ext cfg req' event ->
     is_charge event customer metadata reference amount cart_field ->
     purchase_input customer metadata reference amount (or_empty cart_field) = Normal doc ->
     insert ext (tick w) (ledger w) doc = Normal p ->
     convertible reference = true ->
     let w1 := snd (paystack_webhook ext cfg req w) in
     store_fault ext (tick w1) = None ->
     ledger w1 = ledger w ++ [p] /\
     exists w2,
       paystack_webhook ext cfg req' w1 = (Normal 200%Z, w2) /\
       ledger w2 = ledger w1 /\
       new_effects w1 w2
       = [DbSave doc (Throw (MongoServerError 11000));
          Console (LogAlreadyProcessed reference)] /\
       filter is_fulfilment (new_effects w1 w2) = [] /\
       sent_mails (new_effects w1 w2) = [] /\
       filter (fun q => String.eqb (paystackReference q) (paystackReference p)) (ledger w2)
       = [p]).
Proof.
  split; [ intros req w; apply webhook_references_unique | ].
  intros req req' event customer metadata reference amount cart_field doc p w
    Hd Hd' Hch Hin Hi Hr w1 Hs.
  pose proof (webhook_saved_ledger ext cfg req event customer metadata reference amount
                cart_field doc p w Hd Hch Hin Hi) as Hl1.
  fold w1 in Hl1.
  split; [ exact Hl1 | ].
  destruct (purchase_input_built _ _ _ _ _ _ Hin) as (Hc & Hm & items & Hcart & Hl & Hdoc).
  subst doc.
  assert (Hi2 : insert ext (tick w1) (ledger w1)
                  (built customer metadata reference amount items)
                = Throw (MongoServerError 11000)).
  { rewrite Hl1. apply (insert_again ext _ (tick w) (tick w1) (ledger w) p Hi). exact Hs. }
  eexists. split.
  - apply (webhook_duplicate ext cfg req' event customer metadata reference amount
             cart_field items _ w1 Hd' Hch Hcart Hc Hl Hr Hi2). reflexivity.
  - cbn [ledger]. rewrite new_effects_app.
    split; [ reflexivity | ]. split; [ reflexivity | ]. split; [ reflexivity | ].
    split; [ reflexivity | ].
    rewrite Hl1, filter_app.
    destruct (insert_validated ext _ _ _ _ Hi) as (_ & _ & Hfresh).
    rewrite (filter_reference_fresh _ _ Hfresh). simpl.
    rewrite String.eqb_refl. reflexivity.
Qed.

Lemma C1_redelivery_short_circuits_witness :
  let doc := built Demo.customer (Demo.with_cart Demo.jane_cart) (VStr "abc123")
               Demo.amount Demo.jane_cart in
  let p := {| buyerName := "Jane Doe"; buyerEmail := "a@x.com";
              inventory := [{| ticketType := Some "regular"%string;
                               quantity := Some (inject_Z 2);
                               name := Some "Regular Ticket"%string |}];
              totalAmount := inject_Z 1000000; paystackReference := "abc123";
              purchaseDate := 0 |} in
  let w1 := snd (paystack_webhook Demo.demo_ext Demo.demo_cfg (Demo.signed "jane") Demo.start) in
  ledger w1 = ledger Demo.start ++ [p] /\
  exists w2,
    paystack_webhook Demo.demo_ext Demo.demo_cfg (Demo.signed "jane, sent again") w1
    = (Normal 200%Z, w2) /\
    ledger w2 = ledger w1 /\
    new_effects w1 w2
    = [DbSave doc (Throw (MongoServerError 11000));
       Console (LogAlreadyProcessed (VStr "abc123"))] /\
    filter is_fulfilment (new_effects w1 w2) = [] /\
    sent_mails (new_effects w1 w2) = [] /\
    filter (fun q => String.eqb (paystackReference q) (paystackReference p)) (ledger w2) = [p].
Proof.
  intros doc p.
  apply (proj2 (C1_redelivery_short_circuits Demo.demo_ext Demo.demo_cfg)
           (Demo.signed "jane") (Demo.signed "jane, sent again") Demo.jane_event Demo.customer
           (Demo.with_cart Demo.jane_cart)
           (VStr "abc123") Demo.amount (VArr Demo.jane_cart) doc p Demo.start).
  - apply Demo_delivers. reflexivity.
  - apply Demo_delivers. reflexivity.
  - apply (Demo_is_charge "abc123").
  - reflexivity.
  - reflexivity.
  - reflexivity.
  - reflexivity.
Defined.

(** ** The shapes the handler survives *)

Section Shapes.

Variable ext : externals.
Variable cfg : config.

Lemma get_throws_TypeError v k e : get v k = Throw e -> exists what, e = TypeError what.
Proof. destruct v; simpl; intro H; inversion H; eauto. Qed.

(** A string is gone through character by character, and no character has
    a quantity: nothing is done. *)
Lemma for_of_characters body (l : list ascii) w :
  for_of (map (fun c => VStr (String c EmptyString)) l) (for_quantity ext body) w
  = (Normal tt, w).
Proof.
  induction l as [| c l IH]; simpl; [ reflexivity | ].
  unfold bind at 1. unfold for_quantity at 1. rewrite bind_lift. simpl. exact IH.
Qed.

(** A charge.success whose cart is a string: no document is built, the
    failure is logged, no unit is processed, and the answer is 200. *)
Lemma webhook_string_cart req event customer metadata reference amount cart_field s w :
  delivers ext cfg req event ->
  is_charge event customer metadata reference amount cart_field ->
  or_empty cart_field = VStr s ->
  non_nullish customer = true ->
  convertible (prop customer "email") = true ->
  fst (paystack_webhook ext cfg req w) = Normal 200%Z.
Proof.
  intros Hd Hch Hcart Hc He.
  rewrite (webhook_charge ext cfg req event _ _ _ _ _ w Hd Hch). rewrite Hcart.
  destruct (purchase_input customer metadata reference amount (VStr s)) as [doc | e] eqn:Hin.
  - destruct (purchase_input_built _ _ _ _ _ _ Hin) as (_ & _ & items & E & _). discriminate.
  - rewrite bind_run, (record_purchase_unbuilt ext _ _ _ _ _ e w Hin).
    unfold fulfil_cart.
    rewrite bind_run, bind_lift, (get_non_nullish customer "email" Hc).
    rewrite bind_lift. unfold ToPrimitive. rewrite He.
    unfold bind at 1. unfold emit at 1.
    rewrite bind_lift. cbn [iterate].
    rewrite for_of_characters. reflexivity.
Qed.

End Shapes.

(** C4, as stated, fails on a signed charge.success without data: the
    destructuring of line 46 throws, the handler's promise rejects and no
    status is sent; the ledger is empty, so this is no duplicate delivery. *)
Lemma C4_counterexample :
  delivers Demo.demo_ext Demo.demo_cfg (Demo.signed "bare") Demo.bare_event /\
  ledger Demo.start = [] /\
  paystack_webhook Demo.demo_ext Demo.demo_cfg (Demo.signed "bare") Demo.start
  = (Throw (TypeError "Cannot read properties of undefined"), Demo.start).
Proof.
  split; [ apply Demo_delivers; reflexivity | ].
  split; reflexivity.
Qed.

(** C4, amended: a request that passes the signature check and whose body
    is JSON is answered with 200, whatever the ledger and the units do,
    when the event is well shaped: it is not [null] and, for a
    charge.success, data, customer and metadata are there, the reference
    and the customer's email convert to strings, and the cart is absent or
    falsy, a string, or an array of lines that are there, with a quantity
    that converts to a number other than the positive infinity and a name
    that converts to a string. *)
Theorem C4_acknowledged_when_well_shaped ext cfg req event w :
  delivers ext cfg req event ->
  well_shaped ext event = true ->
  fst (paystack_webhook ext cfg req w) = Normal 200%Z.
Proof.
  intros Hd Hw. unfold well_shaped in Hw.
  destruct (get event "event") as [type | e] eqn:Hty; [ | discriminate ].
  destruct (strict_eq_string type "charge.success") eqn:Hcs.
  2:{ rewrite (webhook_delivers ext cfg req event w Hd), bind_lift, Hty, Hcs. reflexivity. }
  apply strict_eq_string_iff in Hcs. subst type.
  unfold charge_shaped in Hw.
  destruct (get event "data") as [data | e] eqn:Hdata; [ | discriminate ].
  destruct (get data "customer") as [customer | e] eqn:Hcust; [ | discriminate ].
  destruct (get data "metadata") as [metadata | e] eqn:Hmeta; [ | discriminate ].
  destruct (get metadata "cart") as [cart_field | e] eqn:Hcart; [ | discriminate ].
  apply andb_true_iff in Hw. destruct Hw as [Hw Hlines].
  apply andb_true_iff in Hw. destruct Hw as [Hw He].
  apply andb_true_iff in Hw. destruct Hw as [Hc Hr].
  pose proof (get_normal_non_nullish _ _ _ Hcust) as Hd'.
  assert (Hch : is_charge event customer metadata (prop data "reference")
                  (prop data "amount") cart_field).
  { split; [ exact Hty | ]. exists data.
    repeat split; try assumption; apply get_non_nullish; exact Hd'. }
  destruct (or_empty cart_field) as [ | | b | q | n | s | items | fields ] eqn:Hor;
    cbn [iterable_lines] in Hlines; try discriminate.
  - exact (webhook_string_cart ext cfg req event customer metadata _ _ cart_field s w
             Hd Hch Hor Hc He).
  - exact (webhook_servable ext cfg req event customer metadata _ _ cart_field items w
             Hd Hch Hor Hc Hr He Hlines).
Qed.

Lemma C4_acknowledged_when_well_shaped_witness :
  well_shaped Demo.demo_ext Demo.mixed_event = true /\
  fst (paystack_webhook Demo.demo_ext Demo.demo_cfg (Demo.signed "mixed") Demo.start)
  = Normal 200%Z.
Proof.
  split; [ reflexivity | ].
  apply (C4_acknowledged_when_well_shaped Demo.demo_ext Demo.demo_cfg
           (Demo.signed "mixed") Demo.mixed_event Demo.start).
  - apply Demo_delivers. reflexivity.
  - reflexivity.
Defined.

(** The shapes left out of [well_shaped] are left out for a reason: a
    customer whose email does not convert, a line whose name does not
    convert, and a line in a quantity beyond the doubles are not well
    shaped, and the handler throws on the first two and never answers the
    third, after the three tickets its loop was given the time to mail. *)
Example shapes_left_out :
  well_shaped Demo.demo_ext Demo.unreachable_event = false /\
  well_shaped Demo.demo_ext Demo.stubborn_event = false /\
  well_shaped Demo.demo_ext Demo.endless_event = false /\
  fst (paystack_webhook Demo.demo_ext Demo.demo_cfg (Demo.signed "unreachable") Demo.start)
  = Throw unconvertible /\
  fst (paystack_webhook Demo.demo_ext Demo.demo_cfg (Demo.signed "stubborn") Demo.start)
  = Throw unconvertible /\
  (let run := paystack_webhook Demo.demo_ext Demo.demo_cfg (Demo.signed "endless")
                Demo.start in
   fst run = Throw NeverSettles /\
   List.length (sent_mails (trace (snd run))) = uptime Demo.demo_ext).
Proof. vm_compute. repeat split. Qed.

(** * Further properties of the webhook *)

(** ** Quantities that are not counts *)

Lemma trip_count_least (q : Q) (n : nat) :
  (q <= inject_Z (Z.of_nat n))%Q ->
  (forall m : nat, (q <= inject_Z (Z.of_nat m))%Q -> n <= m) ->
  forall ext, trip_count ext (Finite q) = n.
Proof.
  intros Hle Hleast ext. simpl.
  apply Nat.le_antisymm.
  - apply Qceiling_resp_le in Hle. rewrite Qceiling_Z in Hle. lia.
  - apply Hleast.
    apply Qle_trans with (y := inject_Z (Qceiling q)); [ apply Qle_ceiling | ].
    rewrite <- Zle_Qle. lia.
Qed.

(** X13: The inner loop of line 74 on a numeric quantity [q] that need not be a
    whole number: the body runs at the indexes 0, 1, ..., n-1 where n is the
    least natural number not below [q] (a quantity of 2.5 gives 3 turns). *)
Theorem quantity_rounded_up ext (body : value -> nat -> M unit) (item : value) (q : Q)
    (n : nat) (w : world) :
  get item "quantity" = Normal (VNum q) ->
  (q <= inject_Z (Z.of_nat n))%Q ->
  (forall m : nat, (q <= inject_Z (Z.of_nat m))%Q -> n <= m) ->
  for_quantity ext body item w = run_units (map (pair item) (seq 0 n)) body w.
Proof.
  intros Hq Hle Hleast.
  rewrite (for_quantity_units ext body item (VNum q) w Hq eq_refl eq_refl).
  unfold line_units. rewrite Hq. cbn [ToNumber].
  rewrite (trip_count_least q n Hle Hleast ext). reflexivity.
Qed.

Lemma quantity_rounded_up_witness :
  let item := VObj [("type", VStr "regular"); ("quantity", VNum (5 # 2))] in
  let body := fulfil_unit Demo.demo_ext Demo.demo_cfg Demo.customer Demo.cartless_metadata in
  for_quantity Demo.demo_ext body item Demo.start
  = run_units (map (pair item) (seq 0 3)) body Demo.start.
Proof.
  intros item body.
  apply (quantity_rounded_up Demo.demo_ext body item (5 # 2) 3 Demo.start).
  - reflexivity.
  - unfold Qle. simpl. lia.
  - intros m H. unfold Qle in H. simpl in H. lia.
Defined.

(** X14: A line whose quantity is missing, [null], zero or negative is passed
    over in silence: the body is not run, nothing is logged and nothing is
    thrown. *)
Theorem quantity_absent_or_not_positive ext (body : value -> nat -> M unit) (item : value)
    (w : world) :
  non_nullish item = true ->
  (prop item "quantity" = VUndefined \/
   prop item "quantity" = VNull \/
   exists q, prop item "quantity" = VNum q /\ (q <= 0)%Q) ->
  for_quantity ext body item w = (Normal tt, w).
Proof.
  intros Hi Hq.
  rewrite (for_quantity_units ext body item (prop item "quantity") w
             (get_non_nullish item "quantity" Hi));
    [ | destruct Hq as [-> | [-> | (q & -> & Hq)]]; reflexivity
      | destruct Hq as [-> | [-> | (q & -> & Hq)]]; reflexivity ].
  unfold line_units. rewrite (get_non_nullish item "quantity" Hi).
  destruct Hq as [-> | [-> | (q & -> & Hq)]]; try reflexivity.
  cbn [ToNumber]. rewrite (trip_count_least q 0); [ reflexivity | exact Hq | intros; lia ].
Qed.

Lemma quantity_absent_or_not_positive_witness :
  let item := VObj [("type", VStr "regular"); ("quantity", VNum (- (3 # 1)))] in
  let body := fulfil_unit Demo.demo_ext Demo.demo_cfg Demo.customer Demo.cartless_metadata in
  for_quantity Demo.demo_ext body item Demo.start = (Normal tt, Demo.start).
Proof.
  intros item body.
  apply (quantity_absent_or_not_positive Demo.demo_ext body item Demo.start).
  - reflexivity.
  - right. right. exists (- (3 # 1))%Q. split; [ reflexivity | ].
    unfold Qle. simpl. lia.
Defined.

(** ** The ledger over deliveries *)

Section LedgerInvariants.

Variable ext : externals.
Variable cfg : config.

Lemma validate_required doc t p : validate ext doc t = Some p -> has_required p.
Proof.
  unfold validate, has_required, required_String.
  destruct (castString ext (in_buyerName doc)) as [ | | bn ]; try discriminate.
  destruct (String.eqb bn "") eqn:Ebn; [ discriminate | ].
  destruct (castString ext (in_buyerEmail doc)) as [ | | be ]; try discriminate.
  destruct (String.eqb be "") eqn:Ebe; [ discriminate | ].
  destruct (validate_inventory ext (in_inventory doc)); [ | discriminate ].
  destruct (required_Number (castNumber ext (in_totalAmount doc))); [ | discriminate ].
  destruct (castString ext (in_paystackReference doc)) as [ | | ref ]; try discriminate.
  destruct (String.eqb ref "") eqn:Eref; [ discriminate | ].
  intro H. inversion H. simpl.
  apply String.eqb_neq in Ebn, Ebe, Eref. repeat split; assumption.
Qed.

End LedgerInvariants.

(** One delivery, whatever the request and however it ends, leaves the
    Purchases that were in the ledger where they were and adds at most one,
    whose reference was not there before. *)
Lemma delivery_appends_at_most_one ext cfg req w :
  exists added,
    ledger (snd (paystack_webhook ext cfg req w)) = ledger w ++ added /\
    List.length added <= 1 /\
    (forall p, In p added ->
               has_reference (paystackReference p) (ledger w) = false /\ has_required p).
Proof.
  destruct (webhook_ledger ext cfg req w) as [-> | (doc & p & Hi & ->)].
  - exists []. rewrite app_nil_r. split; [ reflexivity | ]. split; [ simpl; lia | ].
    intros p [].
  - exists [p]. split; [ reflexivity | ]. split; [ simpl; lia | ].
    intros p' [<- | []].
    destruct (insert_validated ext _ _ _ _ Hi) as (Hv & _ & Hfresh).
    split; [ exact Hfresh | exact (validate_required ext doc _ p Hv) ].
Qed.

(** X9: After any sequence of deliveries, the Purchases that were in the ledger
    are still there, in place, followed by at most one new Purchase per
    delivery; if the references were unique and the required paths filled
    before, they still are. *)
Theorem deliveries_keep_ledger_sound ext cfg (reqs : list request) (w : world) :
  let w' := deliver_all ext cfg reqs w in
  (exists added, ledger w' = ledger w ++ added /\ List.length added <= List.length reqs) /\
  (NoDup (map paystackReference (ledger w)) -> NoDup (map paystackReference (ledger w'))) /\
  (Forall has_required (ledger w) -> Forall has_required (ledger w')).
Proof.
  cbv zeta. revert w. induction reqs as [| req rest IH]; intro w; simpl.
  - split; [ exists []; rewrite app_nil_r; split; [ reflexivity | simpl; lia ] | ].
    split; intro H; exact H.
  - destruct (IH (snd (paystack_webhook ext cfg req w))) as ((added' & E' & Hlen') & Hnd & Hreq).
    destruct (delivery_appends_at_most_one ext cfg req w) as (added & E & Hlen & Hadd).
    split; [ | split ].
    + exists (added ++ added'). rewrite E', E, <- app_assoc.
      split; [ reflexivity | rewrite length_app; lia ].
    + intro H. apply Hnd. apply webhook_references_unique. exact H.
    + intro H. apply Hreq. rewrite E. apply Forall_app. split; [ exact H | ].
      apply Forall_forall. intros p Hp. apply (Hadd p Hp).
Qed.

Lemma deliveries_keep_ledger_sound_witness :
  let reqs := [Demo.signed "jane"; Demo.signed "jane"; Demo.forged "mixed";
               Demo.signed "mixed"] in
  let w' := deliver_all Demo.demo_ext Demo.demo_cfg reqs Demo.start in
  (exists added,
     ledger w' = ledger Demo.start ++ added /\ List.length added <= List.length reqs) /\
  NoDup (map paystackReference (ledger w')) /\
  Forall has_required (ledger w').
Proof.
  intros reqs w'.
  destruct (deliveries_keep_ledger_sound Demo.demo_ext Demo.demo_cfg reqs Demo.start)
    as (H1 & H2 & H3).
  split; [ exact H1 | ].
  split; [ apply H2; constructor | apply H3; constructor ].
Defined.

(** ** Deduplication is by reference alone *)

(** X10: A charge.success whose reference is a string already in the
    ledger, whose document is valid and whose insert reaches the store, is
    answered with 200 after the refused save and the console line, and
    none of its units is processed, whatever its buyer and its cart (they
    need not be those of the recorded Purchase). *)
Theorem known_reference_is_not_fulfilled ext cfg req event customer metadata
    (ref : string) amount cart_field doc p w :
  delivers ext cfg req event ->
  is_charge event customer metadata (VStr ref) amount cart_field ->
  purchase_input customer metadata (VStr ref) amount (or_empty cart_field) = Normal doc ->
  validate ext doc (tick w) = Some p ->
  store_fault ext (tick w) = None ->
  In (paystackReference p) (map paystackReference (ledger w)) ->
  paystack_webhook ext cfg req w
  = (Normal 200%Z,
     {| ledger := ledger w;
        tick := S (tick w);
        trace := trace w
                 ++ [DbSave doc (Throw (MongoServerError 11000));
                     Console (LogAlreadyProcessed (VStr ref))] |}).
Proof.
  intros Hd Hch Hin Hv Hs Hknown.
  destruct (purchase_input_built _ _ _ _ _ _ Hin) as (Hc & Hm & items & Hcart & Hl & Hdoc).
  subst doc.
  apply (webhook_duplicate ext cfg req event customer metadata (VStr ref) amount
           cart_field items (MongoServerError 11000) w Hd Hch Hcart Hc Hl eq_refl);
    [ | reflexivity ].
  unfold insert. rewrite Hv, Hs.
  destruct (has_reference (paystackReference p) (ledger w)) eqn:E; [ reflexivity | ].
  exfalso. exact (has_reference_false _ _ E Hknown).
Qed.

Lemma Demo2_delivers (raw : string) (event : value) :
  Demo.parse Demo2.bodies raw = Some event ->
  delivers Demo2.ext Demo.demo_cfg (Demo.signed raw) event.
Proof.
  intro H. exists Demo.secret, raw. repeat split; [ exact H ].
Qed.

Lemma known_reference_is_not_fulfilled_witness :
  let doc := built Demo2.other_customer Demo2.other_metadata (VStr "abc123")
               (VNum (inject_Z 4500000)) [Demo.line "vip" 3 "VIP Ticket"] in
  map paystackReference (ledger Demo2.after_jane) = ["abc123"%string] /\
  paystack_webhook Demo2.ext Demo.demo_cfg (Demo.signed "clash") Demo2.after_jane
  = (Normal 200%Z,
     {| ledger := ledger Demo2.after_jane;
        tick := S (tick Demo2.after_jane);
        trace := trace Demo2.after_jane
                 ++ [DbSave doc (Throw (MongoServerError 11000));
                     Console (LogAlreadyProcessed (VStr "abc123"))] |}).
Proof.
  intro doc. split; [ vm_compute; reflexivity | ].
  apply (known_reference_is_not_fulfilled Demo2.ext Demo.demo_cfg (Demo.signed "clash")
           Demo2.clash_event Demo2.other_customer Demo2.other_metadata "abc123"
           (VNum (inject_Z 4500000))
           (VArr [Demo.line "vip" 3 "VIP Ticket"]) doc
           {| buyerName := "John Roe"; buyerEmail := "b@y.org";
              inventory := [{| ticketType := Some "vip"%string;
                               quantity := Some (inject_Z 3);
                               name := Some "VIP Ticket"%string |}];
              totalAmount := inject_Z 4500000; paystackReference := "abc123";
              purchaseDate := 3 |}
           Demo2.after_jane).
  - apply Demo2_delivers. reflexivity.
  - split; [ reflexivity | ]. eexists. repeat split; reflexivity.
  - reflexivity.
  - vm_compute. reflexivity.
  - vm_compute. reflexivity.
  - vm_compute. left. reflexivity.
Defined.

(** ** What is recorded *)

Section Recorded.

Variable ext : externals.

Lemma stores_non_nullish item l : stores item l -> non_nullish item = true.
Proof.
  intros (ty & q & nm & Ht & _). exact (get_normal_non_nullish _ _ _ Ht).
Qed.

Lemma stores_all items lines :
  Forall2 stores items lines -> forallb non_nullish items = true.
Proof.
  induction 1 as [| item l items lines Hs _ IH]; simpl; [ reflexivity | ].
  rewrite (stores_non_nullish item l Hs), IH. reflexivity.
Qed.

Lemma validate_inventory_stores items lines :
  Forall2 stores items lines ->
  validate_inventory ext
    (map (fun it => (prop it "type", prop it "quantity", prop it "name")) items)
  = Some lines.
Proof.
  induction 1 as [| item l items lines (ty & q & nm & Ht & Hq & Hn & ->) _ IH];
    [ reflexivity | ].
  cbn [map validate_inventory].
  rewrite IH. unfold validate_line, prop. rewrite Ht, Hq, Hn. reflexivity.
Qed.

Lemma stores_servable items lines :
  Forall2 stores items lines -> forallb (servable ext) items = true.
Proof.
  induction 1 as [| item l items lines (ty & q & nm & Ht & Hq & Hn & _) _ IH];
    simpl; [ reflexivity | ].
  rewrite IH, andb_true_r.
  unfold servable, prop. rewrite Hq, Hn, (get_normal_non_nullish _ _ _ Ht). reflexivity.
Qed.

Lemma has_reference_not_in ref l :
  ~ In ref (map paystackReference l) -> has_reference ref l = false.
Proof.
  intro H. unfold has_reference.
  destruct (existsb (fun p => String.eqb (paystackReference p) ref) l) eqn:E;
    [ | reflexivity ].
  exfalso. apply H. apply existsb_exists in E. destruct E as (p & Hin & Hp).
  apply String.eqb_eq in Hp. apply in_map_iff. exists p. split; assumption.
Qed.

End Recorded.

(** X11: A charge.success with a string email, buyer name and reference (none of
    them empty), a numeric amount and a cart of lines with string type and
    name and numeric quantity, delivered while the store is in reach and
    the reference is not yet in the ledger, is answered with 200 and adds
    to the ledger exactly one Purchase carrying these values as they came
    (amount in kobo, inventory line for line in cart order). *)
Theorem typed_purchase_is_recorded ext cfg req event customer metadata items
    (email full_name ref : string) (amount : Q) (lines : list InventoryLine) (w : world) :
  delivers ext cfg req event ->
  is_charge event customer metadata (VStr ref) (VNum amount) (VArr items) ->
  get customer "email" = Normal (VStr email) ->
  get metadata "full_name" = Normal (VStr full_name) ->
  Forall2 stores items lines ->
  email <> "" -> full_name <> "" -> ref <> "" ->
  store_fault ext (tick w) = None ->
  ~ In ref (map paystackReference (ledger w)) ->
  exists w',
    paystack_webhook ext cfg req w = (Normal 200%Z, w') /\
    ledger w'
    = ledger w
      ++ [{| buyerName := full_name; buyerEmail := email; inventory := lines;
             totalAmount := amount; paystackReference := ref;
             purchaseDate := tick w |}].
Proof.
  intros Hd Hch He Hn Hlines Hne Hnn Hnr Hs Hfresh.
  pose proof (get_normal_non_nullish _ _ _ He) as Hc.
  pose proof (stores_all items lines Hlines) as Hl.
  assert (Hi : insert ext (tick w) (ledger w)
                 (built customer metadata (VStr ref) (VNum amount) items)
               = Normal {| buyerName := full_name; buyerEmail := email; inventory := lines;
                           totalAmount := amount; paystackReference := ref;
                           purchaseDate := tick w |}).
  { unfold insert, validate, built. cbn [in_buyerName in_buyerEmail in_inventory
      in_totalAmount in_paystackReference].
    rewrite (validate_inventory_stores ext items lines Hlines).
    unfold prop. rewrite He, Hn. cbn [castString castNumber required_String required_Number].
    apply String.eqb_neq in Hne, Hnn, Hnr. rewrite Hne, Hnn, Hnr.
    rewrite Hs. cbn [paystackReference].
    rewrite (has_reference_not_in ref (ledger w) Hfresh). reflexivity. }
  assert (Hce : convertible (prop customer "email") = true)
    by (unfold prop; rewrite He; reflexivity).
  pose proof (webhook_fulfils ext cfg req event customer metadata (VStr ref) (VNum amount)
                (VArr items) items w Hd Hch eq_refl Hc Hce
                (stores_servable ext items lines Hlines)) as H.
  cbv zeta in H. rewrite Hi in H.
  eexists. split; [ apply H; intros e He'; discriminate | reflexivity ].
Qed.

Lemma typed_purchase_is_recorded_witness :
  exists w',
    paystack_webhook Demo.demo_ext Demo.demo_cfg (Demo.signed "jane") Demo.start
    = (Normal 200%Z, w') /\
    ledger w'
    = ledger Demo.start
      ++ [{| buyerName := "Jane Doe"; buyerEmail := "a@x.com";
             inventory := [{| ticketType := Some "regular"%string;
                              quantity := Some (inject_Z 2);
                              name := Some "Regular Ticket"%string |}];
             totalAmount := inject_Z 1000000; paystackReference := "abc123";
             purchaseDate := tick Demo.start |}].
Proof.
  apply (typed_purchase_is_recorded Demo.demo_ext Demo.demo_cfg (Demo.signed "jane")
           Demo.jane_event Demo.customer (Demo.with_cart Demo.jane_cart) Demo.jane_cart
           "a@x.com" "Jane Doe" "abc123" (inject_Z 1000000)).
  - apply Demo_delivers. reflexivity.
  - apply (Demo_is_charge "abc123").
  - reflexivity.
  - reflexivity.
  - repeat constructor. exists "regular"%string, (inject_Z 2), "Regular Ticket"%string.
    repeat split.
  - discriminate.
  - discriminate.
  - discriminate.
  - reflexivity.
  - intros [].
Defined.


(** ** The code image handed to sharp *)

Lemma split_comma_no_comma (s : string) : no_comma s = true -> split_comma s = [s].
Proof.
  unfold no_comma. induction s as [| c s IH]; simpl; intro H; [ reflexivity | ].
  apply andb_true_iff in H. destruct H as [Hc Hs].
  apply negb_true_iff in Hc. rewrite Hc, (IH Hs). reflexivity.
Qed.

Lemma split_comma_cons (header rest : string) :
  no_comma header = true ->
  split_comma (header ++ String ","%char rest) = header :: split_comma rest.
Proof.
  unfold no_comma. induction header as [| c s IH]; simpl; intro H; [ reflexivity | ].
  apply andb_true_iff in H. destruct H as [Hc Hs].
  apply negb_true_iff in Hc. rewrite Hc, (IH Hs). reflexivity.
Qed.

Lemma split_comma_nonempty (s : string) : split_comma s <> [].
Proof.
  destruct s as [| c s]; simpl; [ discriminate | ].
  destruct (Ascii.eqb c ","%char); [ discriminate | ].
  destruct (split_comma s); discriminate.
Qed.

(** Joining the pieces of [s.split(",")] with commas gives [s] back. *)
Lemma split_comma_join (s : string) : String.concat "," (split_comma s) = s.
Proof.
  induction s as [| c s IH]; [ reflexivity | ].
  pose proof (split_comma_nonempty s) as Hne.
  simpl. destruct (Ascii.eqb c ","%char) eqn:E.
  - apply Ascii.eqb_eq in E. subst c.
    destruct (split_comma s) as [| h t]; [ contradiction | ].
    simpl in *. rewrite IH. reflexivity.
  - destruct (split_comma s) as [| h t]; [ contradiction | ].
    destruct t; simpl in *; rewrite <- IH; reflexivity.
Qed.

(** X15: When qrcode answers a data URL made of a header, a comma and a payload
    (neither holding a comma), the unit hands to sharp, as the overlay to
    composite at top 100 and left 650 on the base image of its type, the
    buffer decoded from exactly that payload. *)
Theorem data_url_payload_is_composited ext cfg customer metadata item i t type
    (header payload : string) :
  get item "type" = Normal (VStr type) ->
  no_comma header = true ->
  no_comma payload = true ->
  qrcode_toDataURL ext t (ticketId ext type (randomBytes ext t 4)) 250 1
  = Normal (header ++ String ","%char payload)%string ->
  let path := [dirname cfg; "assets"; (type ++ "-ticket.png")%string] in
  exists rest,
    unit_effects ext cfg customer metadata item i t
    = QrCode (ticketId ext type (randomBytes ext t 4))
        (Normal (header ++ String ","%char payload)%string)
      :: Composite path
           (sharp_composite ext t path (Buffer_from_base64 ext payload) 100 650)
      :: rest.
Proof.
  intros Hty Hh Hp Hqr path.
  assert (Hn : non_nullish item = true) by exact (get_normal_non_nullish _ _ _ Hty).
  unfold unit_effects, fulfil_unit, try_catch, issue_ticket, call, bind, lift, emit, now,
    advance, ToPrimitive.
  rewrite Hty, (get_non_nullish item "name" Hn).
  cbn [toUpperCase_receiver blank tick trace ledger app snd fst].
  rewrite Hqr.
  rewrite (split_comma_cons header payload Hh), (split_comma_no_comma payload Hp).
  cbn [nth_error Buffer_from].
  fold path.
  remember (ticketId ext type (randomBytes ext t 4)) as id eqn:Hid.
  remember (sharp_composite ext t path (Buffer_from_base64 ext payload) 100 650) as png eqn:Hpng.
  repeat destruct_inner.
  all: eexists; reflexivity.
Qed.

Lemma data_url_payload_is_composited_witness :
  let id := ticketId Demo.demo_ext "regular" (randomBytes Demo.demo_ext 1 4) in
  let path := [dirname Demo.demo_cfg; "assets"%string; "regular-ticket.png"%string] in
  exists rest,
    unit_effects Demo.demo_ext Demo.demo_cfg Demo.customer Demo.cartless_metadata
      (Demo.line "regular" 2 "Regular Ticket") 0 1
    = QrCode id (Normal ("data:image/png;base64" ++ String ","%char id)%string)
      :: Composite path
           (sharp_composite Demo.demo_ext 1 path (Buffer_from_base64 Demo.demo_ext id)
              100 650)
      :: rest.
Proof.
  intros id path.
  apply (data_url_payload_is_composited Demo.demo_ext Demo.demo_cfg Demo.customer
           Demo.cartless_metadata (Demo.line "regular" 2 "Regular Ticket") 0 1 "regular"
           "data:image/png;base64" id).
  - reflexivity.
  - reflexivity.
  - vm_compute. reflexivity.
  - vm_compute. reflexivity.
Defined.

(** X16: When the string qrcode answers holds no comma, [split(",")[1]] is
    undefined, [Buffer.from] throws, and the unit ends there: neither sharp
    nor SendGrid is called, and the error is logged for that unit, under
    the name of its line when that name converts to a string. *)
Theorem data_url_without_comma_fails_the_unit ext cfg customer metadata item i t type
    (url : string) :
  get item "type" = Normal (VStr type) ->
  convertible (prop item "name") = true ->
  no_comma url = true ->
  qrcode_toDataURL ext t (ticketId ext type (randomBytes ext t 4)) 250 1 = Normal url ->
  unit_effects ext cfg customer metadata item i t
  = [QrCode (ticketId ext type (randomBytes ext t 4)) (Normal url);
     Console (LogTicketError (prop item "name") (i + 1)
                (TypeError "The first argument must be of type string"))].
Proof.
  intros Hty Hname Hu Hqr.
  assert (Hn : non_nullish item = true) by exact (get_normal_non_nullish _ _ _ Hty).
  unfold unit_effects, fulfil_unit, try_catch, issue_ticket, call, bind, lift, emit, now,
    advance, ToPrimitive.
  rewrite Hty, (get_non_nullish item "name" Hn), Hname.
  cbn [toUpperCase_receiver blank tick trace ledger app snd fst].
  rewrite Hqr, (split_comma_no_comma url Hu).
  reflexivity.
Qed.

Lemma data_url_without_comma_fails_the_unit_witness :
  let id := ticketId Demo2.plain_ext "regular" (randomBytes Demo2.plain_ext 1 4) in
  unit_effects Demo2.plain_ext Demo.demo_cfg Demo.customer Demo.cartless_metadata
    (Demo.line "regular" 2 "Regular Ticket") 0 1
  = [QrCode id (Normal id);
     Console (LogTicketError (VStr "Regular Ticket") (0 + 1)
                (TypeError "The first argument must be of type string"))].
Proof.
  intro id.
  apply (data_url_without_comma_fails_the_unit Demo2.plain_ext Demo.demo_cfg Demo.customer
           Demo.cartless_metadata (Demo.line "regular" 2 "Regular Ticket") 0 1 "regular" id).
  - reflexivity.
  - reflexivity.
  - vm_compute. reflexivity.
  - reflexivity.
Defined.

(** ** Identifiers and random bytes *)

Lemma string_app_inv_head (p x y : string) : (p ++ x = p ++ y)%string -> x = y.
Proof.
  induction p as [| c p IH]; simpl; intro H; [ exact H | ].
  inversion H. apply IH. assumption.
Qed.

(** X17: Two identifiers of the same ticket type are the same only when the
    random bytes are: the upper-cased hexadecimal suffix determines the
    bytes it was made from. *)
Theorem ticket_identifier_determines_its_bytes ext (type : string)
    (bytes bytes' : list byte) :
  ticketId ext type bytes = ticketId ext type bytes' -> bytes = bytes'.
Proof.
  unfold ticketId. intro H.
  apply string_app_inv_head in H. apply string_app_inv_head in H.
  apply string_app_inv_head in H.
  rewrite !toUpperCase_hex in H.
  apply (f_equal bytes_of_hex) in H. rewrite !hex_buffer_read in H.
  inversion H. reflexivity.
Qed.

Lemma ticket_identifier_determines_its_bytes_witness :
  ticketId Demo.demo_ext "regular" (randomBytes Demo.demo_ext 1 4)
  = ticketId Demo.demo_ext "regular" (randomBytes Demo.demo_ext 1 4) /\
  randomBytes Demo.demo_ext 1 4 = randomBytes Demo.demo_ext 1 4.
Proof.
  split; [ reflexivity | ].
  apply (ticket_identifier_determines_its_bytes Demo.demo_ext "regular").
  reflexivity.
Defined.

(** ** Where the mails go *)

Lemma emits_ret {A : Type} P (a : A) : emits P (ret a).
Proof. intro w. exists []. simpl. rewrite app_nil_r. split; [ reflexivity | constructor ]. Qed.

Lemma emits_lift {A : Type} P (c : completion A) : emits P (lift c).
Proof. intro w. exists []. simpl. rewrite app_nil_r. split; [ reflexivity | constructor ]. Qed.

Lemma emits_now P : emits P now.
Proof. intro w. exists []. simpl. rewrite app_nil_r. split; [ reflexivity | constructor ]. Qed.

Lemma emits_advance P : emits P advance.
Proof. intro w. exists []. simpl. rewrite app_nil_r. split; [ reflexivity | constructor ]. Qed.

Lemma emits_emit (P : effect -> Prop) (e : effect) : P e -> emits P (emit e).
Proof. intros H w. exists [e]. split; [ reflexivity | repeat constructor; exact H ]. Qed.

Lemma emits_bind {A B : Type} P (m : M A) (k : A -> M B) :
  emits P m -> (forall a, emits P (k a)) -> emits P (bind m k).
Proof.
  intros Hm Hk w. unfold bind.
  destruct (Hm w) as (d1 & E1 & F1).
  destruct (m w) as [[a | e] w1]; simpl in E1.
  - destruct (Hk a w1) as (d2 & E2 & F2).
    exists (d1 ++ d2). rewrite E2, E1, app_assoc. split; [ reflexivity | ].
    apply Forall_app. split; assumption.
  - exists d1. split; assumption.
Qed.

(** The continuation of a pure step only matters for the value it gave. *)
Lemma emits_bind_lift {A B : Type} P (c : completion A) (k : A -> M B) :
  (forall a, c = Normal a -> emits P (k a)) -> emits P (bind (lift c) k).
Proof.
  intros Hk w. rewrite bind_lift. destruct c as [a | e].
  - apply (Hk a eq_refl).
  - exists []. simpl. rewrite app_nil_r. split; [ reflexivity | constructor ].
Qed.

Lemma emits_try_catch {A : Type} P (m : M A) (h : js_error -> M A) :
  emits P m -> (forall e, emits P (h e)) -> emits P (try_catch m h).
Proof.
  intros Hm Hh w. unfold try_catch.
  destruct (Hm w) as (d1 & E1 & F1).
  destruct (m w) as [[a | e] w1]; simpl in E1.
  - exists d1. split; assumption.
  - destruct (Hh e w1) as (d2 & E2 & F2).
    exists (d1 ++ d2). rewrite E2, E1, app_assoc. split; [ reflexivity | ].
    apply Forall_app. split; assumption.
Qed.

Lemma emits_call {A : Type} (P : effect -> Prop) (record : completion A -> effect)
    (r : completion A) :
  P (record r) -> emits P (call record r).
Proof.
  intro H. unfold call. apply emits_bind; [ apply emits_emit; exact H | intro ].
  apply emits_lift.
Qed.

Lemma emits_for_lt P body bound :
  (forall i, emits P (body i)) -> forall fuel i, emits P (for_lt fuel i bound body).
Proof.
  intros Hb fuel. induction fuel as [| fuel IH]; intro i; simpl.
  - apply emits_ret.
  - destruct (js_lt i bound); [ | apply emits_ret ].
    apply emits_bind; [ apply Hb | intro; apply IH ].
Qed.

Lemma emits_for_of P body items :
  (forall it, emits P (body it)) -> emits P (for_of items body).
Proof.
  intro Hb. induction items as [| item rest IH]; simpl.
  - apply emits_ret.
  - apply emits_bind; [ apply Hb | intro; apply IH ].
Qed.

Section Mails.

Variable ext : externals.
Variable cfg : config.

Lemma emits_issue_ticket customer metadata item i :
  emits (ticket_mail ext (prop customer "email") (prop metadata "full_name"))
    (issue_ticket ext cfg customer metadata item i).
Proof.
  unfold issue_ticket.
  apply emits_bind_lift. intros ty Hty.
  apply emits_bind_lift. intros type Htype.
  apply emits_bind; [ apply emits_now | intro t ]. cbv zeta.
  apply emits_bind; [ apply emits_call; exact I | intro url ].
  apply emits_bind_lift. intros qr Hqr.
  apply emits_bind; [ apply emits_call; exact I | intro png ].
  apply emits_bind_lift. intros email Hemail.
  apply emits_bind_lift. intros item_name Hname.
  apply emits_bind_lift. intros _ _.
  apply emits_bind_lift. intros full_name Hfull.
  apply emits_bind_lift. intros _ _.
  apply emits_bind;
    [ | intro; apply emits_bind_lift; intros _ _; apply emits_bind_lift; intros _ _;
        apply emits_emit; exact I ].
  apply emits_call. simpl.
  exists item_name, type, t, png.
  unfold prop. rewrite Hemail, Hfull. reflexivity.
Qed.

Lemma emits_fulfil_cart customer metadata cart :
  emits (ticket_mail ext (prop customer "email") (prop metadata "full_name"))
    (fulfil_cart ext cfg customer metadata cart).
Proof.
  unfold fulfil_cart.
  apply emits_bind_lift. intros email _.
  apply emits_bind_lift. intros _ _.
  apply emits_bind; [ apply emits_emit; exact I | intros _ ].
  apply emits_bind_lift. intros items _.
  apply emits_for_of. intro item. unfold for_quantity.
  apply emits_bind_lift. intros qty _.
  apply emits_bind_lift. intros _ _. cbv zeta.
  apply emits_bind;
    [ | intro; destruct (unbounded (ToNumber ext qty));
        [ apply emits_lift | apply emits_ret ] ].
  apply emits_for_lt. intro i. unfold fulfil_unit.
  apply emits_bind; [ | intro; apply emits_advance ].
  apply emits_try_catch; [ apply emits_issue_ticket | intro e ].
  apply emits_bind_lift. intros item_name _.
  apply emits_bind_lift. intros _ _. apply emits_emit. exact I.
Qed.

Lemma emits_record_purchase P customer metadata reference amount cart :
  (forall e, (forall m r, e <> SendMail m r) -> P e) ->
  emits P (record_purchase ext customer metadata reference amount cart).
Proof.
  intro HP. unfold record_purchase, save_purchase.
  apply emits_try_catch.
  - apply emits_bind; [ | intro; apply emits_ret ].
    apply emits_bind_lift. intros doc _.
    apply emits_bind;
      [ | intro; apply emits_bind_lift; intros _ _; apply emits_emit; apply HP; discriminate ].
    intro w. unfold Purchase_save. simpl. eexists. split; [ reflexivity | ].
    repeat constructor. apply HP. discriminate.
  - intro e. destruct (code_is e 11000).
    + apply emits_bind_lift. intros _ _.
      apply emits_bind; [ apply emits_emit; apply HP; discriminate | intro; apply emits_ret ].
    + apply emits_bind; [ apply emits_emit; apply HP; discriminate | intro; apply emits_ret ].
Qed.

Lemma emits_charge_success event :
  emits (ticket_mail ext (prop (prop (prop event "data") "customer") "email")
           (prop (prop (prop event "data") "metadata") "full_name"))
    (charge_success ext cfg event).
Proof.
  unfold charge_success.
  apply emits_bind_lift. intros data Hdata.
  apply emits_bind_lift. intros customer Hc.
  apply emits_bind_lift. intros metadata Hm.
  apply emits_bind_lift. intros reference _.
  apply emits_bind_lift. intros amount _.
  apply emits_bind_lift. intros cart_field _. cbv zeta.
  assert (Ed : prop event "data" = data) by (unfold prop; rewrite Hdata; reflexivity).
  rewrite Ed.
  assert (Ec : prop data "customer" = customer) by (unfold prop; rewrite Hc; reflexivity).
  assert (Em : prop data "metadata" = metadata) by (unfold prop; rewrite Hm; reflexivity).
  rewrite Ec, Em.
  apply emits_bind.
  - apply emits_record_purchase. intros e He. destruct e; try exact I.
    exfalso. exact (He m r eq_refl).
  - intros [status |]; [ apply emits_ret | ].
    apply emits_bind; [ apply emits_fulfil_cart | intro; apply emits_ret ].
Qed.

End Mails.

(** X7: Every message handed to SendGrid while a signed request is handled,
    accepted or not, is addressed to the email of the event's customer,
    comes from the fixed sender, and carries exactly one attachment, a PNG
    named after the one identifier that the body shows, an identifier made
    by [ticketId]. *)
Theorem mails_go_to_the_customer ext cfg req event w m r :
  delivers ext cfg req event ->
  In (SendMail m r) (new_effects w (snd (paystack_webhook ext cfg req w))) ->
  msg_to m = prop (prop (prop event "data") "customer") "email" /\
  msg_from m = "sadiqadetola08@gmail.com" /\
  exists type t png,
    let id := ticketId ext type (randomBytes ext t 4) in
    msg_attachments m
    = [{| att_content := Buffer_toString_base64 ext png;
          att_filename := ("ules-ticket-" ++ id ++ ".png")%string;
          att_type := "image/png";
          att_disposition := "attachment" |}] /\
    In (Lit id) (msg_html m).
Proof.
  intros Hd Hin.
  assert (Hemits : emits (ticket_mail ext (prop (prop (prop event "data") "customer") "email")
                            (prop (prop (prop event "data") "metadata") "full_name"))
                     (paystack_webhook ext cfg req)).
  { intro w0. rewrite (webhook_delivers ext cfg req event w0 Hd).
    revert w0. apply emits_bind_lift. intros type _.
    destruct (strict_eq_string type "charge.success");
      [ apply emits_charge_success | apply emits_ret ]. }
  destruct (Hemits w) as (fresh & E & F).
  rewrite (new_effects_of _ _ _ E) in Hin.
  rewrite Forall_forall in F. specialize (F _ Hin). simpl in F.
  destruct F as (item_name & type & t & png & ->).
  split; [ reflexivity | ]. split; [ reflexivity | ].
  exists type, t, png. cbv zeta. split; [ reflexivity | ].
  simpl. auto.
Qed.

Lemma mails_go_to_the_customer_witness :
  let id := ticketId Demo.demo_ext "regular" (randomBytes Demo.demo_ext 1 4) in
  let m := ticket_message Demo.demo_ext (VStr "a@x.com") (VStr "Regular Ticket")
             (VStr "Jane Doe") id (list_byte_of_string id) in
  msg_to m = prop (prop (prop Demo.jane_event "data") "customer") "email" /\
  msg_from m = "sadiqadetola08@gmail.com" /\
  exists type t png,
    let id' := ticketId Demo.demo_ext type (randomBytes Demo.demo_ext t 4) in
    msg_attachments m
    = [{| att_content := Buffer_toString_base64 Demo.demo_ext png;
          att_filename := ("ules-ticket-" ++ id' ++ ".png")%string;
          att_type := "image/png";
          att_disposition := "attachment" |}] /\
    In (Lit id') (msg_html m).
Proof.
  intros id m.
  apply (mails_go_to_the_customer Demo.demo_ext Demo.demo_cfg (Demo.signed "jane")
           Demo.jane_event Demo.start m (Normal tt)).
  - apply Demo_delivers. reflexivity.
  - vm_compute. do 5 right. left. reflexivity.
Defined.

(** ** Nothing without a signed charge *)

(** X6: Unless the request carries the signature of its body and that body is
    JSON for an event of type charge.success, handling it changes nothing
    in the ledger and calls neither the store nor qrcode, sharp or
    SendGrid: the trace gains nothing, or the one console line for the
    invalid signature. *)
Theorem nothing_happens_without_a_signed_charge ext cfg req w :
  (forall event, delivers ext cfg req event ->
                 get event "event" <> Normal (VStr "charge.success")) ->
  let w' := snd (paystack_webhook ext cfg req w) in
  ledger w' = ledger w /\
  (new_effects w w' = [] \/ new_effects w w' = [Console LogInvalidSignature]).
Proof.
  intro H. cbv zeta. unfold paystack_webhook.
  rewrite bind_lift.
  destruct (PAYSTACK_SECRET_KEY cfg) as [secret |] eqn:Hs; cbn [of_option];
    [ | split; [ reflexivity | left; apply new_effects_same ] ].
  rewrite bind_lift.
  destruct (body req) as [raw |] eqn:Hb; cbn [of_option];
    [ | split; [ reflexivity | left; apply new_effects_same ] ].
  cbv zeta.
  destruct (signature_differs (hmac_sha512_hex ext secret raw) (x_paystack_signature req))
    eqn:Hsig.
  - split; [ reflexivity | right ]. unfold bind, emit, ret. cbn [snd].
    apply new_effects_app.
  - rewrite bind_lift.
    destruct (JSON_parse ext raw) as [event |] eqn:Hp; cbn [of_option];
      [ | split; [ reflexivity | left; apply new_effects_same ] ].
    assert (Hd : delivers ext cfg req event).
    { exists secret, raw. repeat split; try assumption.
      destruct (x_paystack_signature req) as [s |]; simpl in Hsig; [ | discriminate ].
      apply negb_false_iff in Hsig. apply String.eqb_eq in Hsig. congruence. }
    specialize (H event Hd).
    rewrite bind_lift.
    destruct (get event "event") as [type | e];
      [ | split; [ reflexivity | left; apply new_effects_same ] ].
    destruct (strict_eq_string type "charge.success") eqn:E.
    + apply strict_eq_string_iff in E. subst type. contradiction.
    + split; [ reflexivity | left; apply new_effects_same ].
Qed.

Lemma nothing_happens_without_a_signed_charge_witness :
  let w' := snd (paystack_webhook Demo.demo_ext Demo.demo_cfg (Demo.forged "jane") Demo.start) in
  ledger w' = ledger Demo.start /\
  (new_effects Demo.start w' = [] \/ new_effects Demo.start w' = [Console LogInvalidSignature]).
Proof.
  apply (nothing_happens_without_a_signed_charge Demo.demo_ext Demo.demo_cfg
           (Demo.forged "jane") Demo.start).
  intros event (secret & raw & Hs & Hb & Hsig & _).
  simpl in Hs, Hb, Hsig. inversion Hs. inversion Hb. subst secret raw.
  vm_compute in Hsig. discriminate Hsig.
Defined.


(** ** Mails, artifacts, units *)

Lemma sent_mails_app l l' : sent_mails (l ++ l') = sent_mails l ++ sent_mails l'.
Proof.
  induction l as [| e l IH]; simpl; [ reflexivity | ].
  destruct e as [ | | | | m [r | r]]; simpl; rewrite IH; reflexivity.
Qed.

Lemma artifacts_app l l' : artifacts (l ++ l') = artifacts l ++ artifacts l'.
Proof.
  induction l as [| e l IH]; simpl; [ reflexivity | ].
  destruct e as [ | | | p [r | r] | ]; simpl; rewrite IH; reflexivity.
Qed.

Lemma within_le {A : Type} (n n' : nat) (m : M A) : n <= n' -> within n m -> within n' m.
Proof.
  intros Hle H w. destruct (H w) as (fresh & E & H1 & H2).
  exists fresh. repeat split; try assumption. lia.
Qed.

Lemma within_ret {A : Type} (a : A) : within 0 (ret a).
Proof. intro w. exists []. simpl. rewrite app_nil_r. repeat split; lia. Qed.

Lemma within_lift {A : Type} (c : completion A) : within 0 (lift c).
Proof. intro w. exists []. simpl. rewrite app_nil_r. repeat split; lia. Qed.

Lemma within_advance : within 0 advance.
Proof. intro w. exists []. simpl. rewrite app_nil_r. repeat split; lia. Qed.

Lemma within_bind {A B : Type} (n1 n2 : nat) (m : M A) (k : A -> M B) :
  within n1 m -> (forall a, within n2 (k a)) -> within (n1 + n2) (bind m k).
Proof.
  intros Hm Hk w. unfold bind.
  destruct (Hm w) as (d1 & E1 & A1 & B1).
  destruct (m w) as [[a | e] w1]; simpl in E1.
  - destruct (Hk a w1) as (d2 & E2 & A2 & B2).
    exists (d1 ++ d2). rewrite E2, E1, app_assoc.
    rewrite sent_mails_app, artifacts_app, !length_app.
    repeat split; lia.
  - exists d1. repeat split; try assumption. lia.
Qed.

Lemma within_bind_lift {A B : Type} (n : nat) (c : completion A) (k : A -> M B) :
  (forall a, c = Normal a -> within n (k a)) -> within n (bind (lift c) k).
Proof.
  intros Hk w. rewrite bind_lift. destruct c as [a | e].
  - apply (Hk a eq_refl).
  - exists []. simpl. rewrite app_nil_r. repeat split; lia.
Qed.

Section Counts.

Variable ext : externals.
Variable cfg : config.

(** A unit has at most one artifact, and a mail only with its artifact. *)
Lemma unit_counts customer metadata item i t :
  List.length (sent_mails (unit_effects ext cfg customer metadata item i t))
  <= List.length (artifacts (unit_effects ext cfg customer metadata item i t)) /\
  List.length (artifacts (unit_effects ext cfg customer metadata item i t)) <= 1.
Proof.
  unfold unit_effects, fulfil_unit, try_catch, issue_ticket, call, bind, lift, emit, now,
    advance, toUpperCase_receiver, Buffer_from, ToPrimitive.
  cbn [blank tick trace ledger].
  remember (randomBytes ext t 4) as bytes eqn:Hbytes.
  repeat destruct_inner.
  all: cbn [sent_mails artifacts List.length app]; split; lia.
Qed.

Lemma fulfilment_counts customer metadata us :
  forall t,
    List.length (sent_mails (fulfilment_effects ext cfg customer metadata us t))
    <= List.length (artifacts (fulfilment_effects ext cfg customer metadata us t)) /\
    List.length (artifacts (fulfilment_effects ext cfg customer metadata us t))
    <= List.length us.
Proof.
  induction us as [| [item i] rest IH]; intro t; simpl; [ split; lia | ].
  rewrite sent_mails_app, artifacts_app, !length_app.
  destruct (unit_counts customer metadata item i t) as [H1 H2].
  destruct (IH (S t)) as [H3 H4]. split; lia.
Qed.

(** One turn of the loop, however it ends. *)
Lemma within_fulfil_unit customer metadata item i :
  within 1 (fulfil_unit ext cfg customer metadata item i).
Proof.
  intro w. rewrite (framed_fulfil_unit ext cfg customer metadata item i w).
  exists (unit_effects ext cfg customer metadata item i (tick w)).
  split; [ reflexivity | ]. apply unit_counts.
Qed.

Lemma within_for_lt body bound :
  (forall i, within 1 (body i)) -> forall fuel i, within fuel (for_lt fuel i bound body).
Proof.
  intros Hb fuel. induction fuel as [| fuel IH]; intro i; simpl.
  - apply within_ret.
  - destruct (js_lt i bound).
    + change (S fuel) with (1 + fuel). apply within_bind; [ apply Hb | intro; apply IH ].
    + apply (within_le 0); [ lia | apply within_ret ].
Qed.

(** The loop of a line, however it ends, does not go beyond the units of
    the line. *)
Lemma within_for_quantity body item :
  (forall it i, within 1 (body it i)) ->
  within (List.length (line_units ext item)) (for_quantity ext body item).
Proof.
  intro Hb. unfold for_quantity, line_units.
  destruct (get item "quantity") as [qty | e] eqn:Hq.
  - rewrite length_map, length_seq.
    apply within_bind_lift. intros qty' E. inversion E. subst qty'.
    apply within_bind_lift. intros _ _. cbv zeta.
    replace (trip_count ext (ToNumber ext qty))
      with (trip_count ext (ToNumber ext qty) + 0) at 1 by lia.
    apply within_bind; [ apply within_for_lt; apply Hb | intros _ ].
    destruct (unbounded (ToNumber ext qty)); [ apply within_lift | apply within_ret ].
  - apply within_bind_lift. intros qty' E. discriminate.
Qed.

Lemma within_for_of body items :
  (forall it i, within 1 (body it i)) ->
  within (List.length (units ext items)) (for_of items (for_quantity ext body)).
Proof.
  intro Hb. unfold units. induction items as [| item rest IH]; simpl.
  - apply within_ret.
  - rewrite length_app. apply within_bind; [ apply within_for_quantity; exact Hb | intro ].
    exact IH.
Qed.

Lemma within_fulfil_cart customer metadata items :
  within (List.length (units ext items)) (fulfil_cart ext cfg customer metadata (VArr items)).
Proof.
  unfold fulfil_cart.
  apply within_bind_lift. intros email _.
  apply within_bind_lift. intros _ _.
  replace (List.length (units ext items)) with (0 + List.length (units ext items)) by lia.
  apply within_bind.
  - intro w. eexists. split; [ reflexivity | ]. simpl. split; lia.
  - intros _. apply within_bind_lift. intros items' E. inversion E. subst items'.
    apply within_for_of. intros it i. apply within_fulfil_unit.
Qed.

(** The ledger step sends no mail and makes no artifact. *)
Lemma within_record_purchase customer metadata reference amount cart :
  within 0 (record_purchase ext customer metadata reference amount cart).
Proof.
  intro w.
  destruct (purchase_input customer metadata reference amount cart) as [doc | e] eqn:Hin.
  - destruct (insert ext (tick w) (ledger w) doc) as [p | e] eqn:Hi.
    + rewrite (record_purchase_saved ext _ _ _ _ _ doc p w Hin Hi).
      eexists. split; [ reflexivity | ]. simpl. split; lia.
    + destruct (code_is e 11000) eqn:Hcode.
      * apply code_is_iff in Hcode.
        destruct (convertible reference) eqn:Hr.
        -- rewrite (record_purchase_duplicate ext _ _ _ _ _ doc e w Hin Hi Hcode Hr).
           eexists. split; [ reflexivity | ]. simpl. split; lia.
        -- rewrite (record_purchase_duplicate_throws ext _ _ _ _ _ doc e w Hin Hi Hcode Hr).
           eexists. split; [ reflexivity | ]. simpl. split; lia.
      * assert (Hne : error_code e <> Some 11000%Z).
        { intro Hc. apply code_is_iff in Hc. congruence. }
        rewrite (record_purchase_failed ext _ _ _ _ _ doc e w Hin Hi Hne).
        eexists. split; [ reflexivity | ]. simpl. split; lia.
  - rewrite (record_purchase_unbuilt ext _ _ _ _ _ e w Hin).
    eexists. split; [ reflexivity | ]. simpl. split; lia.
Qed.

End Counts.

(** X8: On a charge.success whose document can be built, a delivery sends no
    more mails than it made artifacts and makes no more artifacts than the
    cart has units: no mail leaves without its artifact, and no unit gets
    two. *)
Theorem no_more_mails_than_artifacts_than_units ext cfg req event customer metadata
    reference amount cart_field items w :
  delivers ext cfg req event ->
  is_charge event customer metadata reference amount cart_field ->
  or_empty cart_field = VArr items ->
  non_nullish customer = true ->
  forallb non_nullish items = true ->
  let fresh := new_effects w (snd (paystack_webhook ext cfg req w)) in
  List.length (sent_mails fresh) <= List.length (artifacts fresh) /\
  List.length (artifacts fresh) <= List.length (units ext items).
Proof.
  intros Hd Hch Hcart Hc Hl. cbv zeta.
  assert (H : within (0 + List.length (units ext items)) (paystack_webhook ext cfg req)).
  { intro w0. rewrite (webhook_charge ext cfg req event _ _ _ _ _ w0 Hd Hch), Hcart.
    revert w0. apply within_bind; [ apply within_record_purchase | ].
    intros [status |].
    - apply (within_le 0); [ lia | apply within_ret ].
    - replace (List.length (units ext items)) with (List.length (units ext items) + 0) by lia.
      apply within_bind; [ apply within_fulfil_cart | intro; apply within_ret ]. }
  destruct (H w) as (fresh & E & H1 & H2).
  rewrite (new_effects_of _ _ _ E). split; [ exact H1 | exact H2 ].
Qed.

Lemma no_more_mails_than_artifacts_than_units_witness :
  let fresh := new_effects Demo.start
                 (snd (paystack_webhook Demo.demo_ext Demo.demo_cfg (Demo.signed "mixed")
                         Demo.start)) in
  List.length (sent_mails fresh) <= List.length (artifacts fresh) /\
  List.length (artifacts fresh) <= List.length (units Demo.demo_ext Demo.mixed_cart).
Proof.
  apply (no_more_mails_than_artifacts_than_units Demo.demo_ext Demo.demo_cfg
           (Demo.signed "mixed") Demo.mixed_event Demo.customer
           (Demo.with_cart Demo.mixed_cart) (VStr "mix777") Demo.amount
           (VArr Demo.mixed_cart) Demo.mixed_cart Demo.start).
  - apply Demo_delivers. reflexivity.
  - apply (Demo_is_charge "mix777").
  - reflexivity.
  - reflexivity.
  - reflexivity.
Defined.

(** A line in a quantity beyond the doubles: the loop mails for as long as
    the process lives, and the units of the line are the turns it got. *)
Example endless_line_counts :
  let fresh := new_effects Demo.start
                 (snd (paystack_webhook Demo.demo_ext Demo.demo_cfg (Demo.signed "endless")
                         Demo.start)) in
  List.length (sent_mails fresh) = 3 /\
  List.length (units Demo.demo_ext Demo.endless_cart) = 3.
Proof. vm_compute. split; reflexivity. Qed.

(** * The payment route *)

Section PayProperties.

Variable pext : pay_externals.
Variable cfg : config.

Lemma api_pay_body t req_body :
  non_nullish req_body = true ->
  api_pay pext cfg t req_body
  = let email := prop req_body "email" in
    let full_name := prop req_body "name" in
    let amount := prop req_body "amount" in
    let cart := prop req_body "cart" in
    if incomplete email full_name amount cart
    then (Normal bad_request, [])
    else (match initialize pext cfg t (pay_params email full_name amount cart) with
          | Normal r => Normal r
          | Throw _ => Normal internal_error
          end,
          [initialize_request pext cfg (pay_params email full_name amount cart)]).
Proof.
  intro H. unfold api_pay. rewrite !(get_non_nullish req_body _ H). reflexivity.
Qed.

Lemma initialize_status t params r :
  initialize pext cfg t params = Normal r -> reply_status r = 200%Z \/ reply_status r = 500%Z.
Proof.
  unfold initialize.
  destruct (fetch_json pext t (initialize_request pext cfg params)) as [data | e];
    [ | discriminate ].
  destruct (get data "status") as [status | e]; [ | discriminate ].
  destruct (truthy status); simpl.
  - intro H. inversion H. left. reflexivity.
  - destruct (get data "message"); [ | discriminate ].
    intro H. inversion H. right. reflexivity.
Qed.

End PayProperties.



(** X2: Whatever Paystack does, a body that is an object gets a reply, with
    status 200, 400 or 500, after at most one call of [fetch]; only a body
    that is [undefined] or [null] makes the handler throw, before any call. *)
Theorem pay_always_replies pext cfg t req_body :
  (non_nullish req_body = true ->
   exists r,
     fst (api_pay pext cfg t req_body) = Normal r /\
     (reply_status r = 200%Z \/ reply_status r = 400%Z \/ reply_status r = 500%Z) /\
     List.length (snd (api_pay pext cfg t req_body)) <= 1) /\
  (non_nullish req_body = false ->
   exists what, api_pay pext cfg t req_body = (Throw (TypeError what), [])).
Proof.
  split; intro H.
  - rewrite (api_pay_body pext cfg t req_body H). cbv zeta.
    destruct (incomplete _ _ _ _).
    + exists bad_request. simpl. repeat split; auto.
    + simpl. destruct (initialize pext cfg t _) as [r | e] eqn:Hi.
      * exists r. split; [ reflexivity | ]. split; [ | lia ].
        destruct (initialize_status pext cfg t _ _ Hi); auto.
      * exists internal_error. simpl. repeat split; auto.
  - destruct (get_nullish req_body "email" H) as [what E].
    exists what. unfold api_pay. rewrite E. reflexivity.
Qed.

(** X3: A complete order is forwarded once: one POST to Paystack's initialize
    endpoint, authorized with the secret key as bearer, whose body is the
    JSON text of the email, the amount, the metadata holding the buyer's
    name as full_name and the cart as it came, and the callback URL. *)
Theorem pay_forwards_the_order pext cfg (secret : string) t req_body :
  non_nullish req_body = true ->
  PAYSTACK_SECRET_KEY cfg = Some secret ->
  incomplete (prop req_body "email") (prop req_body "name") (prop req_body "amount")
    (prop req_body "cart") = false ->
  snd (api_pay pext cfg t req_body)
  = [{| fetch_url := "https://api.paystack.co/transaction/initialize";
        fetch_method := "POST";
        fetch_headers := [("Authorization", ("Bearer " ++ secret)%string);
                          ("Content-Type", "application/json")];
        fetch_body :=
          JSON_stringify pext
            (VObj [("email", prop req_body "email");
                   ("amount", prop req_body "amount");
                   ("metadata", VObj [("full_name", prop req_body "name");
                                      ("cart", prop req_body "cart")]);
                   ("callback_url",
                    VStr "https://ticketgenerator-rho.vercel.app/pages/success.html")]) |}].
Proof.
  intros H Hs Hc. rewrite (api_pay_body pext cfg t req_body H). cbv zeta.
  rewrite Hc. unfold initialize_request. rewrite Hs. reflexivity.
Qed.

Lemma pay_forwards_the_order_witness :
  snd (api_pay DemoPay.pext Demo.demo_cfg 0 DemoPay.order)
  = [{| fetch_url := "https://api.paystack.co/transaction/initialize";
        fetch_method := "POST";
        fetch_headers := [("Authorization", ("Bearer " ++ Demo.secret)%string);
                          ("Content-Type", "application/json")];
        fetch_body :=
          JSON_stringify DemoPay.pext
            (VObj [("email", prop DemoPay.order "email");
                   ("amount", prop DemoPay.order "amount");
                   ("metadata", VObj [("full_name", prop DemoPay.order "name");
                                      ("cart", prop DemoPay.order "cart")]);
                   ("callback_url",
                    VStr "https://ticketgenerator-rho.vercel.app/pages/success.html")]) |}].
Proof.
  apply (pay_forwards_the_order DemoPay.pext Demo.demo_cfg Demo.secret 0 DemoPay.order).
  - reflexivity.
  - reflexivity.
  - reflexivity.
Defined.

(** X4: The reply to a complete order follows Paystack's answer: 200 with the
    answer itself exactly when it is a JSON value with a truthy status; 500
    with the answer's message when the status is falsy; 500 with the fixed
    message when the call fails or the answer is [null]. *)
Theorem pay_reply_follows_paystack pext cfg t req_body :
  non_nullish req_body = true ->
  incomplete (prop req_body "email") (prop req_body "name") (prop req_body "amount")
    (prop req_body "cart") = false ->
  let request := initialize_request pext cfg
                   (pay_params (prop req_body "email") (prop req_body "name")
                      (prop req_body "amount") (prop req_body "cart")) in
  let answer := fetch_json pext t request in
  (forall data, answer = Normal data -> non_nullish data = true ->
                truthy (prop data "status") = true ->
                fst (api_pay pext cfg t req_body)
                = Normal {| reply_status := 200; reply_json := data |}) /\
  (forall data, answer = Normal data -> non_nullish data = true ->
                truthy (prop data "status") = false ->
                fst (api_pay pext cfg t req_body)
                = Normal {| reply_status := 500;
                            reply_json := VObj [("message", prop data "message")] |}) /\
  (forall data, answer = Normal data -> non_nullish data = false ->
                fst (api_pay pext cfg t req_body) = Normal internal_error) /\
  (forall e, answer = Throw e ->
             fst (api_pay pext cfg t req_body) = Normal internal_error).
Proof.
  intros H Hc. cbv zeta. rewrite (api_pay_body pext cfg t req_body H). cbv zeta.
  rewrite Hc. cbn [fst]. unfold initialize.
  repeat split.
  - intros data E Hd Hs. rewrite E, (get_non_nullish data "status" Hd), Hs. reflexivity.
  - intros data E Hd Hs.
    rewrite E, (get_non_nullish data "status" Hd), Hs, (get_non_nullish data "message" Hd).
    reflexivity.
  - intros data E Hd. rewrite E.
    destruct (get_nullish data "status" Hd) as [what ->]. reflexivity.
  - intros e E. rewrite E. reflexivity.
Qed.

Lemma pay_reply_follows_paystack_witness :
  fst (api_pay DemoPay.pext Demo.demo_cfg 0 DemoPay.order)
  = Normal {| reply_status := 200; reply_json := DemoPay.accepted |} /\
  fst (api_pay DemoPay.pext Demo.demo_cfg 1 DemoPay.order)
  = Normal {| reply_status := 500;
              reply_json := VObj [("message", prop DemoPay.refused "message")] |} /\
  fst (api_pay DemoPay.pext Demo.demo_cfg 2 DemoPay.order) = Normal internal_error.
Proof.
  split; [ | split ].
  - apply (proj1 (pay_reply_follows_paystack DemoPay.pext Demo.demo_cfg 0 DemoPay.order
                    eq_refl eq_refl) DemoPay.accepted); reflexivity.
  - apply (proj1 (proj2 (pay_reply_follows_paystack DemoPay.pext Demo.demo_cfg 1
                           DemoPay.order eq_refl eq_refl)) DemoPay.refused); reflexivity.
  - apply (proj2 (proj2 (proj2 (pay_reply_follows_paystack DemoPay.pext Demo.demo_cfg 2
                                  DemoPay.order eq_refl eq_refl)))
             (LibraryError "ECONNREFUSED")); reflexivity.
Defined.


(** * From the payment route to the webhook *)

(** X5: When an order that the payment route accepted, with a cart that is an
    array of lines whose quantities and names convert (the quantities to
    numbers other than the positive infinity), comes back from Paystack as
    a signed charge.success carrying the metadata the route sent, under a
    reference and a customer's email that convert, the webhook answers 200
    and first saves a document whose buyer name is the name of the order
    and whose inventory is the order's cart line for line; that name is
    truthy and that cart is not empty, as the route checked. *)
Theorem paid_order_comes_back ext cfg req event data customer items req_body w :
  non_nullish req_body = true ->
  incomplete (prop req_body "email") (prop req_body "name") (prop req_body "amount")
    (prop req_body "cart") = false ->
  prop req_body "cart" = VArr items ->
  forallb (servable ext) items = true ->
  delivers ext cfg req event ->
  get event "event" = Normal (VStr "charge.success") ->
  get event "data" = Normal data ->
  get data "metadata"
  = Normal (prop (pay_params (prop req_body "email") (prop req_body "name")
                    (prop req_body "amount") (prop req_body "cart")) "metadata") ->
  get data "customer" = Normal customer ->
  non_nullish customer = true ->
  convertible (prop data "reference") = true ->
  convertible (prop customer "email") = true ->
  exists w' doc r rest,
    paystack_webhook ext cfg req w = (Normal 200%Z, w') /\
    new_effects w w' = DbSave doc r :: rest /\
    in_buyerName doc = prop req_body "name" /\
    in_inventory doc
    = map (fun it => (prop it "type", prop it "quantity", prop it "name")) items /\
    truthy (prop req_body "name") = true /\
    items <> [].
Proof.
  intros Hb Hinc Hcart Hl Hd Hty Hdata Hmeta Hcust Hc Hcr Hce.
  unfold incomplete in Hinc. rewrite Hcart in Hinc.
  repeat (apply orb_false_iff in Hinc; destruct Hinc as [Hinc ?]).
  match goal with H : negb (truthy (prop req_body "name")) = false |- _ =>
    apply negb_false_iff in H; rename H into Hname end.
  assert (Hne : items <> []) by (destruct items; simpl in *; congruence).
  pose proof (get_normal_non_nullish _ _ _ Hcust) as Hdn.
  set (metadata := prop (pay_params (prop req_body "email") (prop req_body "name")
                           (prop req_body "amount") (prop req_body "cart")) "metadata") in *.
  assert (Hch : is_charge event customer metadata (prop data "reference")
                  (prop data "amount") (VArr items)).
  { split; [ exact Hty | ]. exists data. repeat split; try assumption.
    - apply get_non_nullish. exact Hdn.
    - apply get_non_nullish. exact Hdn.
    - unfold metadata. simpl. rewrite Hcart. reflexivity. }
  pose proof (webhook_servable ext cfg req event customer metadata (prop data "reference")
                (prop data "amount") (VArr items) items w Hd Hch eq_refl Hc Hcr Hce Hl)
    as Hrun.
  assert (Hin : purchase_input customer metadata (prop data "reference") (prop data "amount")
                  (or_empty (VArr items))
                = Normal (built customer metadata (prop data "reference")
                            (prop data "amount") items)).
  { apply purchase_input_array;
      [ exact Hc | reflexivity | exact (servable_non_nullish ext items Hl) ]. }
  destruct (webhook_begins_with_save ext cfg req event customer metadata
              (prop data "reference") (prop data "amount") (VArr items) _ w Hd Hch Hin)
    as [rest Ht].
  apply new_effects_of in Ht.
  destruct (paystack_webhook ext cfg req w) as [c w'] eqn:Erun.
  simpl in Hrun, Ht. subst c.
  exists w'. do 3 eexists. split; [ reflexivity | ]. split; [ exact Ht | ].
  repeat split; try assumption.
Qed.

Lemma paid_order_comes_back_witness :
  exists w' doc r rest,
    paystack_webhook Demo.demo_ext Demo.demo_cfg (Demo.signed "jane") Demo.start
    = (Normal 200%Z, w') /\
    new_effects Demo.start w' = DbSave doc r :: rest /\
    in_buyerName doc = prop DemoPay.order "name" /\
    in_inventory doc
    = map (fun it => (prop it "type", prop it "quantity", prop it "name")) Demo.jane_cart /\
    truthy (prop DemoPay.order "name") = true /\
    Demo.jane_cart <> [].
Proof.
  apply (paid_order_comes_back Demo.demo_ext Demo.demo_cfg (Demo.signed "jane")
           Demo.jane_event (prop Demo.jane_event "data") Demo.customer Demo.jane_cart
           DemoPay.order Demo.start).
  - reflexivity.
  - reflexivity.
  - reflexivity.
  - reflexivity.
  - apply Demo_delivers. reflexivity.
  - reflexivity.
  - reflexivity.
  - reflexivity.
  - reflexivity.
  - reflexivity.
  - reflexivity.
  - reflexivity.
Defined.

(** * The earlier version of the webhook *)

Section LegacyFrames.

Variable ext : externals.
Variable cfg : config.

Lemma framed_legacy_fulfil_unit customer metadata item i :
  framed (legacy_fulfil_unit ext cfg customer metadata item i).
Proof. unfold legacy_fulfil_unit. framed_tac. Qed.

Lemma framed_legacy_charge_success event : framed (legacy_charge_success ext cfg event).
Proof.
  unfold legacy_charge_success.
  do 4 (apply framed_bind; [ apply framed_lift | intro ]). cbv zeta.
  apply framed_bind; [ apply framed_lift | intro email ].
  apply framed_bind; [ apply framed_lift | intros _ ].
  apply framed_bind; [ apply framed_emit | intros _ ].
  apply framed_bind; [ apply framed_lift | intro items ].
  apply framed_bind; [ | intro; apply framed_ret ].
  apply framed_for_of. intro item. apply framed_for_quantity.
  intros it i. apply framed_legacy_fulfil_unit.
Qed.

End LegacyFrames.

(** X18: The earlier version keeps no record and consults none: from any world
    it does what it does from the empty world of the same time, after what
    was already in the trace, and it leaves the ledger as it was.  A charge
    delivered again is therefore handled exactly as the first time. *)
Theorem legacy_webhook_is_stateless ext cfg req w :
  let alone := legacy_webhook ext cfg req (blank (tick w)) in
  legacy_webhook ext cfg req w
  = (fst alone,
     {| ledger := ledger w; tick := tick (snd alone); trace := trace w ++ trace (snd alone) |}).
Proof.
  cbv zeta. revert w. change (framed (legacy_webhook ext cfg req)).
  unfold legacy_webhook.
  apply framed_bind; [ apply framed_lift | intro secret ].
  apply framed_bind; [ apply framed_lift | intro raw ]. cbv zeta.
  destruct (signature_differs _ _).
  - apply framed_bind; [ apply framed_emit | intro; apply framed_ret ].
  - apply framed_bind; [ apply framed_lift | intro event ].
    apply framed_bind; [ apply framed_lift | intro type ].
    destruct (strict_eq_string type "charge.success");
      [ apply framed_legacy_charge_success | apply framed_ret ].
Qed.

(** X19: The two versions do the same on every request that is not a signed
    charge.success: the same 401 and console line on a bad signature, the
    same 200 on other events, the same error thrown on a missing secret or
    a body that is not JSON. *)
Theorem legacy_agrees_outside_charges ext cfg req w :
  (forall event, delivers ext cfg req event ->
                 get event "event" <> Normal (VStr "charge.success")) ->
  legacy_webhook ext cfg req w = paystack_webhook ext cfg req w.
Proof.
  intro H. unfold legacy_webhook, paystack_webhook.
  rewrite !bind_lift.
  destruct (PAYSTACK_SECRET_KEY cfg) as [secret |] eqn:Hs; cbn [of_option];
    [ | reflexivity ].
  rewrite !bind_lift.
  destruct (body req) as [raw |] eqn:Hb; cbn [of_option]; [ | reflexivity ].
  cbv zeta.
  destruct (signature_differs (hmac_sha512_hex ext secret raw) (x_paystack_signature req))
    eqn:Hsig; [ reflexivity | ].
  rewrite !bind_lift.
  destruct (JSON_parse ext raw) as [event |] eqn:Hp; cbn [of_option]; [ | reflexivity ].
  assert (Hd : delivers ext cfg req event).
  { exists secret, raw. repeat split; try assumption.
    destruct (x_paystack_signature req) as [s |]; simpl in Hsig; [ | discriminate ].
    apply negb_false_iff in Hsig. apply String.eqb_eq in Hsig. congruence. }
  specialize (H event Hd).
  rewrite !bind_lift.
  destruct (get event "event") as [type | e]; [ | reflexivity ].
  destruct (strict_eq_string type "charge.success") eqn:E; [ | reflexivity ].
  apply strict_eq_string_iff in E. subst type. contradiction.
Qed.

Lemma legacy_agrees_outside_charges_witness :
  legacy_webhook Demo.demo_ext Demo.demo_cfg (Demo.signed "failed") Demo.start
  = paystack_webhook Demo.demo_ext Demo.demo_cfg (Demo.signed "failed") Demo.start.
Proof.
  apply (legacy_agrees_outside_charges Demo.demo_ext Demo.demo_cfg (Demo.signed "failed")
           Demo.start).
  intros event (secret & raw & Hs & Hb & Hsig & Hp).
  simpl in Hb. inversion Hb. subst raw.
  vm_compute in Hp. inversion Hp. subst event.
  discriminate.
Defined.

(** * A purchase that cannot be recorded *)

Lemma validate_without_buyer_name ext doc t :
  in_buyerName doc = VUndefined \/ in_buyerName doc = VNull \/ in_buyerName doc = VStr "" ->
  validate ext doc t = None.
Proof.
  unfold validate. intros [-> | [-> | ->]]; reflexivity.
Qed.

(** X12: A signed charge.success whose metadata has no buyer name (missing,
    [null] or empty), with a customer whose email converts and a cart of
    lines the loop serves (quantities and names that convert), is never
    recorded: validation refuses the document, the ledger stays as it was,
    the error is logged, and every unit of the cart is processed; since
    nothing was recorded, this happens again at every delivery. *)
Theorem nameless_purchase_is_fulfilled_every_time ext cfg req event customer metadata
    reference amount cart_field items :
  delivers ext cfg req event ->
  is_charge event customer metadata reference amount cart_field ->
  or_empty cart_field = VArr items ->
  non_nullish customer = true ->
  convertible (prop customer "email") = true ->
  forallb (servable ext) items = true ->
  prop metadata "full_name" = VUndefined \/ prop metadata "full_name" = VNull \/
  prop metadata "full_name" = VStr "" ->
  forall w,
    paystack_webhook ext cfg req w
    = (Normal 200%Z,
       {| ledger := ledger w;
          tick := S (tick w) + List.length (units ext items);
          trace := trace w
                   ++ DbSave (built customer metadata reference amount items)
                        (Throw ValidationError)
                   :: Console (LogDatabaseSaveError ValidationError)
                   :: Console (LogPaymentSuccessful (prop customer "email"))
                   :: fulfilment_effects ext cfg customer metadata (units ext items)
                        (S (tick w)) |}).
Proof.
  intros Hd Hch Hcart Hc He Hl Hname w.
  assert (Hi : insert ext (tick w) (ledger w) (built customer metadata reference amount items)
               = Throw ValidationError).
  { unfold insert. rewrite validate_without_buyer_name; [ reflexivity | exact Hname ]. }
  pose proof (webhook_fulfils ext cfg req event customer metadata reference amount
                cart_field items w Hd Hch Hcart Hc He Hl) as H.
  cbv zeta in H. rewrite Hi in H. apply H.
  intros e Ee. inversion Ee. discriminate.
Qed.

Lemma nameless_purchase_is_fulfilled_every_time_witness :
  paystack_webhook Demo2.ext Demo.demo_cfg (Demo.signed "nameless") Demo.start
  = (Normal 200%Z,
     {| ledger := ledger Demo.start;
        tick := S (tick Demo.start) + List.length (units Demo2.ext Demo.single_cart);
        trace := trace Demo.start
                 ++ DbSave (built Demo.customer Demo2.nameless_metadata (VStr "anon01")
                              Demo.amount Demo.single_cart)
                      (Throw ValidationError)
                 :: Console (LogDatabaseSaveError ValidationError)
                 :: Console (LogPaymentSuccessful (prop Demo.customer "email"))
                 :: fulfilment_effects Demo2.ext Demo.demo_cfg Demo.customer
                      Demo2.nameless_metadata (units Demo2.ext Demo.single_cart)
                      (S (tick Demo.start)) |}).
Proof.
  apply (nameless_purchase_is_fulfilled_every_time Demo2.ext Demo.demo_cfg
           (Demo.signed "nameless") Demo2.nameless_event Demo.customer
           Demo2.nameless_metadata (VStr "anon01") Demo.amount (VArr Demo.single_cart)
           Demo.single_cart).
  - apply Demo2_delivers. reflexivity.
  - apply (Demo_is_charge "anon01" [("cart", VArr Demo.single_cart)]).
  - reflexivity.
  - reflexivity.
  - reflexivity.
  - reflexivity.
  - left. reflexivity.
Defined.

(** Delivered twice, the nameless purchase of the demonstration is mailed
    twice and never recorded. *)
Example nameless_purchase_twice :
  let w2 := deliver_all Demo2.ext Demo.demo_cfg
              [Demo.signed "nameless"; Demo.signed "nameless"] Demo.start in
  ledger w2 = [] /\ List.length (sent_mails (trace w2)) = 2.
Proof. vm_compute. split; reflexivity. Qed.

(** * A deployment without the secret key *)

(** X20: When PAYSTACK_SECRET_KEY is not set (the server only warns at start),
    every webhook request, signed or not, makes the handler throw at
    [createHmac] before anything is done or answered, and every complete
    order is still forwarded to Paystack, with the authorization header
    [Bearer undefined]. *)
Theorem without_the_secret_key ext pext cfg :
  PAYSTACK_SECRET_KEY cfg = None ->
  (forall req w,
     paystack_webhook ext cfg req w
     = (Throw (TypeError "The key argument must be of type string"), w)) /\
  (forall t req_body,
     non_nullish req_body = true ->
     incomplete (prop req_body "email") (prop req_body "name") (prop req_body "amount")
       (prop req_body "cart") = false ->
     exists request,
       snd (api_pay pext cfg t req_body) = [request] /\
       fetch_headers request
       = [("Authorization", "Bearer undefined"); ("Content-Type", "application/json")]).
Proof.
  intro H. split.
  - intros req w. unfold paystack_webhook. rewrite bind_lift, H. reflexivity.
  - intros t req_body Hb Hc. rewrite (api_pay_body pext cfg t req_body Hb). cbv zeta.
    rewrite Hc. eexists. split; [ reflexivity | ].
    unfold initialize_request. rewrite H. reflexivity.
Qed.

Lemma without_the_secret_key_witness :
  paystack_webhook Demo.demo_ext Demo2.keyless_cfg (Demo.signed "jane") Demo.start
  = (Throw (TypeError "The key argument must be of type string"), Demo.start) /\
  exists request,
    snd (api_pay DemoPay.pext Demo2.keyless_cfg 0 DemoPay.order) = [request] /\
    fetch_headers request
    = [("Authorization", "Bearer undefined"); ("Content-Type", "application/json")].
Proof.
  pose proof (without_the_secret_key Demo.demo_ext DemoPay.pext Demo2.keyless_cfg eq_refl)
    as [Hw Hp].
  split.
  - apply Hw.
  - apply (Hp 0 DemoPay.order); reflexivity.
Defined.

(** * Values that do not convert *)

(** X21: A unit whose line has a name that does not convert to a string (the
    JSON {"toString":1}) is not isolated: whatever its steps do, its [try]
    throws at the subject of the mail at the latest, the console line of
    its [catch] throws again, and the turn throws a TypeError, without
    any mail handed to SendGrid and without its tick. *)
Theorem unit_with_unconvertible_name ext cfg customer metadata item i w :
  non_nullish item = true ->
  convertible (prop item "name") = false ->
  let run := fulfil_unit ext cfg customer metadata item i w in
  fst run = Throw unconvertible /\
  tick (snd run) = tick w /\
  forall m r, ~ In (SendMail m r) (new_effects w (snd run)).
Proof.
  intros Hi Hn. cbv zeta.
  rewrite (framed_fulfil_unit ext cfg customer metadata item i w).
  cbn [fst snd tick]. rewrite new_effects_app.
  unfold fulfil_unit, try_catch, issue_ticket, call, bind, lift, emit, now, advance,
    toUpperCase_receiver, Buffer_from, ToPrimitive.
  rewrite (get_non_nullish item "name" Hi), (get_non_nullish item "type" Hi), Hn.
  simpl.
  repeat destruct_inner.
  all: split; [ reflexivity | split; [ reflexivity | ] ].
  all: intros m r Hin; simpl in Hin; intuition discriminate.
Qed.

Lemma unit_with_unconvertible_name_witness :
  let run := fulfil_unit Demo.demo_ext Demo.demo_cfg Demo.customer
               (Demo.with_cart Demo.unnamed_cart)
               (Demo.line_named "regular" 2 Demo.stubborn) 0 (blank 1) in
  fst run = Throw unconvertible /\
  tick (snd run) = tick (blank 1) /\
  forall m r, ~ In (SendMail m r) (new_effects (blank 1) (snd run)).
Proof.
  apply (unit_with_unconvertible_name Demo.demo_ext Demo.demo_cfg Demo.customer
           (Demo.with_cart Demo.unnamed_cart)
           (Demo.line_named "regular" 2 Demo.stubborn) 0 (blank 1)).
  - reflexivity.
  - reflexivity.
Defined.

(** X22: A line whose quantity does not convert to a number (an object with
    an own [toString]) makes the test of the inner loop throw a TypeError
    before any turn: nothing is done for the line, and the lines after it
    are not reached. *)
Theorem quantity_that_does_not_convert ext (body : value -> nat -> M unit)
    (item : value) (rest : list value) (w : world) :
  non_nullish item = true ->
  convertible (prop item "quantity") = false ->
  for_of (item :: rest) (for_quantity ext body) w = (Throw unconvertible, w).
Proof.
  intros Hi Hq. simpl. unfold bind at 1.
  rewrite (for_quantity_unconvertible ext body item (prop item "quantity") w
             (get_non_nullish item "quantity" Hi) Hq).
  reflexivity.
Qed.

Lemma quantity_that_does_not_convert_witness :
  let item := VObj [("type", VStr "regular"); ("quantity", Demo.stubborn);
                    ("name", VStr "Regular Ticket")] in
  let body := fulfil_unit Demo.demo_ext Demo.demo_cfg Demo.customer Demo.cartless_metadata in
  for_of (item :: Demo.jane_cart) (for_quantity Demo.demo_ext body) Demo.start
  = (Throw unconvertible, Demo.start).
Proof.
  intros item body.
  apply (quantity_that_does_not_convert Demo.demo_ext body item Demo.jane_cart Demo.start).
  - reflexivity.
  - reflexivity.
Defined.

(** X23: A line in the quantity 1e999, which [JSON.parse] reads as the
    positive infinity, is served without end: its units follow one
    another for as long as the process lives, each doing what it does on
    its own, and the loop never returns. *)
Theorem infinite_quantity_never_ends ext cfg customer metadata item w :
  non_nullish item = true ->
  convertible (prop item "name") = true ->
  prop item "quantity" = VInfinity false ->
  let us := map (pair item) (seq 0 (uptime ext)) in
  for_quantity ext (fulfil_unit ext cfg customer metadata) item w
  = (Throw NeverSettles,
     {| ledger := ledger w;
        tick := tick w + uptime ext;
        trace := trace w ++ fulfilment_effects ext cfg customer metadata us (tick w) |}).
Proof.
  intros Hi Hn Hq. cbv zeta.
  rewrite (for_quantity_run ext _ item (prop item "quantity") w
             (get_non_nullish item "quantity" Hi)) by (rewrite Hq; reflexivity).
  unfold line_units. rewrite (get_non_nullish item "quantity" Hi), Hq.
  cbn [ToNumber trip_count unbounded].
  rewrite bind_run, run_units_fulfil.
  - rewrite length_map, length_seq. reflexivity.
  - apply Forall_forall. intros u Hu. apply in_map_iff in Hu.
    destruct Hu as (i & <- & _). split; assumption.
Qed.

Lemma infinite_quantity_never_ends_witness :
  let item := VObj [("type", VStr "regular"); ("quantity", VInfinity false);
                    ("name", VStr "Regular Ticket")] in
  let us := map (pair item) (seq 0 (uptime Demo.demo_ext)) in
  for_quantity Demo.demo_ext
    (fulfil_unit Demo.demo_ext Demo.demo_cfg Demo.customer Demo.cartless_metadata) item
    Demo.start
  = (Throw NeverSettles,
     {| ledger := ledger Demo.start;
        tick := tick Demo.start + uptime Demo.demo_ext;
        trace := trace Demo.start
                 ++ fulfilment_effects Demo.demo_ext Demo.demo_cfg Demo.customer
                      Demo.cartless_metadata us (tick Demo.start) |}).
Proof.
  intros item us.
  apply (infinite_quantity_never_ends Demo.demo_ext Demo.demo_cfg Demo.customer
           Demo.cartless_metadata item Demo.start).
  - reflexivity.
  - reflexivity.
  - reflexivity.
Defined.
